(** * btShieldML: a shallow embedding of the detection pipeline core

    The development follows the Go sources package by package:
    [pkg/types], [internal/features], [internal/ast], the analyzers
    under [internal/analyzers], [internal/scoring] and [internal/engine].

    Data is modelled as the code has it: Go [int] as [Z], [float64] as the
    kernel's binary64 floats, [string] and [[]byte] as lists of bytes
    (numbers in [0,255]) where the code looks inside them and as [string]
    where it only compares them, nil-able pointers and slices as [option]. *)

From Stdlib Require Import ZArith List String Ascii Bool Lia Permutation.
From Stdlib Require Import PrimFloat FloatOps SpecFloat Uint63.
From Stdlib Require FloatAxioms.
From Stdlib Require Import DecimalString.
From stdpp Require Import gmap strings.
From Equations Require Import Equations.
Import ListNotations.

Set Warnings "-inexact-float,-register-all".

Local Open Scope string_scope.
Local Open Scope Z_scope.

(** ** pkg/types *)

Module types.

(** [type RiskLevel int] with its [iota] constants. *)
Inductive RiskLevel : Type :=
| RiskUnknown
| RiskNone
| RiskLow
| RiskMedium
| RiskHigh
| RiskCritical.

(** The integer value of a risk level ([iota] numbering). *)
Definition RiskLevel_code (rl : RiskLevel) : Z :=
  match rl with
  | RiskUnknown => 0
  | RiskNone => 1
  | RiskLow => 2
  | RiskMedium => 3
  | RiskHigh => 4
  | RiskCritical => 5
  end.

Definition RiskLevel_String (rl : RiskLevel) : string :=
  match rl with
  | RiskNone => "Safe"
  | RiskLow => "Low"
  | RiskMedium => "Medium"
  | RiskHigh => "High"
  | RiskCritical => "Critical"
  | RiskUnknown => "Unknown"
  end.

Record FileInfo : Type := mkFileInfo {
  Path : string;
  Size : Z;
  ModTime : Z
}.

Record Finding : Type := mkFinding {
  AnalyzerName : string;
  Description : string;
  Risk : RiskLevel;
  Confidence : float
}.

End types.
Export types.

(** ** Go's [math] package and numeric conversions

    [float64] is the kernel's binary64 type, so [+], [*], [/] and the
    comparisons round and treat NaN exactly as the Go operators do. *)

Module gomath.

(** [float64(n)] for a non-negative [int] below [2^63]. *)
Definition float64_of_int (n : Z) : float :=
  PrimFloat.of_uint63 (Uint63.of_Z n).

(** [math.IsNaN]. *)
Definition IsNaN (x : float) : bool := PrimFloat.is_nan x.

(** [math.Round]: the nearest integer, halves away from zero.  A finite
    float is [m * 2^e]; for [e < 0] the integer part is [m >> -e] and
    the fraction reaches one half exactly when bit [-e-1] of [m] is set. *)
Definition Round (x : float) : float :=
  match Prim2SF x with
  | S754_finite s m e =>
      if 0 <=? e then x
      else
        let k := - e in
        let q := Z.shiftr (Z.pos m) k in
        let n := if Z.testbit (Z.pos m) (k - 1) then q + 1 else q in
        let r := float64_of_int n in
        if s then PrimFloat.opp r else r
  | _ => x
  end.

(** [int(f)] for a [float64]: truncation toward zero.  Where the value
    does not fit an [int64] (also NaN and the infinities) the result is
    implementation-dependent in Go; on amd64 it is the smallest [int64]. *)
Definition int_of_float64 (f : float) : Z :=
  match Prim2SF f with
  | S754_zero _ => 0
  | S754_finite s m e =>
      let a := if 0 <=? e then Z.shiftl (Z.pos m) e else Z.shiftr (Z.pos m) (- e) in
      let v := if s then - a else a in
      if (- 2 ^ 63 <=? v) && (v <? 2 ^ 63) then v else - 2 ^ 63
  | _ => - 2 ^ 63
  end.

End gomath.

(** ** Go strings: bytes and runes

    A Go [string] is a sequence of bytes; [for _, c := range s] and the
    [regexp] package both walk it rune by rune with the decoding of
    [unicode/utf8]: a well-formed UTF-8 sequence yields its code point,
    any other byte yields U+FFFD and advances by one byte. *)

Module utf8.

Definition RuneError : Z := 65533.

(** The bytes of a string, as numbers in [0,255]. *)
Definition bytes (s : string) : list Z :=
  List.map (fun c => Z.of_N (N_of_ascii c)) (list_ascii_of_string s).

Definition between (lo hi b : Z) : bool := (lo <=? b) && (b <=? hi).

(** A continuation byte [10xxxxxx]. *)
Definition cont (b : Z) : bool := between 128 191 b.

Definition low6 (b : Z) : Z := Z.land b 63.

(** The range the second byte of a multi-byte sequence must lie in
    ([utf8.acceptRanges]). *)
Definition accept (b0 : Z) : Z * Z :=
  if b0 =? 224 then (160, 191)
  else if b0 =? 237 then (128, 159)
  else if b0 =? 240 then (144, 191)
  else if b0 =? 244 then (128, 143)
  else (128, 191).

(** [utf8.DecodeRuneInString]: the first rune of [p] and its width. *)
Definition DecodeRune (p : list Z) : Z * nat :=
  match p with
  | [] => (RuneError, 0%nat)
  | b0 :: t =>
      if b0 <? 128 then (b0, 1%nat)
      else if between 194 223 b0 then
        match t with
        | b1 :: _ =>
            if cont b1
            then (Z.lor (Z.shiftl (Z.land b0 31) 6) (low6 b1), 2%nat)
            else (RuneError, 1%nat)
        | _ => (RuneError, 1%nat)
        end
      else if between 224 239 b0 then
        match t with
        | b1 :: b2 :: _ =>
            if between (fst (accept b0)) (snd (accept b0)) b1 && cont b2
            then (Z.lor (Z.shiftl (Z.land b0 15) 12)
                    (Z.lor (Z.shiftl (low6 b1) 6) (low6 b2)), 3%nat)
            else (RuneError, 1%nat)
        | _ => (RuneError, 1%nat)
        end
      else if between 240 244 b0 then
        match t with
        | b1 :: b2 :: b3 :: _ =>
            if between (fst (accept b0)) (snd (accept b0)) b1 && cont b2 && cont b3
            then (Z.lor (Z.shiftl (Z.land b0 7) 18)
                    (Z.lor (Z.shiftl (low6 b1) 12)
                       (Z.lor (Z.shiftl (low6 b2) 6) (low6 b3))), 4%nat)
            else (RuneError, 1%nat)
        | _ => (RuneError, 1%nat)
        end
      else (RuneError, 1%nat)
  end.

(** The runes of a byte sequence in order; [skip] counts the bytes of
    the current rune that are still to be passed over. *)
Fixpoint runes_from (skip : nat) (p : list Z) : list Z :=
  match p with
  | [] => []
  | b :: t =>
      match skip with
      | S k => runes_from k t
      | O =>
          let '(r, w) := DecodeRune p in
          r :: runes_from (Nat.pred w) t
      end
  end.

(** What [for _, c := range s] yields. *)
Definition runes (s : string) : list Z := runes_from 0 (bytes s).

(** [(c >= '0' && c <= '9') || (c >= 'A' && c <= 'Z') || (c >= 'a' && c <= 'z')],
    the complement of the class [[^a-zA-Z0-9]]. *)
Definition alnum (c : Z) : bool :=
  between 48 57 c || between 65 90 c || between 97 122 c.

End utf8.

(** A Go function that returns [(value, error)]. *)
Inductive result (A : Type) : Type :=
| Ok (a : A)
| Err (msg : string).
Arguments Ok {A} a.
Arguments Err {A} msg.

(** ** internal/ast: the tree model *)

Module ast.

(** A parsed tree is an [interface{}] holding what [encoding/json]
    produces ([nil], [float64], [string], [bool], [[]interface{}],
    [map[string]interface{}]) or an [astNode] struct.  A Go map is the
    list of its entries; its keys are distinct. *)
Inductive Value : Type :=
| VNil
| VFloat (f : float)
| VString (s : string)
| VBool (b : bool)
| VArray (items : list Value)
| VMap (entries : list (string * Value))
| VNode (Kind Flag LineNo : Z) (Children : Value).

(** [m[key]] with the comma-ok flag: [None] when the key is absent. *)
Fixpoint map_get (key : string) (entries : list (string * Value)) : option Value :=
  match entries with
  | [] => None
  | (k, v) :: rest => if String.eqb k key then Some v else map_get key rest
  end.

(** [m[key]] without the flag: the zero value [nil] when the key is absent. *)
Definition map_index (key : string) (entries : list (string * Value)) : Value :=
  match map_get key entries with
  | Some v => v
  | None => VNil
  end.

(** [sort.Strings] on the keys of a map, keeping each key's value with
    it: the entries in ascending key order. *)
Fixpoint insert_by_key {A : Type} (e : string * A) (l : list (string * A)) : list (string * A) :=
  match l with
  | [] => [e]
  | e' :: rest =>
      if String.leb (fst e) (fst e') then e :: l else e' :: insert_by_key e rest
  end.

Fixpoint sort_by_key {A : Type} (l : list (string * A)) : list (string * A) :=
  match l with
  | [] => []
  | e :: rest => insert_by_key e (sort_by_key rest)
  end.

(** [getInt]: JSON numbers arrive as [float64]; nothing else in a
    decoded tree has an integer kind. *)
Definition getInt (v : Value) : Z * bool :=
  match v with
  | VFloat fVal => (gomath.int_of_float64 fVal, true)
  | _ => (0, false)
  end.

Definition isAstNodeMap (data : list (string * Value)) : bool :=
  match map_get "kind" data with
  | Some _ => true
  | None => false
  end.

(** [transformAstNode].  The values of a map are transformed entry by
    entry; the [children] of a promoted node are the transformed
    [children] entry, which is what [transformAstNode(value["children"])]
    computes. *)
Fixpoint transformAstNode (nodeData : Value) : Value :=
  match nodeData with
  | VNil => VNil
  | VFloat _ | VString _ | VBool _ => nodeData
  | VArray value => VArray (List.map transformAstNode value)
  | VMap value =>
      let resultMap :=
        List.map (fun kv => (fst kv, transformAstNode (snd kv))) value in
      match map_get "kind" value with
      | Some kindVal =>
          let '(kind, kindIntOk) := getInt kindVal in
          if kindIntOk then
            VNode kind
                  (fst (getInt (map_index "flags" value)))
                  (fst (getInt (map_index "lineno" value)))
                  (map_index "children" resultMap)
          else VMap resultMap
      | None => VMap resultMap
      end
  | VNode _ _ _ _ => nodeData
  end.

(** [ParseAST] after [json.Unmarshal] has succeeded with [rawData]. *)
Definition ParseAST (rawData : Value) : result Value :=
  match rawData with
  | VMap rootMap =>
      match map_get "ast" rootMap with
      | Some astValue => Ok (transformAstNode astValue)
      | None =>
          match map_get "reason" rootMap with
          | Some (VString reasonStr) => Err ("php parser error: " ++ reasonStr)
          | Some _ => Err "php parser returned unknown error"
          | None => Err "unexpected JSON structure: missing 'ast' or 'reason' key in root map"
          end
      end
  | _ => Ok (transformAstNode rawData)
  end.

(** *** GetWordsAndCallable *)

Section Traversal.

(** The traversal threads the variables its two closures capture. *)
Context {St : Type}.
Variable nameChecker : string -> St -> bool * St.
Variable kindChecker : Z -> St -> bool * St.

(** [checkNameAndKind].  The recursion on a re-transformed map is not
    on a smaller value, so the model counts call depth: [None] means
    that [fuel] nested calls were not enough. *)
Fixpoint checkNameAndKind (fuel : nat) (node : Value) (st : St) : option St :=
  match fuel with
  | O => None
  | S fuel =>
      let each (acc : option St) (item : Value) : option St :=
        match acc with
        | Some s => checkNameAndKind fuel item s
        | None => None
        end in
      match node with
      | VNil => Some st
      | VNode kind _ _ children =>
          let '(kindOk, st1) := kindChecker kind st in
          let st2 :=
            if kindOk then
              match children with
              | VMap nameMap =>
                  match map_get "name" nameMap with
                  | Some (VString nameStr) => snd (nameChecker nameStr st1)
                  | _ => st1
                  end
              | _ => st1
              end
            else st1 in
          checkNameAndKind fuel children st2
      | VArray value => fold_left each value (Some st)
      | VMap value =>
          if isAstNodeMap value then
            checkNameAndKind fuel (transformAstNode (VMap value)) st
          else
            fold_left each (List.map snd (sort_by_key value)) (Some st)
      | VFloat _ | VString _ | VBool _ => Some st
      end
  end.

End Traversal.

(** The kinds that make a file callable: AST_SHELL_EXEC,
    AST_INCLUDE_OR_EVAL, AST_CALL, AST_METHOD_CALL, AST_STATIC_CALL. *)
Definition callable_kind (k : Z) : bool :=
  (k =? 269) || (k =? 265) || (k =? 515) || (k =? 768) || (k =? 769).

(** The two closures passed by [GetWordsAndCallable], over the captured
    variables [(words, callable)]. *)
Definition wordsChecker (s : string) (st : list string * bool) : bool * (list string * bool) :=
  (true, ((fst st ++ [s])%list, snd st)).

Definition callableChecker (k : Z) (st : list string * bool) : bool * (list string * bool) :=
  (true, if callable_kind k then (fst st, true) else st).

(** [GetWordsAndCallable]: the three results [(words, callable, err)];
    [words] is [None] for a nil slice. *)
Definition GetWordsAndCallable (fuel : nat) (astRoot : Value)
  : option (option (list string) * bool * option string) :=
  match astRoot with
  | VNil => Some (None, false, Some "cannot process nil AST")
  | _ =>
      match checkNameAndKind wordsChecker callableChecker fuel astRoot ([], false) with
      | Some (words, callable) =>
          Some (match words with [] => None | _ => Some words end, callable, None)
      | None => None
      end
  end.

(** *** Operation sequences: the repetition-compression pass *)

(** The [blockCompare] closure: do [data[i, i+length)] and
    [data[i+length, i+2*length)] hold the same elements? *)
Definition blockCompare (data : list Z) (i length : nat) : bool :=
  if (List.length data <? i + 2 * length)%nat then false
  else
    forallb
      (fun k => nth (i + k) data 0 =? nth (i + length + k) data 0)
      (seq 0 length).

(** [append(tmp[:j], tmp[j+length:]...)] into a fresh slice. *)
Definition deleteBlock (tmp : list Z) (j length : nat) : list Z :=
  (firstn j tmp ++ skipn (j + length) tmp)%list.

Lemma deleteBlock_shorter (tmp : list Z) (j l : nat) :
  (j < List.length tmp)%nat ->
  (List.length (deleteBlock tmp j (S l)) < List.length tmp)%nat.
Proof.
  intros Hj. unfold deleteBlock.
  rewrite List.length_app, List.length_firstn, List.length_skipn. lia.
Qed.

(** The inner loop [for j < len(tmp)] for one block length [S l]: a
    deletion shortens [tmp] and keeps [j], otherwise [j] advances. *)
Equations? scanBlocks (l : nat) (tmp : list Z) (j : nat) : list Z
  by wf (2 * List.length tmp - j)%nat lt :=
  scanBlocks l tmp j with lt_dec j (List.length tmp) := {
    | right _ => tmp
    | left Hj with blockCompare tmp j (S l) := {
        | true => scanBlocks l (deleteBlock tmp j (S l)) j
        | false => scanBlocks l tmp (S j)
      }
  }.
Proof.
  - pose proof (deleteBlock_shorter tmp j l Hj). lia.
  - lia.
Qed.

(** The loop [for length := maxLen; length >= 1; length--], counted by
    the value of [length]. *)
Fixpoint cleanLengths (length : nat) (tmp : list Z) : list Z :=
  match length with
  | O => tmp
  | S l => cleanLengths l (scanBlocks l tmp 0)
  end.

(** [cleanOpSerial]. *)
Definition cleanOpSerial (data : list (list Z)) (maxLen : Z) : list (list Z) :=
  List.map (fun v => cleanLengths (Z.to_nat maxLen) v) data.

Definition maxCleanTimes : Z := 10.
Definition maxCleanLength : Z := 5.

(** The loop
    [for i := 1; i < maxCleanTimes && len(result) != len(cleanedResult); i++]
    of [GetOpSerial], entered with the loop variable [i] and at most
    [n] iterations left; it returns [cleanedResult] and the final [i],
    which is the number of times the pass was applied. *)
Fixpoint cleanLoop (n : nat) (i : Z) (result cleanedResult : list (list Z))
  : list (list Z) * Z :=
  match n with
  | O => (cleanedResult, i)
  | S n =>
      if (i <? maxCleanTimes)
         && negb (List.length result =? List.length cleanedResult)%nat
      then cleanLoop n (i + 1) cleanedResult (cleanOpSerial cleanedResult maxCleanLength)
      else (cleanedResult, i)
  end.

(** The cleaning stage that ends [GetOpSerial], from the sequences the
    traversal emitted: the initial clean, then the loop. *)
Definition cleanStage (result : list (list Z)) : list (list Z) * Z :=
  cleanLoop (Z.to_nat maxCleanTimes) 1 result (cleanOpSerial result maxCleanLength).

(** *** GetOpSerial *)

(** [opQueueNode]; of the [Father] node only its [Kind] is ever read. *)
Record opQueueNode : Type := mkQ {
  Key : string;
  QValue : Value;
  Layer : Z;
  Father : option Z
}.

(** [strconv.Itoa] of a slice index. *)
Definition Itoa (i : nat) : string :=
  DecimalString.NilZero.string_of_uint (Nat.to_uint i).

Definition separator (layer : Z) (father : option Z) : opQueueNode :=
  mkQ "separator" VNil (layer + 1) father.

(** One iteration of the breadth-first loop on the dequeued [node]:
    the new [(result, currentSerial)] and the nodes appended to the queue. *)
Definition bfsStep (node : opQueueNode) (result : list (list Z)) (currentSerial : list Z)
  : list (list Z) * list Z * list opQueueNode :=
  match QValue node with
  | VNode kind _ _ children =>
      (result, (currentSerial ++ [kind])%list,
       match children with
       | VNil => []
       | _ => [mkQ "children" children (Layer node + 1) (Some kind)]
       end)
  | VString _ | VFloat _ | VBool _ => (result, currentSerial, [])
  | VNil =>
      if String.eqb (Key node) "separator" && (0 <? List.length currentSerial)%nat then
        let finishSerial :=
          match Father node with
          | Some fatherKind => fatherKind :: currentSerial
          | None => currentSerial
          end in
        ((result ++ [finishSerial])%list, [], [])
      else (result, currentSerial, [])
  | VArray value =>
      (result, currentSerial,
       (List.map (fun ix => mkQ (Itoa (fst ix)) (snd ix) (Layer node + 1) (Father node))
                 (combine (seq 0 (List.length value)) value)
        ++ (if String.eqb (Key node) "children" && (0 <? List.length value)%nat
            then [separator (Layer node) (Father node)] else []))%list)
  | VMap value =>
      if isAstNodeMap value then
        (result, currentSerial,
         [mkQ (Key node) (transformAstNode (VMap value)) (Layer node) (Father node)])
      else
        (result, currentSerial,
         (List.map (fun kv => mkQ (fst kv) (snd kv) (Layer node + 1) (Father node))
                   (sort_by_key value)
          ++ (if String.eqb (Key node) "children" && (0 <? List.length value)%nat
              then [separator (Layer node) (Father node)] else []))%list)
  end.

(** The loop [for len(queue) > 0]; [None] when [fuel] iterations did
    not empty the queue. *)
Fixpoint bfsLoop (fuel : nat) (queue : list opQueueNode)
  (result : list (list Z)) (currentSerial : list Z) : option (list (list Z) * list Z) :=
  match queue with
  | [] => Some (result, currentSerial)
  | node :: rest =>
      match fuel with
      | O => None
      | S fuel =>
          let '(result', currentSerial', more) := bfsStep node result currentSerial in
          bfsLoop fuel (rest ++ more)%list result' currentSerial'
      end
  end.

(** [GetOpSerial]: traversal, the residual sequence, then the cleaning
    stage. *)
Definition GetOpSerial (fuel : nat) (astRoot : Value) : option (result (list (list Z))) :=
  match astRoot with
  | VNil => Some (Err "cannot process nil AST")
  | _ =>
      match bfsLoop fuel [mkQ "root" astRoot 0 None] [] [] with
      | Some (result, currentSerial) =>
          let result :=
            if (0 <? List.length currentSerial)%nat
            then (result ++ [currentSerial])%list else result in
          Some (Ok (fst (cleanStage result)))
      | None => None
      end
  end.

End ast.

(** ** internal/features *)

Module features.

Import gomath utf8.

Record StatisticalFeatures : Type := mkStat {
  LM : float;
  LVC : float;
  WM : float;
  WVC : float;
  SR : float;
  TR : float;
  SPL : float;
  IE : float
}.

(** [FeatureSet]; a nil pointer or slice is [None], a nil [RawAST] is
    [ast.VNil]. *)
Record FeatureSet : Type := mkFeatureSet {
  Statistical : option StatisticalFeatures;
  ASTWords : option (list string);
  ASTOpSequence : option (list (list Z));
  Callable : bool;
  RawAST : ast.Value
}.

Local Open Scope float_scope.

(** [roundToSix]; [math.Pow(10, 6)] is exactly [1e6]. *)
Definition roundToSix (value : float) : float :=
  let multiplier := 1000000 in
  Round (value * multiplier) / multiplier.

(** [len(src)], in bytes. *)
Definition len (src : string) : Z := Z.of_nat (String.length src).

(** [strings.Split(src, "\n")] followed by [len] of each piece:
    [cur] is the length of the piece being read. *)
Fixpoint lineLengths (cur : Z) (p : list Z) : list Z :=
  match p with
  | [] => [cur]
  | b :: t => if (b =? 10)%Z then cur :: lineLengths 0 t else lineLengths (cur + 1) t
  end.

Definition statLines (src : string) : list Z := lineLengths 0 (bytes src).

(** [stat.Max]: the largest element. *)
Definition stat_Max (l : list Z) : Z :=
  match l with
  | [] => 0%Z
  | x :: t => fold_left Z.max t x
  end.

Definition lineMax (src : string) : Z := stat_Max (statLines src).

(** The loop of [statWords] over the runes of [src]: [l] is the length
    of the current run, [acc] the runs closed so far. *)
Fixpoint wordRuns (l : Z) (acc : list Z) (rs : list Z) : list Z :=
  match rs with
  | [] => if (l =? 0)%Z then acc else (acc ++ [l])%list
  | c :: t =>
      if alnum c then wordRuns (l + 1) acc t
      else if (l =? 0)%Z then wordRuns l acc t
      else wordRuns 0 (acc ++ [l])%list t
  end.

Definition statWords (src : string) : list Z := wordRuns 0 [] (runes src).

Definition wordMax (src : string) : Z := stat_Max (statWords src).

(** The number of matches of the one-rune pattern [[^a-zA-Z0-9]]:
    every rune outside the class is one match. *)
Definition symbolNumber (src : string) : Z :=
  Z.of_nat (List.length (List.filter (fun c => negb (alnum c)) (runes src))).

Definition symbolRatio (src : string) : float :=
  if (len src =? 0)%Z then 0
  else float64_of_int (symbolNumber src) / float64_of_int (len src) * 100.

(** The number of matches of the pattern [;]. *)
Definition statementNumber (src : string) : Z :=
  Z.of_nat (List.length (List.filter (fun c => (c =? 59)%Z) (runes src))).

Definition statementPerLine (src : string) : float :=
  let lineCount := float64_of_int (Z.of_nat (List.length (statLines src))) in
  if lineCount =? 0 then 0
  else float64_of_int (statementNumber src) / lineCount.

(** [lst[chr]++] on the frequency array. *)
Definition bump (chr : Z) (lst : list float) : list float :=
  alter (fun x => x + 1) (Z.to_nat chr) lst.

(** One turn of the counting loop of [infomationEntropy]. *)
Definition countRune (st : list float * float) (chr : Z) : list float * float :=
  if (0 <=? chr)%Z && (chr <? 256)%Z && negb (chr =? 10)%Z
  then (bump chr (fst st), snd st + 1)
  else st.

Section Externals.

(** [math.Log2], [stat.Mean] and [stat.Variance] of an [IntSlice],
    and the number of matches of the pattern [<[\x00-\xFF]*?>] are
    computed outside this repository. *)
Variable Log2 : float -> float.
Variable stat_Mean : list Z -> float.
Variable stat_Variance : list Z -> float.
Variable tagNumber : string -> Z.

Definition lineVariationCoefficient (src : string) : float :=
  let lines := statLines src in
  if (List.length lines <=? 1)%nat || (stat_Mean lines =? 0) then 0
  else PrimFloat.sqrt (stat_Variance lines) / stat_Mean lines.

Definition wordVariationCoefficient (src : string) : float :=
  let words := statWords src in
  if (List.length words <=? 1)%nat || (stat_Mean words =? 0) then 0
  else PrimFloat.sqrt (stat_Variance words) / stat_Mean words * 100.

Definition tagRatio (src : string) : float :=
  let wordCount := float64_of_int (Z.of_nat (List.length (statWords src))) in
  if wordCount =? 0 then 0
  else float64_of_int (tagNumber src) / wordCount * 100.

(** The entropy loop over the 256 frequencies. *)
Definition entropyStep (chrs : float) (entropy : float) (count : float) : float :=
  if 0 <? count then
    let probability := count / chrs in
    entropy - probability * Log2 probability
  else entropy.

Definition entropyOf (st : list float * float) : float :=
  fold_left (entropyStep (snd st)) (fst st) 0.

Definition infomationEntropy (src : string) : float :=
  entropyOf (fold_left countRune (runes src) (repeat 0 256, 0)).

Definition CalculateStatisticalFeatures (content : string) : StatisticalFeatures :=
  let src := content in
  {| LM := roundToSix (float64_of_int (lineMax src));
     LVC := roundToSix (lineVariationCoefficient src);
     WM := roundToSix (float64_of_int (wordMax src));
     WVC := roundToSix (wordVariationCoefficient src);
     SR := roundToSix (symbolRatio src);
     TR := roundToSix (tagRatio src);
     SPL := roundToSix (statementPerLine src);
     IE := roundToSix (infomationEntropy src) |}.

(** [ExtractAllFeatures]; [astMgr] is [Some fuel] for a manager whose
    traversals may nest [fuel] calls and [None] for a nil manager.
    The result is [None] when a traversal does not return. *)
Definition ExtractAllFeatures (content : string) (goAST : ast.Value) (astMgr : option nat)
  : option (FeatureSet * list string) :=
  let stats :=
    if (0 <? len content)%Z then Some (CalculateStatisticalFeatures content) else None in
  match goAST, astMgr with
  | ast.VNil, _ => Some (mkFeatureSet stats None None false goAST, [])
  | _, None =>
      Some (mkFeatureSet stats None None false goAST,
            ["ast manager was nil during feature extraction"%string])
  | _, Some fuel =>
      match ast.GetWordsAndCallable fuel goAST, ast.GetOpSerial fuel goAST with
      | Some (words, callable, wordsErr), Some ops =>
          let '(astWords, isCallable, errs1) :=
            match wordsErr with
            | Some e => (None, false, ["ast words/callable extraction failed: " ++ e]%string)
            | None => (words, callable, [])
            end in
          let '(opSeq, errs2) :=
            match ops with
            | Err e => (None, ["ast op sequence extraction failed: " ++ e]%string)
            | Ok [] => (None, [])
            | Ok l => (Some l, [])
            end in
          Some (mkFeatureSet stats astWords opSeq isCallable goAST, (errs1 ++ errs2)%list)
      | _, _ => None
      end
  end.

End Externals.

End features.

(** ** internal/analyzers/static: the statistical analyzer *)

Module static.

Import features.
Local Open Scope float_scope.

Record StatisticalThresholds : Type := mkThresholds {
  MinStat : StatisticalFeatures;
  MaxStat : StatisticalFeatures
}.

Definition NaN : float := PrimFloat.nan.

Definition GetDefaultStatisticalThresholds : StatisticalThresholds :=
  {| MinStat := {| LM := NaN; LVC := 0.1; WM := NaN; WVC := NaN;
                   SR := 10.0; TR := NaN; SPL := 0.001; IE := NaN |};
     MaxStat := {| LM := 2048.0; LVC := NaN; WM := 1024.0; WVC := NaN;
                   SR := NaN; TR := NaN; SPL := NaN; IE := NaN |} |}.

(** [outOfRange]; [x > max] is [max < x]. *)
Definition outOfRange (x min max : float) : bool :=
  if negb (gomath.IsNaN min) && (x <? min) then true
  else if negb (gomath.IsNaN max) && (max <? x) then true
  else false.

Definition IsStatisticalAbnormal (sf : option StatisticalFeatures) (std : StatisticalThresholds) : bool :=
  match sf with
  | None => false
  | Some sf =>
      outOfRange (LM sf) (LM (MinStat std)) (LM (MaxStat std)) ||
      outOfRange (LVC sf) (LVC (MinStat std)) (LVC (MaxStat std)) ||
      outOfRange (WM sf) (WM (MinStat std)) (WM (MaxStat std)) ||
      outOfRange (WVC sf) (WVC (MinStat std)) (WVC (MaxStat std)) ||
      outOfRange (SR sf) (SR (MinStat std)) (SR (MaxStat std)) ||
      outOfRange (TR sf) (TR (MinStat std)) (TR (MaxStat std)) ||
      outOfRange (SPL sf) (SPL (MinStat std)) (SPL (MaxStat std)) ||
      outOfRange (IE sf) (IE (MinStat std)) (IE (MaxStat std))
  end.

Record StatisticalAnalyzer : Type := mkStatisticalAnalyzer {
  thresholds : StatisticalThresholds
}.

Definition NewStatisticalAnalyzer : StatisticalAnalyzer :=
  {| thresholds := GetDefaultStatisticalThresholds |}.

Definition Name (a : StatisticalAnalyzer) : string := "statistical".

Definition RequiredFeatures (a : StatisticalAnalyzer) : list string :=
  ["statistical"; "callable"]%string.

Section Analyze.

(** The text [fmt.Sprintf] renders for the finding. *)
Variable describe : StatisticalFeatures -> string.

(** [StatisticalAnalyzer.Analyze]: the finding and the error. *)
Definition Analyze (a : StatisticalAnalyzer) (fileInfo : FileInfo)
  (content : string) (featureSet : option FeatureSet)
  : option Finding * option string :=
  match featureSet with
  | Some fs =>
      match Statistical fs with
      | Some calculatedStats =>
          let isStatAbnormal :=
            IsStatisticalAbnormal (Some calculatedStats) (thresholds a) in
          let isAstCallable := Callable fs in
          if isStatAbnormal && isAstCallable then
            (Some {| AnalyzerName := Name a;
                     Description := describe calculatedStats;
                     Risk := RiskMedium;
                     Confidence := 0.7 |}, None)
          else (None, None)
      | None =>
          if (len content =? 0)%Z then (None, None)
          else (None, Some "missing statistical features"%string)
      end
  | None =>
      if (len content =? 0)%Z then (None, None)
      else (None, Some "missing statistical features"%string)
  end.

End Analyze.

End static.

(** ** internal/analyzers/ml: the SVM fusion analyzer *)

Module ml.

Import features.
Local Open Scope float_scope.

Record FeatureInfo : Type := mkFeatureInfo {
  FName : string;
  Weight : float
}.

(** A nil slice is [None]. *)
Record FeatureStats : Type := mkFeatureStats {
  Mins : option (list float);
  Maxs : option (list float);
  Means : option (list float);
  Stds : option (list float)
}.

Record SigmoidParams : Type := mkSigmoid {
  A : float;
  B : float
}.

Record ValidationSample : Type := mkSample {
  Features : list float;
  RawDecision : float;
  SigmoidScore : float;
  ExpectedClass : string
}.

Record CalibrationInfo : Type := mkCalibration {
  FeatureNames : list string;
  NumFeatures : Z;
  Stats : FeatureStats;
  Sigmoid : SigmoidParams;
  OptimalThreshold : float;
  ClassMapping : gmap string string;
  ValidationSamples : gmap string ValidationSample
}.

(** The zero value of [CalibrationInfo]. *)
Definition zeroCalibration : CalibrationInfo :=
  {| FeatureNames := []; NumFeatures := 0;
     Stats := mkFeatureStats None None None None;
     Sigmoid := mkSigmoid 0 0; OptimalThreshold := 0;
     ClassMapping := ∅; ValidationSamples := ∅ |}.

Definition slen (l : option (list float)) : nat :=
  match l with
  | Some l => List.length l
  | None => O
  end.

Definition sidx (l : option (list float)) (i : nat) : float :=
  match l with
  | Some l => nth i l 0
  | None => 0
  end.

Definition set_Sigmoid (c : CalibrationInfo) (p : SigmoidParams) : CalibrationInfo :=
  {| FeatureNames := FeatureNames c; NumFeatures := NumFeatures c;
     Stats := Stats c; Sigmoid := p; OptimalThreshold := OptimalThreshold c;
     ClassMapping := ClassMapping c; ValidationSamples := ValidationSamples c |}.

Definition set_OptimalThreshold (c : CalibrationInfo) (t : float) : CalibrationInfo :=
  {| FeatureNames := FeatureNames c; NumFeatures := NumFeatures c;
     Stats := Stats c; Sigmoid := Sigmoid c; OptimalThreshold := t;
     ClassMapping := ClassMapping c; ValidationSamples := ValidationSamples c |}.

(** What is read from the binary's embedded files and from disk; a
    failed read is [None]. *)
Record Assets : Type := mkAssets {
  embeddedInfo : option string;
  diskInfo : option string;
  embeddedModel : option string;
  diskModel : option string
}.

Section Svm.

(** Collaborators outside this model: the libsvm model and its
    decision function, the Bayes analyzer, [math.Exp], and
    [json.Unmarshal] into the two structs it is used with (the new
    contents of the target and whether it failed). *)
Context {Model : Type}.
Variable PredictValues : Model -> gmap Z float -> list float.
Variable NewModelFromFileStream : string -> option Model.
Context {Bayes : Type}.
Variable NewBayesWordsAnalyzer : string -> option Bayes.
Variable BayesAnalyze : Bayes -> string -> FeatureSet -> option Finding * option string.
Variable Exp : float -> float.
Variable UnmarshalCalibration : string -> CalibrationInfo -> CalibrationInfo * bool.
Variable UnmarshalFeatureInfo : string -> (list string * Z) * bool.
Variable describe : float -> float -> string.

Record SvmProssesAnalyzer : Type := mkSvm {
  modelPath : string;
  featureInfos : list FeatureInfo;
  model : option Model;
  bayesModel : option Bayes;
  isInitialized : bool;
  featureNames : list string;
  calibration : CalibrationInfo;
  validationPerformed : bool;
  validationPassed : bool
}.

Definition set_calibration (s : SvmProssesAnalyzer) (c : CalibrationInfo) :=
  mkSvm (modelPath s) (featureInfos s) (model s) (bayesModel s) (isInitialized s)
        (featureNames s) c (validationPerformed s) (validationPassed s).

Definition set_featureNames (s : SvmProssesAnalyzer) (n : list string) :=
  mkSvm (modelPath s) (featureInfos s) (model s) (bayesModel s) (isInitialized s)
        n (calibration s) (validationPerformed s) (validationPassed s).

Definition set_featureInfos (s : SvmProssesAnalyzer) (l : list FeatureInfo) :=
  mkSvm (modelPath s) l (model s) (bayesModel s) (isInitialized s)
        (featureNames s) (calibration s) (validationPerformed s) (validationPassed s).

Definition set_model (s : SvmProssesAnalyzer) (m : option Model) :=
  mkSvm (modelPath s) (featureInfos s) m (bayesModel s) (isInitialized s)
        (featureNames s) (calibration s) (validationPerformed s) (validationPassed s).

Definition set_bayesModel (s : SvmProssesAnalyzer) (b : option Bayes) :=
  mkSvm (modelPath s) (featureInfos s) (model s) b (isInitialized s)
        (featureNames s) (calibration s) (validationPerformed s) (validationPassed s).

Definition set_isInitialized (s : SvmProssesAnalyzer) (b : bool) :=
  mkSvm (modelPath s) (featureInfos s) (model s) (bayesModel s) b
        (featureNames s) (calibration s) (validationPerformed s) (validationPassed s).

Definition set_validationPerformed (s : SvmProssesAnalyzer) (b : bool) :=
  mkSvm (modelPath s) (featureInfos s) (model s) (bayesModel s) (isInitialized s)
        (featureNames s) (calibration s) b (validationPassed s).

Definition set_validationPassed (s : SvmProssesAnalyzer) (b : bool) :=
  mkSvm (modelPath s) (featureInfos s) (model s) (bayesModel s) (isInitialized s)
        (featureNames s) (calibration s) (validationPerformed s) b.

(** [applySigmoid]: [1/(1+exp(-a*(x-b)))]. *)
Definition applySigmoid (s : SvmProssesAnalyzer) (rawScore : float) : float :=
  let a := A (Sigmoid (calibration s)) in
  let b := B (Sigmoid (calibration s)) in
  1 / (1 + Exp (- a * (rawScore - b))).

(** [loadFeatureInfo]: the analyzer afterwards and whether it failed. *)
Definition loadFeatureInfo (s : SvmProssesAnalyzer) (data : string)
  : SvmProssesAnalyzer * bool :=
  let '((names, _), failed) := UnmarshalFeatureInfo data in
  if failed then (s, true)
  else
    let s1 := if (0 <? List.length names)%nat then set_featureNames s names else s in
    (set_featureInfos s1
       (List.map (fun name => mkFeatureInfo name 1) (featureNames s1)), false).

(** [loadCalibrationInfo]: the analyzer afterwards and the error. *)
Definition loadCalibrationInfo (s : SvmProssesAnalyzer) (data : string)
  : SvmProssesAnalyzer * option string :=
  let '(c, failed) := UnmarshalCalibration data (calibration s) in
  let s := set_calibration s c in
  if failed then (s, Some "unmarshal"%string)
  else if (List.length (FeatureNames c) =? 0)%nat || (NumFeatures c =? 0)%Z then
    (s, Some "calibration incomplete: feature names or count missing"%string)
  else
    let c1 :=
      if A (Sigmoid c) =? 0 then set_Sigmoid c (mkSigmoid 1 (B (Sigmoid c))) else c in
    let c2 :=
      if (OptimalThreshold c1 <=? 0) || (1 <=? OptimalThreshold c1)
      then set_OptimalThreshold c1 0.5 else c1 in
    let s := set_calibration s c2 in
    if match Means (Stats c2) with None => true | Some _ => false end
       || (Z.of_nat (slen (Means (Stats c2))) <? NumFeatures c2)%Z then
      (s, Some "feature statistics incomplete: means missing"%string)
    else if match Stds (Stats c2) with None => true | Some _ => false end
            || (Z.of_nat (slen (Stds (Stats c2))) <? NumFeatures c2)%Z then
      (s, Some "feature statistics incomplete: stds missing"%string)
    else
      let s :=
        if (List.length (featureNames s) <=? List.length (FeatureNames c2))%nat
        then set_featureNames s (FeatureNames c2) else s in
      (s, None).

(** The feature map of a validation sample: indices start at 1. *)
Definition sampleFeatures (l : list float) : gmap Z float :=
  list_to_map (combine (List.map (fun i => Z.of_nat (S i)) (seq 0 (List.length l))) l).

(** One turn of the validation loop over
    [(validationPassed, correctCount, totalCount)]. *)
Definition validateSample (s : SvmProssesAnalyzer) (m : Model)
  (st : bool * Z * Z) (sample : ValidationSample) : bool * Z * Z :=
  let '(passed, correctCount, totalCount) := st in
  match PredictValues m (sampleFeatures (Features sample)) with
  | [] => st
  | rawScore :: _ =>
      let sigmoidScore := applySigmoid s rawScore in
      let predictedClass :=
        if OptimalThreshold (calibration s) <=? sigmoidScore
        then "webshell"%string else "normal"%string in
      if String.eqb predictedClass (ExpectedClass sample) then
        (passed, (correctCount + 1)%Z, (totalCount + 1)%Z)
      else
        let expectedSignDirection :=
          if String.eqb (ExpectedClass sample) "normal" then -1 else 1 in
        let actualSignDirection := if rawScore <? 0 then -1 else 1 in
        (if negb (expectedSignDirection =? actualSignDirection) then false else passed,
         correctCount, (totalCount + 1)%Z)
  end.

(** [validateModel]. *)
Definition validateModel (s : SvmProssesAnalyzer) : SvmProssesAnalyzer :=
  match model s with
  | Some m =>
      if negb (isInitialized s) then s
      else
        let s := set_validationPerformed s true in
        let samples := List.map snd (map_to_list (ValidationSamples (calibration s))) in
        if (List.length samples =? 0)%nat then s
        else
          let s := set_validationPassed s true in
          let '(passed, correctCount, totalCount) :=
            fold_left (validateSample s m) samples (true, 0%Z, 0%Z) in
          let s := set_validationPassed s passed in
          if (0 <? totalCount)%Z then
            let accuracy :=
              gomath.float64_of_int correctCount / gomath.float64_of_int totalCount in
            if accuracy <? 0.5 then set_validationPassed s false else s
          else s
  | None => s
  end.

(** [NewSvmProssesAnalyzer]. *)
Definition NewSvmProssesAnalyzer (files : Assets) (modelPath : string)
  : SvmProssesAnalyzer :=
  let analyzer :=
    {| modelPath := modelPath; featureInfos := []; model := None;
       bayesModel := None; isInitialized := false;
       featureNames := ["LM"; "LVC"; "WM"; "WVC"; "SR"; "TR"; "SPL"; "IE"; "BAYES"]%string;
       calibration := zeroCalibration;
       validationPerformed := false; validationPassed := false |} in
  match (match embeddedInfo files with
         | Some d => Some d
         | None => diskInfo files
         end) with
  | None => analyzer
  | Some infoData =>
      let '(c, failed) := UnmarshalCalibration infoData (calibration analyzer) in
      let analyzer := set_calibration analyzer c in
      if failed then analyzer
      else
        let analyzer := fst (loadFeatureInfo analyzer infoData) in
        let analyzer := set_bayesModel analyzer (NewBayesWordsAnalyzer modelPath) in
        match (match embeddedModel files with
               | Some d => Some d
               | None => diskModel files
               end) with
        | None => analyzer
        | Some modelData =>
            let analyzer := set_model analyzer (NewModelFromFileStream modelData) in
            match model analyzer with
            | None => analyzer
            | Some _ =>
                let analyzer := validateModel analyzer in
                set_isInitialized analyzer true
            end
        end
  end.

(** [normalizeFeature]. *)
Definition normalizeFeature (s : SvmProssesAnalyzer) (value : float)
  (meanIdx stdIdx : nat) : float :=
  let st := Stats (calibration s) in
  if (slen (Means st) <=? meanIdx)%nat || (slen (Stds st) <=? stdIdx)%nat then value
  else
    let mean := sidx (Means st) meanIdx in
    let std := sidx (Stds st) stdIdx in
    let value :=
      if (meanIdx <? slen (Mins st))%nat && (meanIdx <? slen (Maxs st))%nat then
        let min := sidx (Mins st) meanIdx in
        let max := sidx (Maxs st) meanIdx in
        let extendedMin := min - 0.5 * (max - min) in
        let extendedMax := max + 0.5 * (max - min) in
        if value <? extendedMin then extendedMin
        else if extendedMax <? value then extendedMax
        else value
      else value in
    if 0 <? std then (value - mean) / std else 0.

(** [extractFeatures]. *)
Definition extractFeatures (s : SvmProssesAnalyzer) (filepath content : string)
  (featureSet : FeatureSet) (statFeatures : StatisticalFeatures) : gmap Z float :=
  let bayesScore :=
    match bayesModel s, ASTWords featureSet with
    | Some b, Some (_ :: _) =>
        match BayesAnalyze b content featureSet with
        | (Some finding, None) => Confidence finding
        | _ => 0.5
        end
    | _, _ => 0.5
    end in
  <[9%Z := normalizeFeature s bayesScore 8 9]>
  (<[8%Z := normalizeFeature s (IE statFeatures) 7 8]>
  (<[7%Z := normalizeFeature s (SPL statFeatures) 6 7]>
  (<[6%Z := normalizeFeature s (TR statFeatures) 5 6]>
  (<[5%Z := normalizeFeature s (SR statFeatures) 4 5]>
  (<[4%Z := normalizeFeature s (WVC statFeatures) 3 4]>
  (<[3%Z := normalizeFeature s (WM statFeatures) 2 3]>
  (<[2%Z := normalizeFeature s (LVC statFeatures) 1 2]>
  (<[1%Z := normalizeFeature s (LM statFeatures) 0 1]> ∅)))))))).

(** [predict]: the calibrated score and the raw score it was computed
    from. *)
Definition predict (s : SvmProssesAnalyzer) (feats : gmap Z float) : float * float :=
  match model s with
  | None => (0.5, 0)
  | Some m =>
      match PredictValues m feats with
      | [] => (0.5, 0)
      | rawScore :: _ =>
          let rawScore :=
            if validationPerformed s && negb (validationPassed s)
            then - rawScore else rawScore in
          (applySigmoid s rawScore, rawScore)
      end
  end.

(** [SvmProssesAnalyzer.Analyze]. *)
Definition Analyze (s : SvmProssesAnalyzer) (fileInfo : FileInfo) (content : string)
  (featureSet : option FeatureSet) : option Finding * option string :=
  if negb (isInitialized s)
     || match model s with None => true | Some _ => false end
  then (None, None)
  else
    match featureSet with
    | None => (None, Some "missing statistical feature set"%string)
    | Some fs =>
        match Statistical fs with
        | None => (None, Some "missing statistical feature set"%string)
        | Some statFeatures =>
            let feats := extractFeatures s (Path fileInfo) content fs statFeatures in
            let '(score, rawScore) := predict s feats in
            let threshold := 0.95 in
            if threshold <=? score then
              (Some {| AnalyzerName := "svm_prosses";
                       Description := describe score rawScore;
                       Risk := RiskHigh;
                       Confidence := score |}, None)
            else (None, None)
        end
    end.

End Svm.

End ml.

(** ** internal/scoring *)

Module scoring.

Import features.

(** The four flags the loop over the findings maintains. *)
Record Matches : Type := mkMatches {
  hasRegexMatch : bool;
  hasYaraMatch : bool;
  highConfidencePrediction : bool;
  hasStatisticalAnomaly : bool
}.

Definition noMatches : Matches := mkMatches false false false false.

(** The [switch finding.AnalyzerName] of the loop body. *)
Definition noteFinding (m : Matches) (finding : Finding) : Matches :=
  if String.eqb (AnalyzerName finding) "regex" then
    mkMatches true (hasYaraMatch m) (highConfidencePrediction m) (hasStatisticalAnomaly m)
  else if String.eqb (AnalyzerName finding) "yara" then
    mkMatches (hasRegexMatch m) true (highConfidencePrediction m) (hasStatisticalAnomaly m)
  else if String.eqb (AnalyzerName finding) "svm_prosses" then
    if (0.91 <? Confidence finding)%float then
      mkMatches (hasRegexMatch m) (hasYaraMatch m) true (hasStatisticalAnomaly m)
    else m
  else if String.eqb (AnalyzerName finding) "statistical" then
    mkMatches (hasRegexMatch m) (hasYaraMatch m) (highConfidencePrediction m) true
  else m.

(** The value of [totalScore] after the cap at 5. *)
Definition totalScore (findings : list Finding) (featureSet : option FeatureSet) : Z :=
  let m := fold_left noteFinding findings noMatches in
  let totalScore := 0 in
  let totalScore := if hasRegexMatch m then totalScore + 1 else totalScore in
  let totalScore := if hasYaraMatch m then totalScore + 1 else totalScore in
  let totalScore :=
    if hasRegexMatch m && hasYaraMatch m then totalScore + 2 else totalScore in
  let hasCallable :=
    match featureSet with
    | Some fs => Callable fs
    | None => false
    end in
  let totalScore :=
    if hasCallable && highConfidencePrediction m then totalScore + 2 else totalScore in
  let totalScore :=
    if hasCallable && hasStatisticalAnomaly m then totalScore + 2 else totalScore in
  if 5 <? totalScore then 5 else totalScore.

(** The final [switch] from score to risk level. *)
Definition riskOfScore (totalScore : Z) : RiskLevel :=
  if 5 <=? totalScore then RiskCritical
  else if 4 <=? totalScore then RiskHigh
  else if 3 <=? totalScore then RiskMedium
  else if 1 <=? totalScore then RiskLow
  else RiskNone.

(** [CalculateScore]. *)
Definition CalculateScore (findings : list Finding) (featureSet : option FeatureSet)
  : RiskLevel :=
  match findings with
  | [] => RiskNone
  | _ => riskOfScore (totalScore findings featureSet)
  end.

End scoring.

(** ** internal/engine *)

Module engine.

Import features.

(** The [Analyzer] interface. *)
Record Analyzer : Type := mkAnalyzer {
  Name : string;
  RequiredFeatures : list string;
  Analyze : FileInfo -> string -> FeatureSet -> option Finding * option string
}.

(** What a scan observes outside the process: [os.Stat] (size and
    modification time, or an error), [ioutil.ReadFile], the tree the
    bridge returns for a content ([ast.VNil] on failure), and the order
    in which [range] walks the keys of the analyzer map, which the Go
    runtime is free to choose. *)
Record World : Type := mkWorld {
  Stat : string -> result (Z * Z);
  ReadFile : string -> result string;
  GetAST : string -> ast.Value;
  rangeOrder : list string
}.

(** [Engine]; [astManager] is [Some fuel] when a manager was created
    (see [features.ExtractAllFeatures]). *)
Record Engine : Type := mkEngine {
  analyzers : gmap string Analyzer;
  astManager : option nat
}.

(** [ScanResult]; the wall-clock [Duration] is not modelled. *)
Record ScanResult : Type := mkScanResult {
  File : FileInfo;
  OverallRisk : RiskLevel;
  Findings : list Finding;
  Error : option string;
  SkippedAST : bool
}.

(** What [scanFile] does besides computing its result, in order. *)
Inductive Event : Type :=
| EvStat (path : string)
| EvReadFile (path : string)
| EvGetAST
| EvExtract
| EvAnalyze (name : string)
| EvSkip (name : string)
| EvScore.

(** [strings.ToLower] on the ASCII letters; the feature keys the
    analyzers declare are ASCII. *)
Definition lower_ascii (c : ascii) : ascii :=
  let n := nat_of_ascii c in
  if ((65 <=? n) && (n <=? 90))%nat then ascii_of_nat (n + 32) else c.

Fixpoint ToLower (s : string) : string :=
  match s with
  | EmptyString => EmptyString
  | String c rest => String (lower_ascii c) (ToLower rest)
  end.

(** The [switch] of [canRunAnalyzer]: [Some keyPresent], or [None] for
    an unknown key. *)
Definition keyPresent (fs : FeatureSet) (featureKey : string) : option bool :=
  let k := ToLower featureKey in
  if String.eqb k "statistical" then
    Some (match Statistical fs with Some _ => true | None => false end)
  else if String.eqb k "ast_words" then
    Some (match ASTWords fs with Some _ => true | None => false end)
  else if String.eqb k "ast_op_sequence" then
    Some (match ASTOpSequence fs with Some _ => true | None => false end)
  else if String.eqb k "callable" || String.eqb k "ast_callable" then Some true
  else if String.eqb k "raw_ast" then
    Some (match RawAST fs with ast.VNil => false | _ => true end)
  else None.

Definition canRunAnalyzer (analyzer : Analyzer) (fs : FeatureSet) : bool :=
  forallb
    (fun featureKey =>
       match keyPresent fs featureKey with
       | Some true => true
       | _ => false
       end)
    (RequiredFeatures analyzer).

Definition maxSize : Z := 10 * 1024 * 1024.

Section Scan.

(** The statistical feature functions' outside collaborators. *)
Variable Log2 : float -> float.
Variable stat_Mean : list Z -> float.
Variable stat_Variance : list Z -> float.
Variable tagNumber : string -> Z.

(** The analyzer loop of [scanFile] over [enabledNames]: the findings
    collected and the events, both in order. *)
Fixpoint runAnalyzers (e : Engine) (file : FileInfo) (content : string)
  (featureSet : FeatureSet) (enabledNames : list string)
  : list Finding * list Event :=
  match enabledNames with
  | [] => ([], [])
  | name :: rest =>
      let '(findings, events) := runAnalyzers e file content featureSet rest in
      match analyzers e !! name with
      | Some analyzer =>
          if canRunAnalyzer analyzer featureSet then
            match fst (Analyze analyzer file content featureSet) with
            | Some finding => (finding :: findings, EvAnalyze name :: events)
            | None => (findings, EvAnalyze name :: events)
            end
          else (findings, EvSkip name :: events)
      | None => (findings, events)
      end
  end.

(** [scanFile]: the result and what was done to produce it; [None]
    when feature extraction does not return. *)
Definition scanFile (e : Engine) (w : World) (filePath : string)
  : option (ScanResult * list Event) :=
  let result0 :=
    {| File := mkFileInfo filePath 0 0; OverallRisk := RiskUnknown;
       Findings := []; Error := None; SkippedAST := false |} in
  match Stat w filePath with
  | Err err =>
      Some ({| File := File result0; OverallRisk := RiskUnknown; Findings := [];
               Error := Some ("stat error: " ++ err)%string; SkippedAST := false |},
            [EvStat filePath])
  | Ok (size, modTime) =>
      let file := mkFileInfo filePath size modTime in
      if maxSize <? size then
        Some ({| File := file; OverallRisk := RiskUnknown; Findings := [];
                 Error := Some "file exceeds size limit"%string; SkippedAST := false |},
              [EvStat filePath])
      else if size =? 0 then
        Some ({| File := file; OverallRisk := RiskNone; Findings := [];
                 Error := None; SkippedAST := false |},
              [EvStat filePath])
      else
        match ReadFile w filePath with
        | Err err =>
            Some ({| File := file; OverallRisk := RiskUnknown; Findings := [];
                     Error := Some ("read error: " ++ err)%string; SkippedAST := false |},
                  [EvStat filePath; EvReadFile filePath])
        | Ok content =>
            let '(goAST, astEvents) :=
              match astManager e with
              | Some _ => (GetAST w content, [EvGetAST])
              | None => (ast.VNil, [])
              end in
            match ExtractAllFeatures Log2 stat_Mean stat_Variance tagNumber
                    content goAST (astManager e) with
            | None => None
            | Some (featureSet, _) =>
                let enabledNames := rangeOrder w in
                let '(findings, analyzerEvents) :=
                  runAnalyzers e file content featureSet enabledNames in
                Some ({| File := file;
                         OverallRisk := scoring.CalculateScore findings (Some featureSet);
                         Findings := findings; Error := None; SkippedAST := false |},
                      ([EvStat filePath; EvReadFile filePath] ++ astEvents
                         ++ [EvExtract] ++ analyzerEvents ++ [EvScore])%list)
            end
        end
  end.

End Scan.

End engine.

(** * Properties *)

(** ** The scorer *)

Section ScorerFacts.

Import features scoring.

(** The rubric in the words of the specification: which findings are
    present, by analyzer name. *)
Definition present (name : string) (findings : list Finding) : bool :=
  existsb (fun f => String.eqb (AnalyzerName f) name) findings.

Definition svm_above_091 (findings : list Finding) : bool :=
  existsb
    (fun f => String.eqb (AnalyzerName f) "svm_prosses"
              && (0.91 <? Confidence f)%float)
    findings.

Definition callable_flag (featureSet : option FeatureSet) : bool :=
  match featureSet with
  | Some fs => Callable fs
  | None => false
  end.

Definition rubric_score (findings : list Finding) (callable : bool) : Z :=
  (if present "regex" findings then 1 else 0)
  + (if present "yara" findings then 1 else 0)
  + (if present "regex" findings && present "yara" findings then 2 else 0)
  + (if callable && svm_above_091 findings then 2 else 0)
  + (if callable && present "statistical" findings then 2 else 0).

(** The table from score to risk. *)
Definition rubric_risk (score : Z) : RiskLevel :=
  match score with
  | 0 => RiskNone
  | 1 | 2 => RiskLow
  | 3 => RiskMedium
  | 4 => RiskHigh
  | _ => RiskCritical
  end.

Lemma noteFinding_flags (m : Matches) (f : Finding) :
  hasRegexMatch (noteFinding m f)
    = hasRegexMatch m || String.eqb (AnalyzerName f) "regex"
  /\ hasYaraMatch (noteFinding m f)
    = hasYaraMatch m || String.eqb (AnalyzerName f) "yara"
  /\ highConfidencePrediction (noteFinding m f)
    = highConfidencePrediction m
      || (String.eqb (AnalyzerName f) "svm_prosses" && (0.91 <? Confidence f)%float)
  /\ hasStatisticalAnomaly (noteFinding m f)
    = hasStatisticalAnomaly m || String.eqb (AnalyzerName f) "statistical".
Proof.
  unfold noteFinding.
  destruct (String.eqb_spec (AnalyzerName f) "regex") as [-> | _];
    [ simpl; rewrite !orb_true_r, !orb_false_r; auto | ].
  destruct (String.eqb_spec (AnalyzerName f) "yara") as [-> | _];
    [ simpl; rewrite !orb_true_r, !orb_false_r; auto | ].
  destruct (String.eqb_spec (AnalyzerName f) "svm_prosses") as [-> | _].
  - simpl. destruct (0.91 <? Confidence f)%float; simpl;
      rewrite ?orb_true_r, ?orb_false_r; auto.
  - destruct (String.eqb (AnalyzerName f) "statistical"); simpl;
      rewrite ?orb_true_r, ?orb_false_r; auto.
Qed.

Lemma fold_noteFinding_flags (findings : list Finding) (m : Matches) :
  let m' := fold_left noteFinding findings m in
  hasRegexMatch m' = hasRegexMatch m || present "regex" findings
  /\ hasYaraMatch m' = hasYaraMatch m || present "yara" findings
  /\ highConfidencePrediction m' = highConfidencePrediction m || svm_above_091 findings
  /\ hasStatisticalAnomaly m'
     = hasStatisticalAnomaly m || present "statistical" findings.
Proof.
  revert m. induction findings as [| f rest IH]; intros m; cbn zeta.
  - simpl. rewrite !orb_false_r. auto.
  - cbn [fold_left]. specialize (IH (noteFinding m f)). cbn zeta in IH.
    destruct IH as (H1 & H2 & H3 & H4).
    destruct (noteFinding_flags m f) as (G1 & G2 & G3 & G4).
    rewrite H1, H2, H3, H4, G1, G2, G3, G4.
    unfold present, svm_above_091. cbn [existsb].
    rewrite !orb_assoc. auto.
Qed.

Lemma totalScore_rubric (findings : list Finding) (featureSet : option FeatureSet) :
  totalScore findings featureSet
  = Z.min 5 (rubric_score findings (callable_flag featureSet)).
Proof.
  unfold totalScore, rubric_score.
  destruct (fold_noteFinding_flags findings noMatches) as (H1 & H2 & H3 & H4).
  cbn zeta in H1, H2, H3, H4. simpl in H1, H2, H3, H4.
  rewrite H1, H2, H3, H4.
  fold (callable_flag featureSet).
  destruct (present "regex" findings), (present "yara" findings),
    (svm_above_091 findings), (present "statistical" findings),
    (callable_flag featureSet); reflexivity.
Qed.

Lemma rubric_score_range (findings : list Finding) (callable : bool) :
  0 <= rubric_score findings callable <= 8.
Proof.
  unfold rubric_score.
  destruct (present "regex" findings), (present "yara" findings),
    (svm_above_091 findings), (present "statistical" findings), callable;
    simpl; lia.
Qed.

Lemma riskOfScore_rubric (s : Z) : 0 <= s -> riskOfScore s = rubric_risk s.
Proof.
  intros Hs. unfold riskOfScore, rubric_risk.
  destruct (Z.leb_spec 5 s).
  - destruct s as [| p | p]; try lia.
    do 3 (destruct p as [p | p |]; try lia; try reflexivity).
  - assert (s = 0 \/ s = 1 \/ s = 2 \/ s = 3 \/ s = 4) as Hc by lia.
    destruct Hc as [-> | [-> | [-> | [-> | ->]]]]; reflexivity.
Qed.

Lemma CalculateScore_risk (findings : list Finding) (featureSet : option FeatureSet) :
  CalculateScore findings featureSet
  = rubric_risk (Z.min 5 (rubric_score findings (callable_flag featureSet))).
Proof.
  unfold CalculateScore. destruct findings as [| f rest].
  - destruct (callable_flag featureSet); reflexivity.
  - rewrite totalScore_rubric. apply riskOfScore_rubric.
    pose proof (rubric_score_range (f :: rest) (callable_flag featureSet)). lia.
Qed.

(** C1.  For every list of findings and every feature set, the score
    the scorer works with is the rubric (+1 regex, +1 yara, +2 for
    both, and with the callable flag +2 for an svm_prosses finding of
    confidence above 0.91 and +2 for a statistical finding) capped at
    5, and the risk returned is the table's risk for that score. *)
Theorem CalculateScore_rubric (findings : list Finding) (featureSet : option FeatureSet) :
  totalScore findings featureSet
    = Z.min 5 (rubric_score findings (callable_flag featureSet))
  /\ CalculateScore findings featureSet
    = rubric_risk (Z.min 5 (rubric_score findings (callable_flag featureSet))).
Proof.
  split.
  - apply totalScore_rubric.
  - apply CalculateScore_risk.
Qed.

Lemma rubric_score_app (findings : list Finding) (f : Finding) (callable : bool) :
  rubric_score findings callable <= rubric_score (findings ++ [f]) callable.
Proof.
  unfold rubric_score, present, svm_above_091.
  rewrite !existsb_app. cbn [existsb]. rewrite !orb_false_r.
  destruct (existsb _ findings), (existsb _ findings),
    (existsb _ findings), (existsb _ findings), callable;
    destruct (String.eqb (AnalyzerName f) "regex"),
      (String.eqb (AnalyzerName f) "yara"),
      (String.eqb (AnalyzerName f) "svm_prosses"),
      (String.eqb (AnalyzerName f) "statistical"),
      (0.91 <? Confidence f)%float; simpl; lia.
Qed.

Lemma rubric_risk_code (s : Z) :
  0 <= s -> RiskLevel_code (rubric_risk s) = Z.min 5 (if s <=? 2 then (s + 3) / 2 else s).
Proof.
  intros Hs.
  assert (s = 0 \/ s = 1 \/ s = 2 \/ s = 3 \/ s = 4 \/ 5 <= s) as Hc by lia.
  destruct Hc as [-> | [-> | [-> | [-> | [-> | Hc]]]]]; try reflexivity.
  replace (rubric_risk s) with RiskCritical.
  - destruct (Z.leb_spec s 2); simpl; lia.
  - destruct s as [| p | p]; try lia.
    do 3 (destruct p as [p | p |]; try lia; try reflexivity).
Qed.

Lemma rubric_risk_mono (a b : Z) :
  0 <= a <= b ->
  RiskLevel_code (rubric_risk a) <= RiskLevel_code (rubric_risk b).
Proof.
  intros H. rewrite !rubric_risk_code by lia.
  destruct (Z.leb_spec a 2), (Z.leb_spec b 2); try lia.
  - assert ((a + 3) / 2 <= (b + 3) / 2) by (apply Z.div_le_mono; lia). lia.
  - assert ((a + 3) / 2 < 3) by (apply Z.div_lt_upper_bound; lia). lia.
Qed.

(** C9.  Appending one more finding to any list never lowers the
    score, nor the overall risk level, whatever the feature set. *)
Theorem CalculateScore_monotone
  (findings : list Finding) (f : Finding) (featureSet : option FeatureSet) :
  totalScore findings featureSet <= totalScore (findings ++ [f]) featureSet
  /\ RiskLevel_code (CalculateScore findings featureSet)
     <= RiskLevel_code (CalculateScore (findings ++ [f]) featureSet).
Proof.
  pose proof (rubric_score_app findings f (callable_flag featureSet)) as Happ.
  pose proof (rubric_score_range findings (callable_flag featureSet)) as Hr.
  split.
  - rewrite !totalScore_rubric. lia.
  - rewrite !CalculateScore_risk.
    apply rubric_risk_mono. lia.
Qed.

End ScorerFacts.


(** ** The statistical analyzer *)

Section StatisticalFacts.

Import features static.

(** [x] lies strictly outside [[min, max]]; a NaN bound is no bound. *)
Definition strictly_outside (x min max : float) : Prop :=
  (gomath.IsNaN min = false /\ (x <? min)%float = true)
  \/ (gomath.IsNaN max = false /\ (max <? x)%float = true).

(** The eight features of a statistical vector. *)
Definition stat_fields : list (StatisticalFeatures -> float) :=
  [LM; LVC; WM; WVC; SR; TR; SPL; IE].

Definition abnormal (sf : StatisticalFeatures) (std : StatisticalThresholds) : Prop :=
  exists field, In field stat_fields
    /\ strictly_outside (field sf) (field (MinStat std)) (field (MaxStat std)).

Lemma outOfRange_spec (x min max : float) :
  outOfRange x min max = true <-> strictly_outside x min max.
Proof.
  unfold outOfRange, strictly_outside.
  destruct (gomath.IsNaN min), (gomath.IsNaN max),
    (x <? min)%float, (max <? x)%float; simpl; intuition congruence.
Qed.

Lemma IsStatisticalAbnormal_spec (sf : StatisticalFeatures) (std : StatisticalThresholds) :
  IsStatisticalAbnormal (Some sf) std = true <-> abnormal sf std.
Proof.
  unfold IsStatisticalAbnormal, abnormal, stat_fields.
  rewrite !orb_true_iff, !outOfRange_spec. split.
  - intros H.
    repeat (destruct H as [H | H]; [| eexists; split; [| exact H]; simpl; tauto]).
    eexists; split; [| exact H]; simpl; tauto.
  - intros (field & Hin & Hout). simpl in Hin.
    repeat (destruct Hin as [<- | Hin]; [tauto |]). contradiction.
Qed.

(** C6.  For every statistical vector and every threshold
    configuration, the vector is abnormal exactly when one of its eight
    features lies strictly outside its interval (a NaN bound is
    skipped), and on a feature set holding that vector the statistical
    analyzer returns a finding of risk Medium and confidence 0.7 when
    the vector is abnormal and the callable flag is set, and no finding
    otherwise. *)
Theorem StatisticalAnalyzer_finding
  (describe : StatisticalFeatures -> string)
  (sf : StatisticalFeatures) (std : StatisticalThresholds)
  (fileInfo : FileInfo) (content : string)
  (words : option (list string)) (ops : option (list (list Z)))
  (callable : bool) (raw : ast.Value) :
  let fs := mkFeatureSet (Some sf) words ops callable raw in
  let found :=
    fst (static.Analyze describe (mkStatisticalAnalyzer std) fileInfo content (Some fs)) in
  (IsStatisticalAbnormal (Some sf) std = true <-> abnormal sf std)
  /\ ((abnormal sf std /\ callable = true) ->
      found = Some {| AnalyzerName := "statistical"; Description := describe sf;
                      Risk := RiskMedium; Confidence := 0.7%float |})
  /\ (~ (abnormal sf std /\ callable = true) -> found = None)
  /\ (found <> None <-> abnormal sf std /\ callable = true).
Proof.
  cbn zeta. pose proof (IsStatisticalAbnormal_spec sf std) as Hspec.
  split; [exact Hspec |].
  unfold static.Analyze. cbn [Statistical Callable thresholds].
  destruct (IsStatisticalAbnormal (Some sf) std) eqn:Hab, callable; simpl.
  all: repeat split; try tauto; try congruence; intros; try tauto.
  all: try (exfalso; intuition congruence).
Qed.

End StatisticalFacts.


(** ** Operation sequences *)

Section OpSerialFacts.

Import ast.

Lemma cleanOpSerial_length (data : list (list Z)) (maxLen : Z) :
  List.length (cleanOpSerial data maxLen) = List.length data.
Proof. unfold cleanOpSerial. apply List.length_map. Qed.

Lemma cleanLoop_stops (n : nat) (i : Z) (result : list (list Z)) (maxLen : Z) :
  cleanLoop n i result (cleanOpSerial result maxLen)
  = (cleanOpSerial result maxLen, i).
Proof.
  destruct n as [| n]; [reflexivity |]. cbn [cleanLoop].
  rewrite cleanOpSerial_length, Nat.eqb_refl, andb_false_r. reflexivity.
Qed.

Lemma GetOpSerial_cleaned_once (fuel : nat) (t : Value) (r : list (list Z)) :
  GetOpSerial fuel t = Some (Ok r) ->
  exists raw, r = cleanOpSerial raw maxCleanLength.
Proof.
  unfold GetOpSerial. intros H.
  destruct (bfsLoop fuel [mkQ "root" t 0 None] [] []) as [[result cs] |];
    destruct t; try discriminate.
  all: injection H as <-; unfold cleanStage; rewrite cleanLoop_stops; eauto.
Qed.

(** C10, as the code has it.  The pass returns one sequence per input
    sequence, for every input and every [maxLen]; so the loop of
    [GetOpSerial] never runs its body: the cleaning stage is the initial
    application of the pass alone, the loop variable is still 1, and
    what [GetOpSerial] returns has been through the pass once. *)
Theorem cleanOpSerial_preserves_count
  (data : list (list Z)) (maxLen : Z) (result : list (list Z)) :
  List.length (cleanOpSerial data maxLen) = List.length data
  /\ cleanStage result = (cleanOpSerial result maxCleanLength, 1)
  /\ (forall fuel t r, GetOpSerial fuel t = Some (Ok r) ->
      exists raw, r = cleanOpSerial raw maxCleanLength).
Proof.
  split; [apply cleanOpSerial_length |].
  split; [unfold cleanStage; apply cleanLoop_stops |].
  apply GetOpSerial_cleaned_once.
Qed.

(** C10, as stated: on the two sequences below the cleaning stage has
    applied the pass once, not twice, when its loop stops. *)
Lemma cleanStage_single_application :
  snd (cleanStage [[1; 1; 2]; [3; 4; 3; 4]]) <> 2
  /\ cleanStage [[1; 1; 2]; [3; 4; 3; 4]] = ([[1; 2]; [3; 4]], 1).
Proof. split; [intros H; vm_compute in H; discriminate | reflexivity]. Qed.

End OpSerialFacts.


(** ** Words and the callable flag *)

Section TraversalFacts.

Import ast.

(** Nesting depth of a tree. *)
Fixpoint depth (v : Value) : nat :=
  match v with
  | VArray items => S (list_max (List.map depth items))
  | VMap entries => S (list_max (List.map (fun kv => depth (snd kv)) entries))
  | VNode _ _ _ children => S (depth children)
  | _ => 1%nat
  end.

(** A tree as the parser delivers it: every mapping that carried a
    [kind] has become a node, so no mapping with a [kind] key is left. *)
Fixpoint well_formed (v : Value) : bool :=
  match v with
  | VArray items => forallb well_formed items
  | VMap entries =>
      negb (isAstNodeMap entries)
      && forallb (fun kv => well_formed (snd kv)) entries
  | VNode _ _ _ children => well_formed children
  | _ => true
  end.

(** The tree contains a node of kind [k]. *)
Inductive contains_kind : Value -> Z -> Prop :=
| ck_here (k f l : Z) (c : Value) : contains_kind (VNode k f l c) k
| ck_children (k f l : Z) (c : Value) (k' : Z) :
    contains_kind c k' -> contains_kind (VNode k f l c) k'
| ck_item (items : list Value) (v : Value) (k : Z) :
    In v items -> contains_kind v k -> contains_kind (VArray items) k
| ck_entry (entries : list (string * Value)) (kv : string * Value) (k : Z) :
    In kv entries -> contains_kind (snd kv) k -> contains_kind (VMap entries) k.

Definition callable_kinds : list Z := [265; 269; 515; 768; 769].

Fixpoint has_callable (v : Value) : bool :=
  match v with
  | VArray items => existsb has_callable items
  | VMap entries => existsb (fun kv => has_callable (snd kv)) entries
  | VNode k _ _ children => callable_kind k || has_callable children
  | _ => false
  end.

Lemma Value_induction (P : Value -> Prop) :
  P VNil ->
  (forall f, P (VFloat f)) ->
  (forall s, P (VString s)) ->
  (forall b, P (VBool b)) ->
  (forall items, Forall P items -> P (VArray items)) ->
  (forall entries, Forall (fun kv => P (snd kv)) entries -> P (VMap entries)) ->
  (forall k f l c, P c -> P (VNode k f l c)) ->
  forall v, P v.
Proof.
  intros HN HF HS HB HA HM HV.
  fix IH 1. intros [| f | s | b | items | entries | k f l c].
  - exact HN.
  - apply HF.
  - apply HS.
  - apply HB.
  - apply HA. induction items as [| x rest IHl]; constructor; [apply IH | exact IHl].
  - apply HM. induction entries as [| x rest IHl]; constructor; [apply IH | exact IHl].
  - apply HV, IH.
Qed.

Lemma callable_kind_spec (k : Z) : callable_kind k = true <-> In k callable_kinds.
Proof.
  unfold callable_kind, callable_kinds. rewrite !orb_true_iff, !Z.eqb_eq.
  simpl. intuition lia.
Qed.

Lemma has_callable_spec (v : Value) :
  has_callable v = true <-> exists k, contains_kind v k /\ In k callable_kinds.
Proof.
  induction v as [| f | s | b | items IH | entries IH | k f l c IH] using Value_induction;
    cbn [has_callable].
  1-4: split; [discriminate | intros (k & H & _); inversion H].
  - rewrite existsb_exists. rewrite List.Forall_forall in IH. split.
    + intros (x & Hin & Hx). apply (IH x Hin) in Hx as (k & Hk & Hc).
      exists k. split; [eapply ck_item; eauto | exact Hc].
    + intros (k & Hk & Hc). inversion Hk; subst.
      exists v. split; [assumption |]. apply (IH v); eauto.
  - rewrite existsb_exists. rewrite List.Forall_forall in IH. split.
    + intros (x & Hin & Hx). apply (IH x Hin) in Hx as (k & Hk & Hc).
      exists k. split; [eapply ck_entry; eauto | exact Hc].
    + intros (k & Hk & Hc). inversion Hk; subst.
      exists kv. split; [assumption |]. apply (IH kv); eauto.
  - rewrite orb_true_iff, callable_kind_spec, IH. split.
    + intros [Hk | (k' & Hk' & Hc)].
      * exists k. split; [constructor | exact Hk].
      * exists k'. split; [constructor; exact Hk' | exact Hc].
    + intros (k' & Hk' & Hc). inversion Hk'; subst; [left; exact Hc | right; eauto].
Qed.

Lemma insert_by_key_perm {A : Type} (e : string * A) (l : list (string * A)) :
  Permutation (insert_by_key e l) (e :: l).
Proof.
  induction l as [| e' rest IH]; cbn [insert_by_key]; [reflexivity |].
  destruct (String.leb (fst e) (fst e')); [reflexivity |].
  rewrite IH. apply perm_swap.
Qed.

Lemma sort_by_key_perm {A : Type} (l : list (string * A)) :
  Permutation (sort_by_key l) l.
Proof.
  induction l as [| e rest IH]; cbn [sort_by_key]; [reflexivity |].
  rewrite insert_by_key_perm. constructor. exact IH.
Qed.

Lemma existsb_perm {A : Type} (f : A -> bool) (l l' : list A) :
  Permutation l l' -> existsb f l = existsb f l'.
Proof.
  induction 1 as [| x l l' _ IH | x y l | l l' l'' _ IH1 _ IH2]; cbn [existsb].
  - reflexivity.
  - now rewrite IH.
  - now rewrite !orb_assoc, (orb_comm (f y)).
  - now rewrite IH1.
Qed.

Lemma existsb_map_snd {A B : Type} (f : B -> bool) (l : list (A * B)) :
  existsb f (List.map snd l) = existsb (fun kv => f (snd kv)) l.
Proof. induction l as [| x rest IH]; cbn; [reflexivity | now rewrite IH]. Qed.

Lemma le_list_max (n : nat) (l : list nat) : In n l -> (n <= list_max l)%nat.
Proof.
  intros Hin.
  pose proof (proj1 (list_max_le l (list_max l)) (Nat.le_refl _)) as Hall.
  rewrite List.Forall_forall in Hall. apply Hall, Hin.
Qed.

(** With [fuel] nested calls the traversal of [x] returns from every
    state, and raises the flag exactly if [x] has a callable node. *)
Definition returns (fuel : nat) (x : Value) : Prop :=
  forall st, exists w,
    checkNameAndKind wordsChecker callableChecker fuel x st
    = Some (w, snd st || has_callable x).

Lemma fold_each_ok (fuel : nat) (items : list Value) :
  Forall (returns fuel) items ->
  forall st, exists w,
    fold_left
      (fun acc item =>
         match acc with
         | Some s => checkNameAndKind wordsChecker callableChecker fuel item s
         | None => None
         end)
      items (Some st)
    = Some (w, snd st || existsb has_callable items).
Proof.
  induction 1 as [| x rest Hx _ IH]; intros st; cbn [fold_left existsb].
  - exists (fst st). rewrite orb_false_r. now destruct st.
  - destruct (Hx st) as [w ->].
    destruct (IH (w, snd st || has_callable x)) as [w' ->].
    exists w'. cbn [snd]. now rewrite orb_assoc.
Qed.

Lemma checkNameAndKind_ok (v : Value) :
  well_formed v = true ->
  forall fuel, (depth v <= fuel)%nat -> returns fuel v.
Proof.
  induction v as [| f | s | b | items IH | entries IH | k f l c IH] using Value_induction;
    intros Hwf fuel Hfuel st;
    (destruct fuel as [| fuel]; [cbn [depth] in Hfuel; lia |]).
  1-4: exists (fst st); cbn; rewrite orb_false_r; now destruct st.
  - cbn [depth] in Hfuel. cbn [well_formed] in Hwf. cbn [has_callable].
    apply le_S_n in Hfuel. rewrite forallb_forall in Hwf.
    rewrite List.Forall_forall in IH.
    assert (Forall (returns fuel) items) as Hall.
    { apply List.Forall_forall. intros x Hin. apply IH; auto.
      eapply Nat.le_trans; [| exact Hfuel].
      apply le_list_max, in_map, Hin. }
    destruct (fold_each_ok fuel items Hall st) as [w Hw].
    exists w. exact Hw.
  - cbn [depth] in Hfuel. cbn [well_formed] in Hwf. cbn [has_callable].
    apply le_S_n in Hfuel. apply andb_true_iff in Hwf as [Hk Hwf].
    apply negb_true_iff in Hk. rewrite forallb_forall in Hwf.
    rewrite List.Forall_forall in IH.
    cbn [checkNameAndKind]. rewrite Hk.
    assert (Forall (returns fuel) (List.map snd (sort_by_key entries))) as Hall.
    { apply List.Forall_forall. intros x Hin.
      apply in_map_iff in Hin as (kv & <- & Hin).
      apply (Permutation_in _ (sort_by_key_perm entries)) in Hin.
      apply IH; auto.
      eapply Nat.le_trans; [| exact Hfuel].
      apply le_list_max. apply (in_map (fun kv => depth (snd kv))). exact Hin. }
    destruct (fold_each_ok fuel _ Hall st) as [w Hw].
    exists w. rewrite Hw. do 2 f_equal. f_equal.
    rewrite existsb_map_snd.
    apply existsb_perm, sort_by_key_perm.
  - cbn [depth] in Hfuel. cbn [well_formed] in Hwf. cbn [has_callable].
    apply le_S_n in Hfuel.
    cbn [checkNameAndKind callableChecker].
    match goal with
    | |- context [checkNameAndKind _ _ fuel c ?st2] =>
        destruct (IH Hwf fuel Hfuel st2) as [w Hw];
        assert (snd st2 = snd st || callable_kind k) as Hsnd
    end.
    { destruct st as [ws cl]. destruct (callable_kind k), c; cbn;
        rewrite ?orb_true_r, ?orb_false_r; try reflexivity;
        repeat (match goal with
                | |- context [match ?x with _ => _ end] => destruct x
                end; cbn; rewrite ?orb_true_r, ?orb_false_r; try reflexivity). }
    exists w. rewrite Hw, Hsnd. now rewrite orb_assoc.
Qed.

(** On a well-formed tree, given call depth to spare,
    [GetWordsAndCallable] returns, and its flag is [has_callable]. *)
Lemma GetWordsAndCallable_returns (t : Value) (fuel : nat) :
  well_formed t = true ->
  (depth t <= fuel)%nat ->
  exists words err,
    GetWordsAndCallable fuel t = Some (words, has_callable t, err)
    /\ (t <> VNil -> err = None).
Proof.
  intros Hwf Hfuel. unfold GetWordsAndCallable.
  destruct (checkNameAndKind_ok t Hwf fuel Hfuel ([], false)) as [w Hw].
  cbn [snd orb] in Hw.
  destruct t; try (rewrite Hw; do 2 eexists; split; [reflexivity | reflexivity]).
  do 2 eexists. split; [reflexivity | congruence].
Qed.

(** *** The breadth-first traversal returns as well *)

(** What a value costs the queue: itself, plus the separator a group
    of children may add. *)
Fixpoint weight (v : Value) : nat :=
  match v with
  | VArray items => S (S (list_sum (List.map weight items)))
  | VMap entries => S (S (list_sum (List.map (fun kv => weight (snd kv)) entries)))
  | VNode _ _ _ children => S (weight children)
  | _ => 1%nat
  end.

Definition queue_weight (queue : list opQueueNode) : nat :=
  list_sum (List.map (fun node => weight (QValue node)) queue).

Definition queue_ok (queue : list opQueueNode) : Prop :=
  Forall (fun node => well_formed (QValue node) = true) queue.

Lemma weight_pos (v : Value) : (1 <= weight v)%nat.
Proof. destruct v; cbn; lia. Qed.

Lemma list_sum_perm (l l' : list nat) : Permutation l l' -> list_sum l = list_sum l'.
Proof.
  unfold list_sum.
  induction 1 as [| x l l' _ IH | x y l | l l' l'' _ IH1 _ IH2]; cbn; lia.
Qed.

Lemma map_snd_indexed {A : Type} (l : list A) (start : nat) :
  List.map snd (combine (seq start (List.length l)) l) = l.
Proof.
  revert start. induction l as [| x rest IH]; intros start; [reflexivity |].
  cbn. now rewrite IH.
Qed.

Lemma list_max_le_sum {A : Type} (f g : A -> nat) (l : list A) :
  Forall (fun x => (f x <= g x)%nat) l ->
  (list_max (List.map f l) <= list_sum (List.map g l))%nat.
Proof. unfold list_max, list_sum. induction 1 as [| x rest Hx _ IH]; cbn; lia. Qed.

Lemma depth_le_weight (v : Value) : (depth v <= weight v)%nat.
Proof.
  induction v as [| f | s | b | items IH | entries IH | k f l c IH] using Value_induction;
    cbn [depth weight]; try lia.
  - pose proof (list_max_le_sum depth weight items IH). lia.
  - pose proof (list_max_le_sum (fun kv => depth (snd kv))
                  (fun kv => weight (snd kv)) entries IH). lia.
Qed.

(** One turn of the loop on a well-formed value enqueues well-formed
    values that together weigh less than the value dequeued. *)
Lemma bfsStep_decreases (node : opQueueNode) (result : list (list Z)) (cs : list Z) :
  well_formed (QValue node) = true ->
  let more := snd (bfsStep node result cs) in
  queue_ok more /\ (queue_weight more < weight (QValue node))%nat.
Proof.
  intros Hwf. cbn zeta. unfold bfsStep, queue_ok, queue_weight.
  destruct (QValue node) as [| f | s | b | items | entries | k f l c] eqn:Hv.
  - destruct (_ && _); cbn; (split; [apply List.Forall_nil | lia]).
  - cbn. split; [apply List.Forall_nil | lia].
  - cbn. split; [apply List.Forall_nil | lia].
  - cbn. split; [apply List.Forall_nil | lia].
  - cbn [snd well_formed weight] in *. rewrite forallb_forall in Hwf. split.
    + apply Forall_app. split.
      * apply List.Forall_forall. intros q Hq.
        apply in_map_iff in Hq as ([i x] & <- & Hin). cbn.
        apply Hwf. eapply in_combine_r, Hin.
      * destruct (_ && _); repeat constructor.
    + rewrite List.map_app, list_sum_app, List.map_map. cbn [QValue].
      rewrite <- (List.map_map snd weight), map_snd_indexed.
      destruct (_ && _); cbn; lia.
  - cbn [well_formed weight] in *. apply andb_true_iff in Hwf as [Hk Hwf].
    apply negb_true_iff in Hk. rewrite Hk. cbn [snd].
    rewrite forallb_forall in Hwf. split.
    + apply Forall_app. split.
      * apply List.Forall_forall. intros q Hq.
        apply in_map_iff in Hq as (kv & <- & Hin). cbn.
        apply Hwf. apply (Permutation_in _ (sort_by_key_perm entries)), Hin.
      * destruct (_ && _); repeat constructor.
    + rewrite List.map_app, list_sum_app, List.map_map. cbn [QValue].
      rewrite (list_sum_perm _ (List.map (fun kv => weight (snd kv)) entries))
        by (apply Permutation_map, sort_by_key_perm).
      destruct (_ && _); cbn; lia.
  - cbn [snd well_formed weight] in *.
    destruct c; cbn; (split; [repeat constructor; assumption | lia]).
Qed.

Lemma queue_weight_cons (node : opQueueNode) (rest : list opQueueNode) :
  queue_weight (node :: rest) = (weight (QValue node) + queue_weight rest)%nat.
Proof. reflexivity. Qed.

Lemma queue_weight_app (q1 q2 : list opQueueNode) :
  queue_weight (q1 ++ q2) = (queue_weight q1 + queue_weight q2)%nat.
Proof. unfold queue_weight. now rewrite List.map_app, list_sum_app. Qed.

Lemma bfsLoop_returns (fuel : nat) (queue : list opQueueNode)
  (result : list (list Z)) (cs : list Z) :
  queue_ok queue -> (queue_weight queue <= fuel)%nat ->
  exists r, bfsLoop fuel queue result cs = Some r.
Proof.
  revert queue result cs.
  induction fuel as [| fuel IH]; intros queue result cs Hok Hw;
    destruct queue as [| node rest]; cbn [bfsLoop]; eauto.
  - rewrite queue_weight_cons in Hw.
    pose proof (weight_pos (QValue node)). lia.
  - inversion Hok as [| ? ? Hnode Hrest]; subst.
    destruct (bfsStep_decreases node result cs Hnode) as [Hmore Hless].
    destruct (bfsStep node result cs) as [[result' cs'] more]. cbn [snd] in *.
    apply IH.
    + apply Forall_app. split; assumption.
    + rewrite queue_weight_app. rewrite queue_weight_cons in Hw. lia.
Qed.

Lemma GetOpSerial_returns (t : Value) (fuel : nat) :
  well_formed t = true -> (weight t <= fuel)%nat ->
  exists r, GetOpSerial fuel t = Some r.
Proof.
  intros Hwf Hfuel. unfold GetOpSerial.
  destruct (bfsLoop_returns fuel [mkQ "root" t 0 None] [] []) as [[result cs] Hr].
  - repeat constructor. exact Hwf.
  - rewrite queue_weight_cons. cbn [QValue queue_weight List.map list_sum fold_right]. lia.
  - rewrite Hr. destruct t; eauto.
Qed.

End TraversalFacts.

(** A tree of the shape the parser sends for [f();]. *)
Definition sample_tree : ast.Value :=
  ast.VNode 132 0 1
    (ast.VArray
       [ast.VNode 515 0 1
          (ast.VMap
             [("expr", ast.VNode 256 0 1 (ast.VMap [("name", ast.VString "f")]));
              ("args", ast.VNode 128 0 1 (ast.VArray []))])]).

(** C5.  For every tree as the parser delivers it (no mapping left
    with a [kind] key) and a manager with calls to spare, feature
    extraction returns a feature set, and its callable flag is true
    exactly when the tree contains a node whose kind is 265, 269, 515,
    768 or 769. *)
Theorem callable_invariance
  (Log2 : float -> float) (stat_Mean stat_Variance : list Z -> float)
  (tagNumber : string -> Z) (content : string) (t : ast.Value) (fuel : nat) :
  well_formed t = true ->
  (weight t <= fuel)%nat ->
  exists fs errs,
    features.ExtractAllFeatures Log2 stat_Mean stat_Variance tagNumber
      content t (Some fuel) = Some (fs, errs)
    /\ (features.Callable fs = true
        <-> exists k, contains_kind t k /\ In k callable_kinds).
Proof.
  intros Hwf Hfuel.
  assert (depth t <= fuel)%nat as Hdepth
    by (pose proof (depth_le_weight t); lia).
  destruct (GetWordsAndCallable_returns t fuel Hwf Hdepth) as (words & err & Hw & Herr).
  destruct (GetOpSerial_returns t fuel Hwf Hfuel) as [ops Hops].
  unfold features.ExtractAllFeatures.
  destruct t as [| f | s | b | items | entries | k f l c];
    [ do 2 eexists; split; [reflexivity |]; cbn;
      split; [discriminate | intros (k & H & _); inversion H] | .. ].
  all: rewrite Hw, Hops, (Herr ltac:(discriminate)).
  all: destruct ops as [[| o os] | e]; do 2 eexists; (split; [reflexivity |]).
  all: cbn [features.Callable]; apply has_callable_spec.
Qed.

Lemma callable_invariance_witness :
  exists fs errs,
    features.ExtractAllFeatures (fun x => x) (fun _ => 0%float) (fun _ => 0%float)
      (fun _ => 0) "<?php f();" sample_tree (Some 20%nat) = Some (fs, errs)
    /\ (features.Callable fs = true
        <-> exists k, contains_kind sample_tree k /\ In k callable_kinds).
Proof.
  apply (callable_invariance (fun x => x) (fun _ => 0%float) (fun _ => 0%float)
           (fun _ => 0) "<?php f();" sample_tree 20);
    [reflexivity | simpl; lia].
Defined.

(** Why well-formedness is assumed: a mapping that still has a [kind]
    key whose value is not a number is transformed into itself, and the
    traversal calls itself on it without end. *)
Lemma kind_map_never_returns (fuel : nat) (entries : list (string * ast.Value))
  (st : list string * bool) :
  (exists kindVal, ast.map_get "kind" entries = Some kindVal
                   /\ snd (ast.getInt kindVal) = false) ->
  ast.checkNameAndKind ast.wordsChecker ast.callableChecker fuel (ast.VMap entries) st
  = None.
Proof.
  revert entries. induction fuel as [| fuel IH]; intros entries (kindVal & Hget & Hint);
    [reflexivity |].
  cbn [ast.checkNameAndKind]. unfold ast.isAstNodeMap. rewrite Hget.
  cbn [ast.transformAstNode]. rewrite Hget.
  destruct (ast.getInt kindVal) as [kind ok] eqn:Hk. cbn [snd] in Hint. subst ok.
  apply IH. exists (ast.transformAstNode kindVal). split.
  - clear -Hget. induction entries as [| [k v] rest IHl]; [discriminate |].
    cbn in *. destruct (String.eqb k "kind"); [congruence | auto].
  - destruct kindVal; try reflexivity. discriminate.
    cbn [ast.transformAstNode].
    destruct (ast.map_get "kind" entries0); [| reflexivity].
    destruct (ast.getInt v) as [? []]; reflexivity.
Qed.

(** Decoded JSON in which every [kind] is a number, which is what the
    parser sends. *)
Fixpoint numeric_kinds (j : ast.Value) : bool :=
  match j with
  | ast.VArray items => forallb numeric_kinds items
  | ast.VMap entries =>
      match ast.map_get "kind" entries with
      | Some (ast.VFloat _) | None => true
      | Some _ => false
      end
      && forallb (fun kv => numeric_kinds (snd kv)) entries
  | ast.VNode _ _ _ _ => false
  | _ => true
  end.

Lemma map_get_map (f : ast.Value -> ast.Value) (key : string)
  (l : list (string * ast.Value)) :
  ast.map_get key (List.map (fun kv => (fst kv, f (snd kv))) l)
  = option_map f (ast.map_get key l).
Proof.
  induction l as [| [k v] rest IH]; [reflexivity |].
  cbn. destruct (String.eqb k key); [reflexivity | exact IH].
Qed.

Lemma map_index_well_formed (key : string) (l : list (string * ast.Value)) :
  Forall (fun kv => well_formed (snd kv) = true) l ->
  well_formed (ast.map_index key l) = true.
Proof.
  unfold ast.map_index. induction 1 as [| [k v] rest Hv _ IH]; [reflexivity |].
  cbn. destruct (String.eqb k key); [exact Hv | exact IH].
Qed.

(** The trees [transformAstNode] builds from such JSON are well formed. *)
Lemma transformAstNode_well_formed (j : ast.Value) :
  numeric_kinds j = true -> well_formed (ast.transformAstNode j) = true.
Proof.
  induction j as [| f | s | b | items IH | entries IH | k f l c IH] using Value_induction;
    intros Hj; try reflexivity; try discriminate.
  - cbn in *. rewrite forallb_forall in *. rewrite List.Forall_forall in IH.
    intros x Hin. apply in_map_iff in Hin as (y & <- & Hin). auto.
  - cbn [numeric_kinds] in Hj. apply andb_true_iff in Hj as [Hk Hall].
    rewrite forallb_forall in Hall. rewrite List.Forall_forall in IH.
    assert (Forall (fun kv => well_formed (snd kv) = true)
              (List.map (fun kv => (fst kv, ast.transformAstNode (snd kv))) entries))
      as Hres.
    { apply List.Forall_forall. intros x Hin.
      apply in_map_iff in Hin as (y & <- & Hin). cbn. auto. }
    cbn [ast.transformAstNode].
    destruct (ast.map_get "kind" entries) as [kindVal |] eqn:Hget.
    + destruct kindVal; try discriminate. cbn [ast.getInt].
      cbn [well_formed]. apply map_index_well_formed, Hres.
    + cbn [well_formed]. apply andb_true_iff. split.
      * unfold ast.isAstNodeMap. now rewrite map_get_map, Hget.
      * apply forallb_forall. rewrite List.Forall_forall in Hres. exact Hres.
Qed.


(** ** Integers held in a [float64]

    A frequency is counted in a [float64] by repeated [+ 1]; below
    [2^53] every integer is a [float64] and the count is exact. *)

Section ExactCounts.

Import gomath.















End ExactCounts.


(** ** Bytes and code points of a content *)

Section ContentLength.

Import utf8 features.

Lemma bytes_length (src : string) : Z.of_nat (List.length (bytes src)) = len src.
Proof.
  unfold bytes, len. rewrite List.length_map. f_equal.
  induction src as [| c s IH]; [reflexivity |]. cbn. now rewrite IH.
Qed.

Lemma runes_from_length (p : list Z) (skip : nat) :
  (List.length (runes_from skip p) <= List.length p)%nat.
Proof.
  revert skip. induction p as [| b t IH]; intros skip; [cbn; lia |].
  cbn [runes_from]. destruct skip as [| k].
  - destruct (DecodeRune (b :: t)) as [r w]. cbn [List.length].
    specialize (IH (Nat.pred w)). lia.
  - cbn [List.length]. specialize (IH k). lia.
Qed.

End ContentLength.


(** ** The statistical features SR and IE *)

Section FeatureFacts.

Import gomath utf8 features.
Local Open Scope float_scope.













(** The quotient of [m + 2^(k-1)] by [2^k] is within one half of
    [m / 2^k]. *)
Lemma nearest_within_half (m k : Z) :
  (0 <= m)%Z -> (0 < k)%Z ->
  let n := ((m + 2 ^ (k - 1)) / 2 ^ k)%Z in
  (2 * Z.abs (m - n * 2 ^ k) <= 2 ^ k)%Z.
Proof.
  intros Hm Hk. cbv zeta.
  assert (Hh : (0 < 2 ^ (k - 1))%Z) by (apply Z.pow_pos_nonneg; lia).
  assert (Hp : (2 ^ k = 2 * 2 ^ (k - 1))%Z)
    by (rewrite <- Z.pow_succ_r by lia; f_equal; lia).
  pose proof (Z.div_mod (m + 2 ^ (k - 1)) (2 ^ k) ltac:(lia)) as Hd.
  pose proof (Z.mod_pos_bound (m + 2 ^ (k - 1)) (2 ^ k) ltac:(lia)) as Hr.
  lia.
Qed.























End FeatureFacts.


(** ** The per-file lifecycle *)

Section EngineFacts.

Import features engine.

Variable Log2 : float -> float.
Variable stat_Mean : list Z -> float.
Variable stat_Variance : list Z -> float.
Variable tagNumber : string -> Z.

Local Abbreviation scan := (scanFile Log2 stat_Mean stat_Variance tagNumber).

(** The analyzers a run invoked, in order. *)
Definition invoked (events : list Event) : list string :=
  flat_map (fun ev => match ev with EvAnalyze name => [name] | _ => [] end) events.

(** C7.  For every file: a failed stat gives a result recording that
    error; a size above 10 MiB gives a result recording the
    size-exceeded error, and nothing but the stat was done; a size of 0
    gives a result of risk None without error, and again nothing but
    the stat was done, so no analyzer was invoked. *)
Theorem scanFile_early_returns (e : Engine) (w : World) (filePath : string) :
  (forall err, Stat w filePath = Err err ->
     exists r, scan e w filePath = Some (r, [EvStat filePath])
       /\ Error r = Some ("stat error: " ++ err)%string)
  /\ (forall size modTime, Stat w filePath = Ok (size, modTime) ->
      10 * 1024 * 1024 < size ->
      exists r, scan e w filePath = Some (r, [EvStat filePath])
        /\ Error r = Some "file exceeds size limit"%string
        /\ Findings r = [] /\ OverallRisk r = RiskUnknown)
  /\ (forall modTime, Stat w filePath = Ok (0, modTime) ->
      exists r, scan e w filePath = Some (r, [EvStat filePath])
        /\ OverallRisk r = RiskNone /\ Error r = None /\ Findings r = []
        /\ invoked [EvStat filePath] = []).
Proof.
  unfold scanFile. repeat split.
  - intros err ->. eexists. split; reflexivity.
  - intros size modTime -> Hsize.
    replace (maxSize <? size) with true by (symmetry; apply Z.ltb_lt; unfold maxSize; lia).
    eexists. repeat split; reflexivity.
  - intros modTime ->. cbn. eexists. repeat split; reflexivity.
Qed.

(** The analyzer loop invokes, in the order of [enabledNames], the
    analyzers whose required features are present. *)
Lemma runAnalyzers_invoked (e : Engine) (file : FileInfo) (content : string)
  (featureSet : FeatureSet) (enabledNames : list string) :
  invoked (snd (runAnalyzers e file content featureSet enabledNames))
  = List.filter
      (fun name =>
         match analyzers e !! name with
         | Some analyzer => canRunAnalyzer analyzer featureSet
         | None => false
         end)
      enabledNames.
Proof.
  induction enabledNames as [| name rest IH]; [reflexivity |].
  cbn [runAnalyzers List.filter].
  destruct (runAnalyzers e file content featureSet rest) as [findings events].
  cbn [snd] in IH.
  destruct (analyzers e !! name) as [analyzer |]; [| exact IH].
  destruct (canRunAnalyzer analyzer featureSet); [| exact IH].
  destruct (fst (Analyze analyzer file content featureSet));
    cbn [snd invoked flat_map app]; now rewrite <- IH.
Qed.

(** Names in strictly ascending order. *)
Fixpoint ascending (names : list string) : bool :=
  match names with
  | a :: (b :: _) as rest => String.ltb a b && ascending rest
  | _ => true
  end.

(** An analyzer without requirements that reports every file. *)
Definition always (name : string) : Analyzer :=
  {| Name := name; RequiredFeatures := [];
     Analyze := fun _ _ _ =>
       (Some {| AnalyzerName := name; Description := "matched";
                Risk := RiskCritical; Confidence := 1%float |}, None) |}.

(** An engine with the regex and yara analyzers enabled and no parser
    bridge. *)
Definition two_analyzers : Engine :=
  {| analyzers := <["regex"%string := always "regex"]>
                    (<["yara"%string := always "yara"]> ∅);
     astManager := None |}.

(** A run in which the runtime walks the analyzer map from [yara] to
    [regex]; the file holds five bytes. *)
Definition yara_first : World :=
  {| Stat := fun _ => Ok (5, 0);
     ReadFile := fun _ => Ok "<?php"%string;
     GetAST := fun _ => ast.VNil;
     rangeOrder := ["yara"; "regex"]%string |}.

(** C4 at a failing input.  The order [yara], [regex] is one the
    runtime may choose for the two-analyzer engine; the scan then
    invokes [yara] before [regex], which is not ascending by name. *)
Theorem scanFile_order_not_ascending :
  Permutation (rangeOrder yara_first) (List.map fst (map_to_list (analyzers two_analyzers)))
  /\ option_map (fun p => invoked (snd p)) (scan two_analyzers yara_first "a.php")
     = Some ["yara"; "regex"]%string
  /\ ascending ["yara"; "regex"]%string = false.
Proof.
  split; [| split].
  - vm_compute. reflexivity.
  - vm_compute. reflexivity.
  - reflexivity.
Qed.

End EngineFacts.


(** ** Start-up of the SVM fusion analyzer *)

Section SvmFacts.

Import ml.
Local Open Scope float_scope.

Context {Model : Type}.
Variable PredictValues : Model -> gmap Z float -> list float.
Variable NewModelFromFileStream : string -> option Model.
Context {Bayes : Type}.
Variable NewBayesWordsAnalyzer : string -> option Bayes.
Variable Exp : float -> float.
Variable UnmarshalCalibration : string -> CalibrationInfo -> CalibrationInfo * bool.
Variable UnmarshalFeatureInfo : string -> (list string * Z) * bool.

Local Abbreviation New :=
  (NewSvmProssesAnalyzer PredictValues NewModelFromFileStream
     NewBayesWordsAnalyzer Exp UnmarshalCalibration UnmarshalFeatureInfo).

(** The info file the constructor reads. *)
Definition infoData (files : Assets) : option string :=
  match embeddedInfo files with
  | Some d => Some d
  | None => diskInfo files
  end.

(** [validateModel] leaves an analyzer that is not yet marked
    initialized as it is. *)
Lemma validateModel_uninitialized (s : @SvmProssesAnalyzer Model Bayes) :
  isInitialized s = false -> validateModel PredictValues Exp s = s.
Proof.
  intros H. unfold validateModel. rewrite H. now destruct (model s).
Qed.

Lemma loadFeatureInfo_keeps (s : @SvmProssesAnalyzer Model Bayes) (data : string) :
  let s' := fst (loadFeatureInfo UnmarshalFeatureInfo s data) in
  calibration s' = calibration s /\ isInitialized s' = isInitialized s
  /\ validationPerformed s' = validationPerformed s
  /\ validationPassed s' = validationPassed s.
Proof.
  unfold loadFeatureInfo.
  destruct (UnmarshalFeatureInfo data) as [[names n] failed].
  destruct failed; [cbn; auto |].
  destruct (0 <? List.length names)%nat; cbn; auto.
Qed.

(** The constructor never runs the validation and never touches what
    [json.Unmarshal] stored: whatever the files hold, the analyzer it
    returns has [validationPerformed = false], and its calibration is
    the descriptor exactly as decoded. *)
Lemma NewSvmProssesAnalyzer_state (files : Assets) (dir : string) :
  let s := New files dir in
  validationPerformed s = false
  /\ validationPassed s = false
  /\ calibration s
     = match infoData files with
       | Some d => fst (UnmarshalCalibration d zeroCalibration)
       | None => zeroCalibration
       end.
Proof.
  unfold NewSvmProssesAnalyzer, infoData.
  destruct (match embeddedInfo files with Some d => Some d | None => diskInfo files end)
    as [d |]; [| cbn; auto].
  cbn [calibration]. destruct (UnmarshalCalibration d zeroCalibration) as [c failed].
  destruct failed; [cbn; auto |].
  match goal with
  | |- context [loadFeatureInfo _ ?s0 d] =>
      destruct (loadFeatureInfo_keeps s0 d) as (Hc & Hi & Hp & Hq);
      destruct (fst (loadFeatureInfo UnmarshalFeatureInfo s0 d)) as [p fi m b i fn c' vp vq]
  end.
  cbn in Hc, Hi, Hp, Hq. subst.
  destruct (match embeddedModel files with Some d0 => Some d0 | None => diskModel files end)
    as [md |]; [| cbn; auto].
  cbn [set_bayesModel set_model model modelPath featureInfos bayesModel isInitialized
       featureNames calibration validationPerformed validationPassed].
  destruct (NewModelFromFileStream md) as [m' |]; [| cbn; auto].
  rewrite validateModel_uninitialized by reflexivity. cbn. auto.
Qed.

End SvmFacts.

Section SvmStartup.

Import ml.
Local Open Scope float_scope.

Variable PredictAny : unit -> gmap Z float -> list float.
Variable Exp : float -> float.

Definition nine_names : list string :=
  ["LM"; "LVC"; "WM"; "WVC"; "SR"; "TR"; "SPL"; "IE"; "BAYES"]%string.

(** Both files are found among the embedded assets. *)
Definition shipped : Assets :=
  {| embeddedInfo := Some "info"%string; diskInfo := None;
     embeddedModel := Some "model"%string; diskModel := None |}.

(** A descriptor with no per-feature statistics, [a = 0] and an
    optimal threshold of 7. *)
Definition unguarded : CalibrationInfo :=
  {| FeatureNames := nine_names; NumFeatures := 9;
     Stats := mkFeatureStats None None None None;
     Sigmoid := mkSigmoid 0 0; OptimalThreshold := 7;
     ClassMapping := ∅; ValidationSamples := ∅ |}.

(** C3 at a failing input.  With the descriptor [unguarded] decoded
    from the info file and a model that loads, the constructor returns
    an initialized (active) analyzer whose [a] is still 0, whose
    threshold is still 7 and whose means are still missing; the
    unused [loadCalibrationInfo] would have put [a = 1] and threshold
    0.5 on the same data and reported the missing means. *)
Theorem NewSvmProssesAnalyzer_unguarded :
  let decode := fun (_ : string) (_ : CalibrationInfo) => (unguarded, false) in
  let names := fun (_ : string) => ((nine_names, 9%Z), false) in
  let s :=
    NewSvmProssesAnalyzer PredictAny (fun _ => Some tt) (fun _ => Some tt) Exp
      decode names shipped "data/models" in
  (isInitialized s = true
   /\ A (Sigmoid (calibration s)) = 0
   /\ OptimalThreshold (calibration s) = 7
   /\ Means (Stats (calibration s)) = None)
  /\ (let '(s', err) := loadCalibrationInfo decode s "info" in
      A (Sigmoid (calibration s')) = 1
      /\ OptimalThreshold (calibration s') = 0.5
      /\ err = Some "feature statistics incomplete: means missing"%string).
Proof. cbn. repeat split; reflexivity. Qed.

(** A validation sample of class webshell. *)
Definition webshell_sample : ValidationSample :=
  {| Features := [0; 0; 0; 0; 0; 0; 0; 0; 0.5]; RawDecision := 1;
     SigmoidScore := 0.9; ExpectedClass := "webshell" |}.

(** A complete descriptor with that one validation sample. *)
Definition one_sample : CalibrationInfo :=
  {| FeatureNames := nine_names; NumFeatures := 9;
     Stats := mkFeatureStats (Some (repeat 0 9)) (Some (repeat 1 9))
                (Some (repeat 0 9)) (Some (repeat 1 9));
     Sigmoid := mkSigmoid 1 0; OptimalThreshold := 0.5;
     ClassMapping := ∅;
     ValidationSamples := {[ "sample"%string := webshell_sample ]} |}.

(** A model whose raw decision is -1 on every input: the sign opposite
    to the class of the sample. *)
Definition minus_one : unit -> gmap Z float -> list float := fun _ _ => [-1].

(** C2 at a failing input.  The only validation sample is of class
    webshell and the model decides -1 on it; the constructor returns
    an initialized analyzer on which no validation was performed, and
    a later prediction keeps the raw decision -1 and applies the
    sigmoid to it unnegated. *)
Theorem NewSvmProssesAnalyzer_skips_validation (feats : gmap Z float) :
  let decode := fun (_ : string) (_ : CalibrationInfo) => (one_sample, false) in
  let names := fun (_ : string) => ((nine_names, 9%Z), false) in
  let s :=
    NewSvmProssesAnalyzer minus_one (fun _ => Some tt) (fun _ => Some tt) Exp
      decode names shipped "data/models" in
  isInitialized s = true
  /\ validationPerformed s = false
  /\ predict minus_one Exp s feats = (1 / (1 + Exp 1), -1).
Proof. cbn. repeat split; reflexivity. Qed.

(** Had the constructor marked the analyzer initialized before
    validating, that sample would have set the reversal: it is
    classified normal (its calibrated score is below the threshold)
    against a raw decision of the wrong sign. *)
Lemma validateModel_would_reverse :
  (0.5 <=? 1 / (1 + Exp 1)) = false ->
  let s0 :=
    {| modelPath := "data/models"%string; featureInfos := []; model := Some tt;
       bayesModel := Some tt; isInitialized := true; featureNames := nine_names;
       calibration := one_sample;
       validationPerformed := false; validationPassed := false |} in
  let s := validateModel minus_one Exp s0 in
  validationPerformed s = true /\ validationPassed s = false
  /\ snd (predict minus_one Exp s ∅) = 1.
Proof.
  intros Hlow. vm_compute in Hlow |- *. rewrite !Hlow. repeat split; reflexivity.
Qed.

End SvmStartup.


(** * Further properties *)

(** ** The scorer: what it depends on *)

Section ScorerShape.

Import features scoring.

Lemma rubric_score_perm (findings findings' : list Finding) (callable : bool) :
  Permutation findings findings' ->
  rubric_score findings callable = rubric_score findings' callable.
Proof.
  intros Hp. unfold rubric_score, present, svm_above_091.
  now rewrite !(existsb_perm _ findings findings' Hp).
Qed.

(** The verdict does not depend on the order in which the analyzers
    reported: permuting the findings changes neither score nor risk. *)
Theorem CalculateScore_order_independent
  (findings findings' : list Finding) (featureSet : option FeatureSet) :
  Permutation findings findings' ->
  totalScore findings featureSet = totalScore findings' featureSet
  /\ CalculateScore findings featureSet = CalculateScore findings' featureSet.
Proof.
  intros Hp. rewrite !totalScore_rubric, !CalculateScore_risk.
  now rewrite (rubric_score_perm findings findings' _ Hp).
Qed.

Definition regex_hit : Finding :=
  {| AnalyzerName := "regex"; Description := "Matched high-risk regex pattern: (?i)c99shell";
     Risk := RiskCritical; Confidence := 0.9%float |}.

Definition yara_hit : Finding :=
  {| AnalyzerName := "yara"; Description := "Matched YARA rule: webshell_c99";
     Risk := RiskCritical; Confidence := 1%float |}.

Lemma CalculateScore_order_independent_witness :
  totalScore [regex_hit; yara_hit] None = totalScore [yara_hit; regex_hit] None
  /\ CalculateScore [regex_hit; yara_hit] None = CalculateScore [yara_hit; regex_hit] None.
Proof.
  apply (CalculateScore_order_independent [regex_hit; yara_hit] [yara_hit; regex_hit] None).
  apply perm_swap.
Defined.

(** The names the scorer looks at. *)
Definition scored (f : Finding) : bool :=
  String.eqb (AnalyzerName f) "regex" || String.eqb (AnalyzerName f) "yara"
  || String.eqb (AnalyzerName f) "svm_prosses"
  || String.eqb (AnalyzerName f) "statistical".

Lemma existsb_filter_implied {A : Type} (p q : A -> bool) (l : list A) :
  (forall x, p x = true -> q x = true) ->
  existsb p (List.filter q l) = existsb p l.
Proof.
  intros Himp. induction l as [| x rest IH]; [reflexivity |].
  cbn [List.filter existsb]. destruct (q x) eqn:Hq; cbn [existsb]; rewrite IH.
  - reflexivity.
  - destruct (p x) eqn:Hp; [| reflexivity]. apply Himp in Hp. congruence.
Qed.

Lemma existsb_map_any {A B : Type} (p : B -> bool) (g : A -> B) (l : list A) :
  existsb p (List.map g l) = existsb (fun x => p (g x)) l.
Proof. induction l as [| x rest IH]; cbn; [reflexivity | now rewrite IH]. Qed.

(** Findings of any other analyzer (the Bayes analyzer's, for one) do
    not count: dropping them changes neither score nor risk, and
    neither does a finding's own risk level or description, which the
    scorer never reads. *)
Theorem CalculateScore_ignores_unscored
  (findings : list Finding) (featureSet : option FeatureSet) :
  totalScore (List.filter scored findings) featureSet = totalScore findings featureSet
  /\ CalculateScore (List.filter scored findings) featureSet
     = CalculateScore findings featureSet
  /\ (forall relabel : Finding -> RiskLevel * string,
        CalculateScore
          (List.map (fun f => {| AnalyzerName := AnalyzerName f;
                                 Description := snd (relabel f);
                                 Risk := fst (relabel f);
                                 Confidence := Confidence f |}) findings)
          featureSet
        = CalculateScore findings featureSet).
Proof.
  assert (rubric_score (List.filter scored findings) (callable_flag featureSet)
          = rubric_score findings (callable_flag featureSet)) as Hr.
  { unfold rubric_score, present, svm_above_091.
    rewrite !existsb_filter_implied; [reflexivity | ..];
      intros x Hx; unfold scored;
      try apply andb_true_iff in Hx as [Hx _]; rewrite Hx;
      rewrite ?orb_true_r; reflexivity. }
  rewrite !totalScore_rubric, !CalculateScore_risk, Hr.
  repeat split. intros relabel. rewrite !CalculateScore_risk. f_equal. f_equal.
  unfold rubric_score, present, svm_above_091.
  rewrite !existsb_map_any. reflexivity.
Qed.


(** The risk is Critical exactly when the callable flag is set and
    either both pattern analyzers matched with one of the two
    callable-gated findings, or one pattern analyzer matched with both
    of them; without the callable flag the score is at most 4. *)
Theorem CalculateScore_critical
  (findings : list Finding) (featureSet : option FeatureSet) :
  let regex := present "regex" findings in
  let yara := present "yara" findings in
  let svm := svm_above_091 findings in
  let stat := present "statistical" findings in
  (CalculateScore findings featureSet = RiskCritical
   <-> callable_flag featureSet
       && ((regex && yara && (svm || stat)) || ((regex || yara) && svm && stat)) = true)
  /\ (callable_flag featureSet = false ->
      totalScore findings featureSet
      = (if regex then 1 else 0) + (if yara then 1 else 0)
        + (if regex && yara then 2 else 0)
      /\ RiskLevel_code (CalculateScore findings featureSet) <= 4).
Proof.
  cbn zeta. rewrite totalScore_rubric, CalculateScore_risk. unfold rubric_score.
  destruct (present "regex" findings), (present "yara" findings),
    (svm_above_091 findings), (present "statistical" findings),
    (callable_flag featureSet); cbn; repeat split; try discriminate; try lia;
    try reflexivity; intros; try discriminate; lia.
Qed.

End ScorerShape.


(** ** The engine: gating and the analyzer order *)

Section EngineGating.

Import features engine.

Variable Log2 : float -> float.
Variable stat_Mean : list Z -> float.
Variable stat_Variance : list Z -> float.
Variable tagNumber : string -> Z.

Local Abbreviation scan := (scanFile Log2 stat_Mean stat_Variance tagNumber).
Local Abbreviation extract := (ExtractAllFeatures Log2 stat_Mean stat_Variance tagNumber).

(** What one analyzer name contributes to the findings. *)
Definition contribution (e : Engine) (file : FileInfo) (content : string)
  (featureSet : FeatureSet) (name : string) : list Finding :=
  match analyzers e !! name with
  | Some analyzer =>
      if canRunAnalyzer analyzer featureSet then
        match fst (Analyze analyzer file content featureSet) with
        | Some finding => [finding]
        | None => []
        end
      else []
  | None => []
  end.

Lemma runAnalyzers_findings (e : Engine) (file : FileInfo) (content : string)
  (featureSet : FeatureSet) (enabledNames : list string) :
  fst (runAnalyzers e file content featureSet enabledNames)
  = flat_map (contribution e file content featureSet) enabledNames.
Proof.
  induction enabledNames as [| name rest IH]; [reflexivity |].
  cbn [runAnalyzers flat_map]. unfold contribution at 1.
  destruct (runAnalyzers e file content featureSet rest) as [findings events].
  cbn [fst] in IH. subst findings.
  destruct (analyzers e !! name) as [analyzer |]; [| reflexivity].
  destruct (canRunAnalyzer analyzer featureSet); [| reflexivity].
  destruct (fst (Analyze analyzer file content featureSet)); reflexivity.
Qed.

(** Gating.  Every finding of the analyzer loop was returned by an
    analyzer that is registered under one of the enabled names and
    whose required features are all present; an analyzer with a
    missing feature contributes nothing, and there are never more
    findings than analyzers invoked. *)
Theorem runAnalyzers_gated (e : Engine) (file : FileInfo) (content : string)
  (featureSet : FeatureSet) (enabledNames : list string) :
  let run := runAnalyzers e file content featureSet enabledNames in
  (forall finding, In finding (fst run) ->
     exists name analyzer,
       In name enabledNames /\ analyzers e !! name = Some analyzer
       /\ canRunAnalyzer analyzer featureSet = true
       /\ fst (Analyze analyzer file content featureSet) = Some finding)
  /\ (forall name analyzer,
        analyzers e !! name = Some analyzer ->
        canRunAnalyzer analyzer featureSet = false ->
        ~ In name (invoked (snd run)))
  /\ (List.length (fst run) <= List.length (invoked (snd run)) <= List.length enabledNames)%nat.
Proof.
  cbn zeta. rewrite runAnalyzers_findings, runAnalyzers_invoked. repeat split.
  - intros finding Hin. apply in_flat_map in Hin as (name & Hname & Hin).
    unfold contribution in Hin.
    destruct (analyzers e !! name) as [analyzer |] eqn:Hl; [| contradiction].
    destruct (canRunAnalyzer analyzer featureSet) eqn:Hc; [| contradiction].
    destruct (fst (Analyze analyzer file content featureSet)) as [f |] eqn:Hf;
      [| contradiction].
    destruct Hin as [<- | []]. eauto 8.
  - intros name analyzer Hl Hc Hin. apply filter_In in Hin as [_ Hin].
    rewrite Hl, Hc in Hin. discriminate.
  - induction enabledNames as [| name rest IH]; [cbn; lia |].
    cbn [flat_map List.filter]. rewrite List.length_app. unfold contribution at 1.
    destruct (analyzers e !! name) as [analyzer |]; [| cbn; lia].
    destruct (canRunAnalyzer analyzer featureSet); [| cbn; lia].
    destruct (fst (Analyze analyzer file content featureSet)); cbn; lia.
  - apply List.filter_length_le.
Qed.

(** The same world with another order of walking the analyzer map. *)
Definition with_order (w : World) (names : list string) : World :=
  {| Stat := Stat w; ReadFile := ReadFile w; GetAST := GetAST w; rangeOrder := names |}.

(** What a scan reports, apart from the order of the findings. *)
Definition same_verdict (a b : option (ScanResult * list Event)) : Prop :=
  match a, b with
  | Some (r1, _), Some (r2, _) =>
      File r1 = File r2 /\ OverallRisk r1 = OverallRisk r2
      /\ Error r1 = Error r2 /\ Permutation (Findings r1) (Findings r2)
  | None, None => True
  | _, _ => False
  end.

(** Whatever order the runtime walks the analyzer map in, a scan
    returns the same file record, the same error, the same overall
    risk and the same findings up to their order. *)
Theorem scanFile_verdict_order_independent
  (e : Engine) (w : World) (filePath : string) (names names' : list string) :
  Permutation names names' ->
  same_verdict (scan e (with_order w names) filePath)
               (scan e (with_order w names') filePath).
Proof.
  intros Hp. unfold scanFile, same_verdict. cbn [Stat ReadFile GetAST rangeOrder with_order].
  destruct (Stat w filePath) as [[size modTime] | err]; [| repeat split; reflexivity].
  destruct (maxSize <? size); [repeat split; reflexivity |].
  destruct (size =? 0); [repeat split; reflexivity |].
  destruct (ReadFile w filePath) as [content | err]; [| repeat split; reflexivity].
  destruct (astManager e) as [fuel |].
  - destruct (extract content (GetAST w content) (Some fuel)) as [[fs errs] |]; [| exact I].
    pose proof (runAnalyzers_findings e (mkFileInfo filePath size modTime) content fs names) as H1.
    pose proof (runAnalyzers_findings e (mkFileInfo filePath size modTime) content fs names') as H2.
    destruct (runAnalyzers e _ content fs names) as [f1 ev1].
    destruct (runAnalyzers e _ content fs names') as [f2 ev2].
    cbn [fst] in H1, H2. subst f1 f2. cbn [File OverallRisk Error Findings].
    assert (Permutation (flat_map (contribution e (mkFileInfo filePath size modTime) content fs) names)
              (flat_map (contribution e (mkFileInfo filePath size modTime) content fs) names'))
      as Hperm by (apply Permutation_flat_map, Hp).
    repeat split; [| exact Hperm].
    rewrite !CalculateScore_risk. now rewrite (rubric_score_perm _ _ _ Hperm).
  - destruct (extract content ast.VNil None) as [[fs errs] |]; [| exact I].
    pose proof (runAnalyzers_findings e (mkFileInfo filePath size modTime) content fs names) as H1.
    pose proof (runAnalyzers_findings e (mkFileInfo filePath size modTime) content fs names') as H2.
    destruct (runAnalyzers e _ content fs names) as [f1 ev1].
    destruct (runAnalyzers e _ content fs names') as [f2 ev2].
    cbn [fst] in H1, H2. subst f1 f2. cbn [File OverallRisk Error Findings].
    assert (Permutation (flat_map (contribution e (mkFileInfo filePath size modTime) content fs) names)
              (flat_map (contribution e (mkFileInfo filePath size modTime) content fs) names'))
      as Hperm by (apply Permutation_flat_map, Hp).
    repeat split; [| exact Hperm].
    rewrite !CalculateScore_risk. now rewrite (rubric_score_perm _ _ _ Hperm).
Qed.

End EngineGating.

(** An analyzer without requirements that reports every file under
    its own name. *)
Definition reporting_analyzer (name : string) : engine.Analyzer :=
  {| engine.Name := name; engine.RequiredFeatures := [];
     engine.Analyze := fun _ _ _ =>
       (Some {| AnalyzerName := name; Description := "matched";
                Risk := RiskCritical; Confidence := 1%float |}, None) |}.

(** An engine with two pattern analyzers and no parser bridge, and a
    world in which every file holds the same five bytes. *)
Definition pattern_engine : engine.Engine :=
  {| engine.analyzers :=
       <["regex"%string := reporting_analyzer "regex"]>
         (<["yara"%string := reporting_analyzer "yara"]> ∅);
     engine.astManager := None |}.

Definition five_bytes : engine.World :=
  {| engine.Stat := fun _ => Ok (5, 0);
     engine.ReadFile := fun _ => Ok "<?php"%string;
     engine.GetAST := fun _ => ast.VNil;
     engine.rangeOrder := ["regex"; "yara"]%string |}.

Lemma scanFile_verdict_order_independent_witness :
  same_verdict
    (engine.scanFile (fun x => x) (fun _ => 0%float) (fun _ => 0%float) (fun _ => 0)
       pattern_engine (with_order five_bytes ["regex"; "yara"]%string) "a.php")
    (engine.scanFile (fun x => x) (fun _ => 0%float) (fun _ => 0%float) (fun _ => 0)
       pattern_engine (with_order five_bytes ["yara"; "regex"]%string) "a.php").
Proof.
  apply (scanFile_verdict_order_independent (fun x => x) (fun _ => 0%float)
           (fun _ => 0%float) (fun _ => 0) pattern_engine five_bytes "a.php").
  apply perm_swap.
Defined.

Section NoTree.

Import features engine.

Variable Log2 : float -> float.
Variable stat_Mean : list Z -> float.
Variable stat_Variance : list Z -> float.
Variable tagNumber : string -> Z.

Local Abbreviation scan := (scanFile Log2 stat_Mean stat_Variance tagNumber).
Local Abbreviation extract := (ExtractAllFeatures Log2 stat_Mean stat_Variance tagNumber).

(** Feature extraction without a tree: statistics for non-empty
    content and nothing else, whatever the manager. *)
Lemma ExtractAllFeatures_no_tree (content : string) (astMgr : option nat) :
  extract content ast.VNil astMgr
  = Some ({| Statistical :=
               if 0 <? len content
               then Some (CalculateStatisticalFeatures Log2 stat_Mean stat_Variance
                            tagNumber content)
               else None;
             ASTWords := None; ASTOpSequence := None; Callable := false;
             RawAST := ast.VNil |}, []).
Proof. unfold ExtractAllFeatures. now destruct astMgr. Qed.

Lemma keyPresent_tree_keys (fs : FeatureSet) (key : string) :
  ASTWords fs = None -> ASTOpSequence fs = None -> RawAST fs = ast.VNil ->
  In key ["ast_words"; "ast_op_sequence"; "raw_ast"]%string ->
  keyPresent fs key = Some false.
Proof.
  intros Hw Ho Hr Hin. unfold keyPresent. rewrite Hw, Ho, Hr.
  cbn in Hin. destruct Hin as [<- | [<- | [<- | []]]]; reflexivity.
Qed.

(** Without a tree (no manager, or the bridge returned none) and with
    non-empty content: an analyzer that requires only the statistics
    and the callable flag can run, one without requirements can run,
    and one that requires the words, the operation sequences or the
    raw tree cannot. *)
Theorem canRunAnalyzer_without_tree
  (content : string) (astMgr : option nat) (analyzer : Analyzer) :
  content <> ""%string ->
  exists fs errs,
    extract content ast.VNil astMgr = Some (fs, errs)
    /\ Callable fs = false
    /\ (RequiredFeatures analyzer = static.RequiredFeatures static.NewStatisticalAnalyzer ->
        canRunAnalyzer analyzer fs = true)
    /\ (RequiredFeatures analyzer = [] -> canRunAnalyzer analyzer fs = true)
    /\ ((exists key, In key ["ast_words"; "ast_op_sequence"; "raw_ast"]%string
                     /\ In key (RequiredFeatures analyzer)) ->
        canRunAnalyzer analyzer fs = false).
Proof.
  intros Hne. rewrite ExtractAllFeatures_no_tree. do 2 eexists. split; [reflexivity |].
  assert ((0 <? len content) = true) as Hlen.
  { destruct content; [contradiction |]. unfold len. cbn [String.length]. apply Z.ltb_lt. lia. }
  rewrite Hlen. repeat split.
  - intros Hreq. unfold canRunAnalyzer. rewrite Hreq. reflexivity.
  - intros Hreq. unfold canRunAnalyzer. rewrite Hreq. reflexivity.
  - intros (key & Hkey & Hin). unfold canRunAnalyzer.
    apply not_true_is_false. intros Hall. rewrite forallb_forall in Hall.
    specialize (Hall key Hin).
    rewrite keyPresent_tree_keys in Hall by (auto; reflexivity). discriminate.
Qed.


End NoTree.

Lemma canRunAnalyzer_without_tree_witness :
  exists fs errs,
    features.ExtractAllFeatures (fun x => x) (fun _ => 0%float) (fun _ => 0%float) (fun _ => 0)
      "<?php" ast.VNil None = Some (fs, errs)
    /\ features.Callable fs = false
    /\ (engine.RequiredFeatures (reporting_analyzer "regex")
        = static.RequiredFeatures static.NewStatisticalAnalyzer ->
        engine.canRunAnalyzer (reporting_analyzer "regex") fs = true)
    /\ (engine.RequiredFeatures (reporting_analyzer "regex") = [] ->
        engine.canRunAnalyzer (reporting_analyzer "regex") fs = true)
    /\ ((exists key, In key ["ast_words"; "ast_op_sequence"; "raw_ast"]%string
                     /\ In key (engine.RequiredFeatures (reporting_analyzer "regex"))) ->
        engine.canRunAnalyzer (reporting_analyzer "regex") fs = false).
Proof.
  apply (canRunAnalyzer_without_tree (fun x => x) (fun _ => 0%float) (fun _ => 0%float)
           (fun _ => 0) "<?php" None (reporting_analyzer "regex")).
  discriminate.
Defined.




(** ** internal/engine: building the engine *)

Section EngineSetup.

Import engine.

(** [strings.ToLower], and what each analyzer's constructor returns
    (they read the embedded assets and the disk). *)
Variable strings_ToLower : string -> string.
Variable NewRegexAnalyzer : result Analyzer.
Variable NewYaraAnalyzer : result Analyzer.
Variable NewStatisticalAnalyzer : result Analyzer.
Variable NewBayesWordsAnalyzer : result Analyzer.
Variable NewSvmProssesAnalyzer : result Analyzer.

Definition astRequiredBy : list string :=
  ["regex"; "yara"; "bayes_words"; "statistical"; "svm_prosses"]%string.

Definition member (name : string) (names : list string) : bool :=
  existsb (String.eqb name) names.

(** The [switch nameLower] of [NewEngine]: [None] for an unknown name. *)
Definition construct (nameLower : string) : option (result Analyzer) :=
  if String.eqb nameLower "regex" then Some NewRegexAnalyzer
  else if String.eqb nameLower "yara" then Some NewYaraAnalyzer
  else if String.eqb nameLower "statistical" then Some NewStatisticalAnalyzer
  else if String.eqb nameLower "bayes_words" then Some NewBayesWordsAnalyzer
  else if String.eqb nameLower "svm_prosses" then Some NewSvmProssesAnalyzer
  else None.

(** The body of the loop over [enabledSet]. *)
Definition register (astMgr : option nat) (enabledAnalyzers : gmap string Analyzer)
  (nameLower : string) : gmap string Analyzer :=
  let requiresAST := member nameLower astRequiredBy in
  if requiresAST && match astMgr with None => true | Some _ => false end
  then enabledAnalyzers
  else
    match construct nameLower with
    | Some (Ok analyzer) => <[nameLower := analyzer]> enabledAnalyzers
    | _ => enabledAnalyzers
    end.

(** [NewEngine], from the configured names and the outcome of
    [ast.NewPhpAstManager] ([None] when the bridge did not start).
    The keys of [enabledSet] are walked in the order of the
    configuration; a repeated key registers the same analyzer again. *)
Definition NewEngine (EnabledAnalyzers : list string) (NewPhpAstManager : option nat)
  : Engine :=
  let enabledSet := List.map strings_ToLower EnabledAnalyzers in
  let needsAST := existsb (fun req => member req enabledSet) astRequiredBy in
  let astMgr := if needsAST then NewPhpAstManager else None in
  {| analyzers := fold_left (register astMgr) enabledSet ∅;
     astManager := astMgr |}.

Lemma member_In (name : string) (names : list string) :
  member name names = true <-> In name names.
Proof.
  unfold member. rewrite existsb_exists. split.
  - intros (x & Hin & Heq). apply String.eqb_eq in Heq. now subst.
  - intros Hin. exists name. split; [exact Hin | apply String.eqb_refl].
Qed.

Lemma construct_known (nameLower : string) (r : result Analyzer) :
  construct nameLower = Some r -> member nameLower astRequiredBy = true.
Proof.
  unfold construct, member, astRequiredBy. cbn [existsb].
  destruct (String.eqb nameLower "regex"); [reflexivity |].
  destruct (String.eqb nameLower "yara"); [reflexivity |].
  destruct (String.eqb nameLower "statistical"); [now rewrite !orb_true_r |].
  destruct (String.eqb nameLower "bayes_words"); [reflexivity |].
  destruct (String.eqb nameLower "svm_prosses"); [now rewrite !orb_true_r |].
  discriminate.
Qed.

(** The analyzer a name gets registered with, if any. *)
Definition registration (astMgr : option nat) (nameLower : string) : option Analyzer :=
  if member nameLower astRequiredBy && match astMgr with None => true | Some _ => false end
  then None
  else
    match construct nameLower with
    | Some (Ok analyzer) => Some analyzer
    | _ => None
    end.

Lemma register_lookup (astMgr : option nat) (m : gmap string Analyzer) (n name : string) :
  register astMgr m n !! name
  = match (if String.eqb name n then registration astMgr n else None) with
    | Some analyzer => Some analyzer
    | None => m !! name
    end.
Proof.
  unfold register, registration.
  destruct (String.eqb_spec name n) as [-> | Hne].
  - destruct (member n astRequiredBy && _); [reflexivity |].
    destruct (construct n) as [[a | err] |]; try reflexivity.
    apply lookup_insert_eq.
  - destruct (member n astRequiredBy && _); [reflexivity |].
    destruct (construct n) as [[a | err] |]; try reflexivity.
    apply lookup_insert_ne. congruence.
Qed.

Lemma fold_register_lookup (astMgr : option nat) (names : list string)
  (m : gmap string Analyzer) (name : string) :
  fold_left (register astMgr) names m !! name
  = match (if member name names then registration astMgr name else None) with
    | Some analyzer => Some analyzer
    | None => m !! name
    end.
Proof.
  revert m. induction names as [| n rest IH]; intros m; [reflexivity |].
  cbn [fold_left]. rewrite IH, register_lookup. unfold member. cbn [existsb].
  fold (member name rest).
  destruct (String.eqb_spec name n) as [-> | Hne]; cbn [orb].
  - destruct (member n rest); destruct (registration astMgr n); reflexivity.
  - reflexivity.
Qed.

Lemma registration_no_bridge (nameLower : string) : registration None nameLower = None.
Proof.
  unfold registration. destruct (member nameLower astRequiredBy) eqn:Hreq; [reflexivity |].
  cbn [andb]. destruct (construct nameLower) as [[a | err] |] eqn:Hc; try reflexivity.
  apply construct_known in Hc. congruence.
Qed.

(** Which analyzers the engine holds.  A name is registered exactly
    when it is among the lower-cased configured names, the parser
    bridge started, and the constructor for that name succeeded; so
    only the five known names are ever registered, and when the bridge
    does not start no analyzer is registered at all, the pattern
    analyzers included. *)
Theorem NewEngine_registered
  (EnabledAnalyzers : list string) (NewPhpAstManager : option nat)
  (name : string) (analyzer : Analyzer) :
  (analyzers (NewEngine EnabledAnalyzers NewPhpAstManager) !! name = Some analyzer
   <-> In name (List.map strings_ToLower EnabledAnalyzers)
       /\ NewPhpAstManager <> None
       /\ construct name = Some (Ok analyzer))
  /\ (analyzers (NewEngine EnabledAnalyzers NewPhpAstManager) !! name = Some analyzer ->
      In name astRequiredBy)
  /\ analyzers (NewEngine EnabledAnalyzers None) = ∅.
Proof.
  assert (analyzers (NewEngine EnabledAnalyzers NewPhpAstManager) !! name = Some analyzer
          <-> In name (List.map strings_ToLower EnabledAnalyzers)
              /\ NewPhpAstManager <> None
              /\ construct name = Some (Ok analyzer)) as Hiff.
  { unfold NewEngine. cbn [analyzers]. rewrite fold_register_lookup, lookup_empty.
    set (enabledSet := List.map strings_ToLower EnabledAnalyzers).
    destruct (member name enabledSet) eqn:Hm.
    - apply member_In in Hm. unfold registration.
      destruct (construct name) as [[a | err] |] eqn:Hc.
      + pose proof (construct_known name _ Hc) as Hreq. rewrite Hreq. cbn [andb].
        assert (existsb (fun req => member req enabledSet) astRequiredBy = true) as ->.
        { apply existsb_exists. exists name. split; [apply member_In, Hreq |].
          apply member_In, Hm. }
        destruct NewPhpAstManager as [fuel |]; split.
        * intros [= ->]. repeat split; [exact Hm | discriminate].
        * intros (_ & _ & [= ->]). reflexivity.
        * discriminate.
        * intros (_ & Hn & _). contradiction.
      + destruct (_ && _); split; try discriminate; intros (_ & _ & [=]).
      + destruct (_ && _); split; try discriminate; intros (_ & _ & [=]).
    - split; [discriminate |]. intros (Hin & _). apply member_In in Hin. congruence. }
  split; [exact Hiff |]. split.
  - intros H. apply Hiff in H as (_ & _ & Hc). apply member_In.
    eapply construct_known, Hc.
  - apply map_eq. intros n. rewrite lookup_empty. unfold NewEngine. cbn [analyzers].
    rewrite fold_register_lookup, lookup_empty.
    replace (if existsb _ astRequiredBy then None else None) with (@None nat)
      by (now destruct (existsb _ astRequiredBy)).
    rewrite registration_no_bridge. now destruct (member n _).
Qed.

End EngineSetup.


(** ** The repetition-compression pass *)

Section CompressionFacts.

Import ast.

Lemma blockCompare_spec (data : list Z) (i length : nat) :
  blockCompare data i length = true <->
  (i + 2 * length <= List.length data)%nat
  /\ forall k, (k < length)%nat -> nth (i + k) data 0 = nth (i + length + k) data 0.
Proof.
  unfold blockCompare.
  destruct (Nat.ltb_spec (List.length data) (i + 2 * length)) as [Hlt | Hle].
  - split; [discriminate | intros [H _]; lia].
  - rewrite forallb_forall. split.
    + intros H. split; [exact Hle |]. intros k Hk.
      apply Z.eqb_eq, H, in_seq. lia.
    + intros [_ H] k Hk. apply in_seq in Hk. apply Z.eqb_eq, H. lia.
Qed.

Lemma deleteBlock_length (tmp : list Z) (j length : nat) :
  (j + length <= List.length tmp)%nat ->
  List.length (deleteBlock tmp j length) = (List.length tmp - length)%nat.
Proof.
  intros H. unfold deleteBlock.
  rewrite List.length_app, List.length_firstn, List.length_skipn. lia.
Qed.

Lemma deleteBlock_nth (tmp : list Z) (j length p : nat) :
  (j <= List.length tmp)%nat ->
  nth p (deleteBlock tmp j length) 0
  = if (p <? j)%nat then nth p tmp 0 else nth (p + length) tmp 0.
Proof.
  intros Hj. unfold deleteBlock.
  assert (List.length (firstn j tmp) = j) as Hlen
    by (rewrite List.length_firstn; lia).
  destruct (Nat.ltb_spec p j) as [Hp | Hp].
  - rewrite app_nth1 by lia. rewrite nth_firstn.
    now replace (p <? j)%nat with true by (symmetry; apply Nat.ltb_lt; lia).
  - rewrite app_nth2 by lia. rewrite Hlen, nth_skipn. f_equal. lia.
Qed.

(** When the two blocks are equal, deleting the first of them is
    deleting the second. *)
Lemma deleteBlock_second (tmp : list Z) (j length : nat) :
  blockCompare tmp j length = true ->
  deleteBlock tmp j length
  = (firstn (j + length) tmp ++ skipn (j + 2 * length) tmp)%list.
Proof.
  intros Hb. apply blockCompare_spec in Hb as [Hlen Heq].
  apply (nth_ext _ _ 0 0).
  - rewrite deleteBlock_length by lia.
    rewrite List.length_app, List.length_firstn, List.length_skipn. lia.
  - intros p Hp. rewrite deleteBlock_nth by lia.
    assert (List.length (firstn (j + length) tmp) = (j + length)%nat) as Hf
      by (rewrite List.length_firstn; lia).
    destruct (Nat.ltb_spec p (j + length)) as [Hlt | Hge].
    + rewrite app_nth1 by lia. rewrite nth_firstn.
      replace (p <? j + length)%nat with true by (symmetry; apply Nat.ltb_lt; lia).
      destruct (Nat.ltb_spec p j) as [Hpj | Hpj]; [reflexivity |].
      specialize (Heq (p - j)%nat ltac:(lia)).
      replace (j + (p - j))%nat with p in Heq by lia.
      replace (j + length + (p - j))%nat with (p + length)%nat in Heq by lia.
      now rewrite Heq.
    + rewrite app_nth2 by lia. rewrite Hf, nth_skipn.
      replace (p <? j)%nat with false by (symmetry; apply Nat.ltb_ge; lia).
      f_equal. lia.
Qed.

Lemma in_firstn_in {A : Type} (n : nat) (l : list A) (x : A) :
  In x (firstn n l) -> In x l.
Proof. intros H. rewrite <- (firstn_skipn n l). apply in_or_app. now left. Qed.

Lemma in_skipn_in {A : Type} (n : nat) (l : list A) (x : A) :
  In x (skipn n l) -> In x l.
Proof. intros H. rewrite <- (firstn_skipn n l). apply in_or_app. now right. Qed.

Lemma deleteBlock_In (tmp : list Z) (j length : nat) (x : Z) :
  blockCompare tmp j length = true ->
  In x (deleteBlock tmp j length) <-> In x tmp.
Proof.
  intros Hb. pose proof Hb as Hb'. apply blockCompare_spec in Hb' as [Hlen Heq].
  split.
  - unfold deleteBlock. intros H. apply in_app_or in H as [H | H];
      [eapply in_firstn_in | eapply in_skipn_in]; exact H.
  - intros H. apply (In_nth _ _ 0) in H as (i & Hi & <-).
    assert (forall q, (j + length <= q < List.length tmp)%nat ->
                      In (nth q tmp 0) (deleteBlock tmp j length)) as Hlate.
    { intros q Hq. unfold deleteBlock. apply in_or_app. right.
      replace q with (j + length + (q - (j + length)))%nat by lia.
      rewrite <- nth_skipn. apply nth_In. rewrite List.length_skipn. lia. }
    destruct (Nat.lt_ge_cases i j) as [Hij | Hij].
    + unfold deleteBlock. apply in_or_app. left.
      replace (nth i tmp 0) with (nth i (firstn j tmp) 0).
      * apply nth_In. rewrite List.length_firstn. lia.
      * rewrite nth_firstn.
        now replace (i <? j)%nat with true by (symmetry; apply Nat.ltb_lt; lia).
    + destruct (Nat.lt_ge_cases i (j + length)) as [Hil | Hil]; [| apply Hlate; lia].
      specialize (Heq (i - j)%nat ltac:(lia)).
      replace (j + (i - j))%nat with i in Heq by lia.
      rewrite Heq. apply Hlate. lia.
Qed.

(** One scan keeps the elements of the sequence, the first of them in
    its place, and never lengthens it. *)
Lemma scanBlocks_keeps (l : nat) (tmp : list Z) (j : nat) :
  (forall x, In x (scanBlocks l tmp j) <-> In x tmp)
  /\ (List.length (scanBlocks l tmp j) <= List.length tmp)%nat
  /\ hd_error (scanBlocks l tmp j) = hd_error tmp.
Proof.
  funelim (scanBlocks l tmp j).
  - repeat split; auto.
  - destruct H as (Hin & Hlen & Hhd).
    pose proof (proj1 (blockCompare_spec tmp j (S l)) Heq) as [Hbound _].
    repeat split.
    + intros Hx. apply (deleteBlock_In tmp j (S l) x Heq), Hin, Hx.
    + intros Hx. apply Hin, (deleteBlock_In tmp j (S l) x Heq), Hx.
    + rewrite deleteBlock_length in Hlen by lia. lia.
    + rewrite Hhd, (deleteBlock_second tmp j (S l) Heq).
      destruct tmp as [| a rest]; [cbn in Hbound; lia |].
      now replace (j + S l)%nat with (S (j + l)) by lia.
  - exact H.
Qed.

(** After a scan for blocks of length [S l], no two adjacent blocks of
    that length are equal any more. *)
Lemma scanBlocks_no_repeat (l : nat) (tmp : list Z) (j : nat) :
  (forall i, (i < j)%nat -> blockCompare tmp i (S l) = false) ->
  forall i, blockCompare (scanBlocks l tmp j) i (S l) = false.
Proof.
  funelim (scanBlocks l tmp j); intros Hinv i.
  - destruct (Nat.lt_ge_cases i j) as [Hi | Hi]; [apply Hinv, Hi |].
    apply not_true_is_false. intros Hb. apply blockCompare_spec in Hb as [Hlen _]. lia.
  - apply H. clear H i. intros i Hi.
    apply not_true_is_false. intros Hb.
    pose proof (proj1 (blockCompare_spec tmp j (S l)) Heq) as [Hjlen Hjeq].
    apply blockCompare_spec in Hb as [Hilen Hieq].
    rewrite deleteBlock_length in Hilen by lia.
    specialize (Hinv i Hi). apply not_true_iff_false in Hinv. apply Hinv.
    apply blockCompare_spec. split; [lia |].
    intros k Hk. destruct (Nat.lt_ge_cases (i + k) j) as [Hlow | Hhigh].
    + specialize (Hieq k Hk). rewrite !deleteBlock_nth in Hieq by lia.
      replace (i + k <? j)%nat with true in Hieq by (symmetry; apply Nat.ltb_lt; lia).
      rewrite Hieq.
      destruct (Nat.ltb_spec (i + S l + k) j) as [Hl2 | Hl2]; [reflexivity |].
      specialize (Hjeq (i + S l + k - j)%nat ltac:(lia)).
      replace (j + (i + S l + k - j))%nat with (i + S l + k)%nat in Hjeq by lia.
      replace (j + S l + (i + S l + k - j))%nat with (i + S l + k + S l)%nat in Hjeq by lia.
      now rewrite Hjeq.
    + specialize (Hjeq (i + k - j)%nat ltac:(lia)).
      replace (j + (i + k - j))%nat with (i + k)%nat in Hjeq by lia.
      replace (j + S l + (i + k - j))%nat with (i + S l + k)%nat in Hjeq by lia.
      exact Hjeq.
  - apply H. intros i' Hi'. destruct (Nat.eq_dec i' j) as [-> | Hne]; [exact Heq |].
    apply Hinv. lia.
Qed.

(** What one sequence keeps through all block lengths. *)
Definition kept (v c : list Z) : Prop :=
  (forall x, In x c <-> In x v)
  /\ (List.length c <= List.length v)%nat
  /\ hd_error c = hd_error v.

Lemma cleanLengths_keeps (n : nat) (tmp : list Z) : kept tmp (cleanLengths n tmp).
Proof.
  revert tmp. induction n as [| n IH]; intros tmp; cbn [cleanLengths].
  - unfold kept. repeat split; auto.
  - destruct (IH (scanBlocks n tmp 0)) as (Hin & Hlen & Hhd).
    destruct (scanBlocks_keeps n tmp 0) as (Hin' & Hlen' & Hhd').
    unfold kept. repeat split.
    + intros Hx. apply Hin', Hin, Hx.
    + intros Hx. apply Hin, Hin', Hx.
    + lia.
    + congruence.
Qed.

Lemma cleanLengths_last_scan (n : nat) (tmp : list Z) :
  exists t, cleanLengths (S n) tmp = scanBlocks 0 t 0.
Proof.
  revert tmp. induction n as [| n IH]; intros tmp.
  - exists tmp. reflexivity.
  - destruct (IH (scanBlocks (S n) tmp 0)) as [t Ht]. exists t.
    rewrite <- Ht. reflexivity.
Qed.

Definition no_adjacent_repeat (c : list Z) : Prop :=
  forall i x y, nth_error c i = Some x -> nth_error c (S i) = Some y -> x <> y.

Lemma cleanLengths_no_adjacent_repeat (n : nat) (tmp : list Z) :
  no_adjacent_repeat (cleanLengths (S n) tmp).
Proof.
  destruct (cleanLengths_last_scan n tmp) as [t ->].
  intros i x y Hx Hy Heq. subst y.
  assert (Hb : blockCompare (scanBlocks 0 t 0) i 1 = false)
    by (apply scanBlocks_no_repeat; intros i' Hi'; lia).
  apply not_true_iff_false in Hb. apply Hb, blockCompare_spec.
  assert (Hlen : (S i < List.length (scanBlocks 0 t 0))%nat)
    by (apply nth_error_Some; congruence).
  split; [lia |]. intros k Hk. replace k with 0%nat by lia.
  replace (i + 0)%nat with i by lia. replace (i + 1 + 0)%nat with (S i) by lia.
  rewrite (nth_error_nth _ _ 0 Hx), (nth_error_nth _ _ 0 Hy). reflexivity.
Qed.

Lemma cleanOpSerial_In (data : list (list Z)) (maxLen : Z) (c : list Z) :
  In c (cleanOpSerial data maxLen) ->
  exists v, In v data /\ c = cleanLengths (Z.to_nat maxLen) v.
Proof.
  unfold cleanOpSerial. intros H. apply in_map_iff in H as (v & <- & Hv). eauto.
Qed.

(** The compression pass only deletes: sequence by sequence, the output
    holds exactly the operation numbers of its input sequence, starts
    with the same one, and is no longer; this for every [maxLen]. *)
Theorem cleanOpSerial_keeps_elements (data : list (list Z)) (maxLen : Z) :
  Forall2 kept data (cleanOpSerial data maxLen).
Proof.
  unfold cleanOpSerial. induction data as [| v data IH]; cbn [List.map].
  - constructor.
  - constructor; [apply cleanLengths_keeps | exact IH].
Qed.

(** With a block length of at least one, no cleaned sequence holds the
    same operation number twice in a row. *)
Theorem cleanOpSerial_no_adjacent_repeat (data : list (list Z)) (maxLen : Z) :
  1 <= maxLen ->
  forall c, In c (cleanOpSerial data maxLen) -> no_adjacent_repeat c.
Proof.
  intros Hmax c Hc. apply cleanOpSerial_In in Hc as (v & _ & ->).
  destruct (Z.to_nat maxLen) as [| n] eqn:E; [lia |].
  apply cleanLengths_no_adjacent_repeat.
Qed.

(** Every operation sequence [GetOpSerial] returns is free of immediate
    repetitions. *)
Theorem GetOpSerial_no_adjacent_repeat (fuel : nat) (t : Value) (r : list (list Z)) :
  GetOpSerial fuel t = Some (Ok r) ->
  forall c, In c r -> no_adjacent_repeat c.
Proof.
  intros H c Hc. apply GetOpSerial_cleaned_once in H as [raw ->].
  apply cleanOpSerial_In in Hc as (v & _ & ->).
  apply (cleanLengths_no_adjacent_repeat 4).
Qed.

End CompressionFacts.

Lemma cleanOpSerial_no_adjacent_repeat_witness :
  1 <= 2
  /\ In [7; 8] (ast.cleanOpSerial [[7; 7; 8; 7; 8]] 2)
  /\ no_adjacent_repeat [7; 8].
Proof.
  assert (Hin : In [7; 8] (ast.cleanOpSerial [[7; 7; 8; 7; 8]] 2))
    by (vm_compute; left; reflexivity).
  split; [lia |]. split; [exact Hin |].
  exact (cleanOpSerial_no_adjacent_repeat [[7; 7; 8; 7; 8]] 2 ltac:(lia) [7; 8] Hin).
Defined.

Lemma GetOpSerial_no_adjacent_repeat_witness :
  ast.GetOpSerial 100 sample_tree = Some (Ok [[132; 515]; [515; 128; 256]])
  /\ In [132; 515] [[132; 515]; [515; 128; 256]]
  /\ no_adjacent_repeat [132; 515].
Proof.
  assert (Hrun : ast.GetOpSerial 100 sample_tree = Some (Ok [[132; 515]; [515; 128; 256]]))
    by (vm_compute; reflexivity).
  assert (Hin : In [132; 515] [[132; 515]; [515; 128; 256]])
    by (left; reflexivity).
  split; [exact Hrun |]. split; [exact Hin |].
  exact (GetOpSerial_no_adjacent_repeat 100 sample_tree _ Hrun [132; 515] Hin).
Defined.


(** * Reports

    What the three reporters compute from a list of scan results, up
    to the point where the text is written out. *)

Module reporting.

Import engine.

(** [SimpleResult], an entry of the JSON report; the field [Type] is
    [Type_] here. *)
Record SimpleResult : Type := mkSimpleResult {
  Filename : string;
  Type_ : string;
  Risk : Z;
  RiskText : string;
  Desc : string
}.

(** [strings.TrimPrefix(s, ".")]. *)
Definition TrimPrefix_dot (s : string) : string :=
  match s with
  | String "."%char rest => rest
  | _ => s
  end.

(** The [switch res.OverallRisk] of the JSON reporter:
    [(riskText, desc, riskScore)]. *)
Definition riskEntry (risk : RiskLevel) : string * string * Z :=
  match risk with
  | RiskNone => ("正常", "未发现问题", 0)
  | RiskLow => ("疑似木马", "检测到可疑特征", 1)
  | RiskMedium => ("疑似木马", "检测到可疑特征", 3)
  | RiskHigh => ("疑似木马", "检测到可疑特征", 4)
  | RiskCritical => ("木马文件", "检测为高危木马", 5)
  | RiskUnknown => ("未知", "检测过程异常", 0)
  end.

Section Reporters.

(** [filepath.Ext], [filepath.Base] and [strings.ToLower] come from
    Go's library. *)
Variable filepath_Ext : string -> string.
Variable filepath_Base : string -> string.
Variable strings_ToLower : string -> string.

(** One turn of the loop of [JsonReporter.Generate] over
    [simplified]. *)
Definition JsonReporter_step (simplified : list SimpleResult) (res : ScanResult)
  : list SimpleResult :=
  match Error res with
  | Some _ => simplified
  | None =>
      let fileType := TrimPrefix_dot (strings_ToLower (filepath_Ext (Path (File res)))) in
      let '(riskText, desc, riskScore) := riskEntry (OverallRisk res) in
      (simplified
         ++ [{| Filename := filepath_Base (Path (File res)); Type_ := fileType;
                Risk := riskScore; RiskText := riskText; Desc := desc |}])%list
  end.

(** [JsonReporter.Generate]: the entries handed to the encoder under
    the key [results]. *)
Definition JsonReporter_Generate (results : list ScanResult) : list SimpleResult :=
  fold_left JsonReporter_step results [].

(** The counters of [ConsoleReporter.Generate]; [riskCounts] is keyed
    by the integer value of the risk level, and a missing key reads as
    zero. *)
Record ConsoleCounts : Type := mkConsoleCounts {
  riskCounts : gmap Z Z;
  totalFiles : Z;
  errorFiles : Z
}.

Definition countOf (m : gmap Z Z) (level : RiskLevel) : Z :=
  default 0 (m !! RiskLevel_code level).

Definition increment (m : gmap Z Z) (level : RiskLevel) : gmap Z Z :=
  <[RiskLevel_code level := countOf m level + 1]> m.

Definition ConsoleReporter_step (c : ConsoleCounts) (res : ScanResult) : ConsoleCounts :=
  match Error res with
  | Some _ =>
      {| riskCounts := increment (riskCounts c) RiskUnknown;
         totalFiles := totalFiles c + 1; errorFiles := errorFiles c + 1 |}
  | None =>
      {| riskCounts := increment (riskCounts c) (OverallRisk res);
         totalFiles := totalFiles c + 1; errorFiles := errorFiles c |}
  end.

(** The counting loop of [ConsoleReporter.Generate] over the results
    in the order it walks them. *)
Definition ConsoleReporter_count (results : list ScanResult) : ConsoleCounts :=
  fold_left ConsoleReporter_step results
    {| riskCounts := ∅; totalFiles := 0; errorFiles := 0 |}.

(** The levels of the summary and the lines it prints: a level with a
    positive count, with that count. *)
Definition levels : list RiskLevel :=
  [RiskCritical; RiskHigh; RiskMedium; RiskLow; RiskNone; RiskUnknown].

Definition ConsoleReporter_summary (c : ConsoleCounts) : list (RiskLevel * Z) :=
  List.filter (fun line => 0 <? snd line)
    (List.map (fun level => (level, countOf (riskCounts c) level)) levels).

(** The counters of [HtmlReporter.Generate]. *)
Record HtmlCounts : Type := mkHtmlCounts {
  normalFiles : Z;
  suspiciousFiles : Z;
  trojanFiles : Z;
  htmlErrorFiles : Z;
  problemFiles : list ScanResult;
  fileTypeStats : gmap string Z;
  riskScoreStats : gmap string Z
}.

(** [m[key]++] on a map of counters. *)
Definition bump (m : gmap string Z) (key : string) : gmap string Z :=
  <[key := default 0 (m !! key) + 1]> m.

Definition HtmlReporter_step (c : HtmlCounts) (res : ScanResult) : HtmlCounts :=
  let fileExt := strings_ToLower (filepath_Ext (Path (File res))) in
  let types :=
    match fileExt with
    | EmptyString => bump (fileTypeStats c) "unknown"
    | String _ rest => bump (fileTypeStats c) rest
    end in
  match Error res with
  | Some _ =>
      mkHtmlCounts (normalFiles c) (suspiciousFiles c) (trojanFiles c)
        (htmlErrorFiles c + 1) (problemFiles c ++ [res])%list types (riskScoreStats c)
  | None =>
      match OverallRisk res with
      | RiskNone =>
          mkHtmlCounts (normalFiles c + 1) (suspiciousFiles c) (trojanFiles c)
            (htmlErrorFiles c) (problemFiles c) types (riskScoreStats c)
      | RiskLow =>
          mkHtmlCounts (normalFiles c) (suspiciousFiles c + 1) (trojanFiles c)
            (htmlErrorFiles c) (problemFiles c ++ [res])%list types
            (bump (riskScoreStats c) "疑似木马(1级)")
      | RiskMedium =>
          mkHtmlCounts (normalFiles c) (suspiciousFiles c + 1) (trojanFiles c)
            (htmlErrorFiles c) (problemFiles c ++ [res])%list types
            (bump (riskScoreStats c) "疑似木马(3级)")
      | RiskHigh =>
          mkHtmlCounts (normalFiles c) (suspiciousFiles c) (trojanFiles c + 1)
            (htmlErrorFiles c) (problemFiles c ++ [res])%list types
            (bump (riskScoreStats c) "木马文件(4级)")
      | RiskCritical =>
          mkHtmlCounts (normalFiles c) (suspiciousFiles c) (trojanFiles c + 1)
            (htmlErrorFiles c) (problemFiles c ++ [res])%list types
            (bump (riskScoreStats c) "木马文件(5级)")
      | RiskUnknown =>
          mkHtmlCounts (normalFiles c) (suspiciousFiles c) (trojanFiles c)
            (htmlErrorFiles c + 1) (problemFiles c ++ [res])%list types (riskScoreStats c)
      end
  end.

Definition riskScoreStats0 : gmap string Z :=
  <["木马文件(5级)" := 0]> (<["木马文件(4级)" := 0]> (<["疑似木马(3级)" := 0]>
    (<["疑似木马(2级)" := 0]> (<["疑似木马(1级)" := 0]> ∅)))).

(** The counting loop of [HtmlReporter.Generate]. *)
Definition HtmlReporter_count (results : list ScanResult) : HtmlCounts :=
  fold_left HtmlReporter_step results
    (mkHtmlCounts 0 0 0 0 [] ∅ riskScoreStats0).

(** What a row of the problem table shows for one result:
    [(dataFilter, riskLevel, riskDesc)]. *)
Definition HtmlReporter_row (res : ScanResult) : string * Z * string :=
  match Error res with
  | Some _ => ("error", 0, "扫描错误")
  | None =>
      let riskLevel := RiskLevel_code (OverallRisk res) in
      match OverallRisk res with
      | RiskCritical => ("critical", riskLevel, "木马文件")
      | RiskHigh => ("critical", riskLevel, "木马文件")
      | RiskMedium => ("suspicious", riskLevel, "疑似木马")
      | RiskLow => ("suspicious", riskLevel, "疑似木马")
      | _ => ("unknown", riskLevel, "未知")
      end
  end.

End Reporters.

(** The closure [formatFileSize] of the HTML reporter: the loop
    [for n := size / unit; n >= unit; n /= unit], entered with [n],
    [div] and [exp]. *)
Equations? sizeLoop (n div : Z) (exp : nat) : Z * nat by wf (Z.to_nat n) lt :=
  sizeLoop n div exp with Z_le_dec 1024 n := {
    | left _ => sizeLoop (n / 1024) (div * 1024) (S exp)
    | right _ => (div, exp)
  }.
Proof.
  assert (n / 1024 < n) by (apply Z.div_lt; lia).
  assert (0 <= n / 1024) by (apply Z.div_pos; lia). lia.
Qed.

(** [(div, exp)] when the loop of [formatFileSize] ends, for a size of
    at least one unit. *)
Definition sizeUnit (size : Z) : Z * nat := sizeLoop (size / 1024) 1024 0.

End reporting.

(** ** cmd/server: how a report entry is displayed *)

Module server.

(** The [if res.Risk >= 4 ... else if res.Risk >= 1 ... else] of
    [scanHandler]: [(icon, risk)] for an entry of the JSON report. *)
Definition display (entry : reporting.SimpleResult) : string * string :=
  if 4 <=? reporting.Risk entry then ("danger", reporting.RiskText entry)
  else if 1 <=? reporting.Risk entry then ("warning", reporting.RiskText entry)
  else ("success", "无风险").

(** The [riskOrder] map of the final sort; a missing key reads as
    zero. *)
Definition riskOrder : gmap string Z :=
  <["未知" := 4]> (<["无风险" := 3]> (<["疑似木马" := 2]> (<["木马文件" := 1]> ∅))).

Definition orderOf (risk : string) : Z := default 0 (riskOrder !! risk).

End server.

Section JsonReportFacts.

Import engine reporting.

Variable filepath_Ext : string -> string.
Variable filepath_Base : string -> string.
Variable strings_ToLower : string -> string.

Local Abbreviation Generate := (JsonReporter_Generate filepath_Ext filepath_Base strings_ToLower).
Local Abbreviation step := (JsonReporter_step filepath_Ext filepath_Base strings_ToLower).

Definition succeeded (res : ScanResult) : bool :=
  match Error res with
  | None => true
  | Some _ => false
  end.

(** The entry of one result that was scanned without error. *)
Definition entryOf (res : ScanResult) : SimpleResult :=
  {| Filename := filepath_Base (Path (File res));
     Type_ := TrimPrefix_dot (strings_ToLower (filepath_Ext (Path (File res))));
     Risk := snd (riskEntry (OverallRisk res));
     RiskText := fst (fst (riskEntry (OverallRisk res)));
     Desc := snd (fst (riskEntry (OverallRisk res))) |}.

Lemma JsonReporter_fold (results : list ScanResult) (acc : list SimpleResult) :
  fold_left step results acc
  = (acc ++ List.map entryOf (List.filter succeeded results))%list.
Proof.
  revert acc. induction results as [| res rest IH]; intros acc; cbn [fold_left].
  - cbn. now rewrite List.app_nil_r.
  - rewrite IH. cbn [List.filter].
    assert (Hs : succeeded res = match Error res with None => true | Some _ => false end)
      by reflexivity.
    unfold JsonReporter_step. rewrite Hs.
    destruct (Error res) as [err |]; [reflexivity |].
    cbn [List.map]. unfold entryOf.
    destruct (riskEntry (OverallRisk res)) as [[t d] r]. cbn [fst snd].
    now rewrite <- List.app_assoc.
Qed.

Lemma riskEntry_values (risk : RiskLevel) :
  In (snd (riskEntry risk)) [0; 1; 3; 4; 5]
  /\ (snd (riskEntry risk) = 5 <-> risk = RiskCritical)
  /\ (fst (fst (riskEntry risk)) = "木马文件" <-> risk = RiskCritical).
Proof.
  destruct risk; cbn; repeat split; intros; try discriminate; try lia; tauto.
Qed.

(** The JSON report lists the results that were scanned without error,
    in their order, one entry each, and leaves the others out; an
    entry's risk number is 0, 1, 3, 4 or 5, never 2, and it is 5
    exactly for the entries labelled as a trojan file. *)
Theorem JsonReporter_entries (results : list ScanResult) :
  Generate results = List.map entryOf (List.filter succeeded results)
  /\ (List.length (Generate results) <= List.length results)%nat
  /\ Forall (fun entry =>
               In (Risk entry) [0; 1; 3; 4; 5]
               /\ (Risk entry = 5 <-> RiskText entry = "木马文件"))
            (Generate results).
Proof.
  unfold JsonReporter_Generate. rewrite JsonReporter_fold. cbn [List.app].
  split; [reflexivity |]. split.
  - rewrite List.length_map. apply List.filter_length_le.
  - apply List.Forall_forall. intros entry Hin.
    apply in_map_iff in Hin as (res & <- & _). cbn [Risk RiskText entryOf].
    destruct (riskEntry_values (OverallRisk res)) as (H1 & H2 & H3).
    split; [exact H1 | tauto].
Qed.

(** From findings to the report: the risk number the JSON report
    gives a file is the capped score of [CalculateScore], except that
    a score of 2 is reported as 1. *)
Theorem JsonReporter_risk_of_score
  (findings : list Finding) (featureSet : option features.FeatureSet) :
  let score := Z.min 5 (rubric_score findings (callable_flag featureSet)) in
  snd (riskEntry (scoring.CalculateScore findings featureSet))
  = if score =? 2 then 1 else score.
Proof.
  cbn zeta. rewrite CalculateScore_risk.
  pose proof (rubric_score_range findings (callable_flag featureSet)) as Hr.
  set (s := rubric_score findings (callable_flag featureSet)) in *.
  assert (s = 0 \/ s = 1 \/ s = 2 \/ s = 3 \/ s = 4 \/ s = 5 \/ s = 6 \/ s = 7 \/ s = 8)
    as Hc by lia.
  repeat (destruct Hc as [-> | Hc]; [reflexivity |]). now subst s; rewrite Hc.
Qed.

End JsonReportFacts.

Section DisplayFacts.

Import features engine reporting.

Variable Log2 : float -> float.
Variable stat_Mean : list Z -> float.
Variable stat_Variance : list Z -> float.
Variable tagNumber : string -> Z.
Variable filepath_Ext : string -> string.
Variable filepath_Base : string -> string.
Variable strings_ToLower : string -> string.

Local Abbreviation scan := (scanFile Log2 stat_Mean stat_Variance tagNumber).
Local Abbreviation Generate := (JsonReporter_Generate filepath_Ext filepath_Base strings_ToLower).

Lemma rubric_risk_known (s : Z) : rubric_risk s <> RiskUnknown.
Proof.
  unfold rubric_risk. destruct s as [| p | p]; try discriminate.
  do 3 (destruct p as [p | p |]; try discriminate).
Qed.

(** A result of [scanFile] carries risk Unknown only together with an
    error. *)
Lemma scanFile_risk_known (e : Engine) (w : World) (filePath : string)
  (res : ScanResult) (events : list Event) :
  scan e w filePath = Some (res, events) ->
  Error res = None -> OverallRisk res <> RiskUnknown.
Proof.
  unfold scanFile. intros H Herr.
  destruct (Stat w filePath) as [[size modTime] | err];
    [| injection H as <- _; discriminate].
  destruct (maxSize <? size); [injection H as <- _; discriminate |].
  destruct (size =? 0); [injection H as <- _; discriminate |].
  destruct (ReadFile w filePath) as [content | err];
    [| injection H as <- _; discriminate].
  destruct (match astManager e with
            | Some _ => (GetAST w content, [EvGetAST])
            | None => (ast.VNil, [])
            end) as [goAST astEvents].
  destruct (ExtractAllFeatures _ _ _ _ content goAST (astManager e))
    as [[featureSet errs] |]; [| discriminate].
  destruct (runAnalyzers e _ content featureSet (rangeOrder w)) as [findings analyzerEvents].
  injection H as <- _. cbn [OverallRisk].
  rewrite CalculateScore_risk. apply rubric_risk_known.
Qed.

(** What the web front end shows for a file, by its risk level. *)
Definition shown (risk : RiskLevel) : string * string :=
  match risk with
  | RiskCritical => ("danger", "木马文件")
  | RiskHigh => ("danger", "疑似木马")
  | RiskMedium | RiskLow => ("warning", "疑似木马")
  | _ => ("success", "无风险")
  end.

(** From [scanFile] to the web front end: a file that could not be
    scanned has no entry in the JSON report; any other file has one,
    which the front end shows with the danger icon exactly for the
    levels High and Critical, the warning icon for Low and Medium and
    the success icon otherwise.  The label is one of three the final
    sort knows, never the one for an unknown risk. *)
Theorem scanFile_displayed (e : Engine) (w : World) (filePath : string)
  (res : ScanResult) (events : list Event) :
  scan e w filePath = Some (res, events) ->
  match Error res with
  | Some _ => Generate [res] = []
  | None =>
      exists entry,
        Generate [res] = [entry]
        /\ RiskText entry <> "未知"
        /\ server.display entry = shown (OverallRisk res)
        /\ 1 <= server.orderOf (snd (server.display entry)) <= 3
  end.
Proof.
  intros H. pose proof (scanFile_risk_known e w filePath res events H) as Hknown.
  unfold JsonReporter_Generate. cbn [fold_left]. unfold JsonReporter_step.
  destruct (Error res) as [err |]; [reflexivity |].
  specialize (Hknown eq_refl).
  destruct (OverallRisk res); try congruence; cbn [riskEntry List.app].
  all: eexists; split; [reflexivity |].
  all: split; [cbn [RiskText]; discriminate |].
  all: split; [reflexivity |]; vm_compute; split; discriminate.
Qed.

End DisplayFacts.

Lemma scanFile_displayed_witness :
  exists res events,
    engine.scanFile (fun x => x) (fun _ => 0%float) (fun _ => 0%float) (fun _ => 0)
      pattern_engine five_bytes "a.php" = Some (res, events)
    /\ match engine.Error res with
       | Some _ =>
           reporting.JsonReporter_Generate (fun x => x) (fun x => x) (fun x => x) [res] = []
       | None =>
           exists entry,
             reporting.JsonReporter_Generate (fun x => x) (fun x => x) (fun x => x) [res]
             = [entry]
             /\ reporting.RiskText entry <> "未知"
             /\ server.display entry = shown (engine.OverallRisk res)
             /\ 1 <= server.orderOf (snd (server.display entry)) <= 3
       end.
Proof.
  destruct (engine.scanFile (fun x => x) (fun _ => 0%float) (fun _ => 0%float) (fun _ => 0)
              pattern_engine five_bytes "a.php") as [[res events] |] eqn:Hrun;
    [| vm_compute in Hrun; discriminate].
  exists res, events. split; [reflexivity |].
  exact (scanFile_displayed (fun x => x) (fun _ => 0%float) (fun _ => 0%float) (fun _ => 0)
           (fun x => x) (fun x => x) (fun x => x)
           pattern_engine five_bytes "a.php" res events Hrun).
Defined.

Section TallyFacts.

Import engine reporting.

Variable filepath_Ext : string -> string.
Variable strings_ToLower : string -> string.

(** The sum of the six counters of the console summary. *)
Definition countedFiles (m : gmap Z Z) : Z :=
  fold_right Z.add 0 (List.map (countOf m) levels).

Lemma increment_counted (m : gmap Z Z) (level : RiskLevel) :
  countedFiles (increment m level) = countedFiles m + 1.
Proof.
  unfold countedFiles, levels, increment, countOf. cbn [List.map fold_right].
  destruct level; cbn [RiskLevel_code];
    rewrite ?lookup_insert_eq, ?lookup_insert_ne by lia;
    cbn [default from_option id]; lia.
Qed.

Lemma increment_unknown (m : gmap Z Z) (level : RiskLevel) :
  countOf m RiskUnknown <= countOf (increment m level) RiskUnknown
  /\ countOf (increment m RiskUnknown) RiskUnknown = countOf m RiskUnknown + 1.
Proof.
  unfold increment, countOf.
  destruct level; cbn [RiskLevel_code];
    rewrite ?lookup_insert_eq, ?lookup_insert_ne by lia;
    cbn [default from_option id]; lia.
Qed.

Lemma increment_nonneg (m : gmap Z Z) (level level' : RiskLevel) :
  0 <= countOf m level' -> 0 <= countOf (increment m level) level'.
Proof.
  unfold increment, countOf.
  destruct level, level'; cbn [RiskLevel_code];
    rewrite ?lookup_insert_eq, ?lookup_insert_ne by lia;
    cbn [default from_option id]; lia.
Qed.

Definition console_invariant (n : Z) (c : ConsoleCounts) : Prop :=
  totalFiles c = n
  /\ countedFiles (riskCounts c) = n
  /\ 0 <= errorFiles c <= countOf (riskCounts c) RiskUnknown
  /\ forall level, 0 <= countOf (riskCounts c) level.

Lemma console_step (n : Z) (c : ConsoleCounts) (res : ScanResult) :
  console_invariant n c -> console_invariant (n + 1) (ConsoleReporter_step c res).
Proof.
  intros (Ht & Hc & He & Hn). unfold ConsoleReporter_step.
  destruct (Error res) as [err |]; unfold console_invariant;
    cbn [totalFiles riskCounts errorFiles]; rewrite increment_counted.
  - destruct (increment_unknown (riskCounts c) RiskUnknown) as [_ Hu].
    repeat split; try lia. intros level. apply increment_nonneg, Hn.
  - destruct (increment_unknown (riskCounts c) (OverallRisk res)) as [Hu _].
    repeat split; try lia. intros level. apply increment_nonneg, Hn.
Qed.

Lemma console_fold (results : list ScanResult) (n : Z) (c : ConsoleCounts) :
  console_invariant n c ->
  console_invariant (n + Z.of_nat (List.length results))
    (fold_left ConsoleReporter_step results c).
Proof.
  revert n c. induction results as [| res rest IH]; intros n c H; cbn [fold_left].
  - cbn. now rewrite Z.add_0_r.
  - replace (n + Z.of_nat (List.length (res :: rest)))
      with (n + 1 + Z.of_nat (List.length rest)) by (cbn [List.length]; lia).
    apply IH, console_step, H.
Qed.

Lemma summary_sum (m : gmap Z Z) (ls : list RiskLevel) :
  (forall level, 0 <= countOf m level) ->
  fold_right Z.add 0
    (List.map snd
       (List.filter (fun line : RiskLevel * Z => 0 <? snd line)
          (List.map (fun level => (level, countOf m level)) ls)))
  = fold_right Z.add 0 (List.map (countOf m) ls).
Proof.
  intros Hn. induction ls as [| l ls IH]; [reflexivity |].
  cbn [List.map List.filter snd fold_right].
  destruct (Z.ltb_spec 0 (countOf m l)) as [Hpos | Hzero].
  - cbn [List.map snd fold_right]. now rewrite IH.
  - rewrite IH. specialize (Hn l). lia.
Qed.

(** The console summary accounts for every result once: the six
    per-level counters add up to the total, so do the counts on the
    lines that are printed, and the files with an error are all under
    the level Unknown. *)
Theorem ConsoleReporter_counts_add_up (results : list ScanResult) :
  let c := ConsoleReporter_count results in
  totalFiles c = Z.of_nat (List.length results)
  /\ countedFiles (riskCounts c) = totalFiles c
  /\ fold_right Z.add 0 (List.map snd (ConsoleReporter_summary c)) = totalFiles c
  /\ 0 <= errorFiles c <= countOf (riskCounts c) RiskUnknown.
Proof.
  cbn zeta. unfold ConsoleReporter_count.
  set (c0 := {| riskCounts := ∅; totalFiles := 0; errorFiles := 0 |}).
  assert (H0 : console_invariant 0 c0).
  { unfold console_invariant, c0, countedFiles, countOf.
    cbn [totalFiles riskCounts errorFiles levels List.map fold_right].
    rewrite !lookup_empty. cbn [default from_option id].
    repeat split; try lia. intros level. rewrite lookup_empty. cbn. lia. }
  destruct (console_fold results 0 c0 H0) as (Ht & Hc & He & Hn).
  rewrite Z.add_0_l in Ht, Hc.
  repeat split; try lia.
  unfold ConsoleReporter_summary. rewrite summary_sum by exact Hn.
  fold (countedFiles (riskCounts (fold_left ConsoleReporter_step results c0))). lia.
Qed.

Local Abbreviation hstep := (HtmlReporter_step filepath_Ext strings_ToLower).
Local Abbreviation hcount := (HtmlReporter_count filepath_Ext strings_ToLower).

(** A counter of the risk chart; a missing key reads as zero. *)
Definition chart (c : HtmlCounts) (category : string) : Z :=
  default 0 (riskScoreStats c !! category).

(** The number of rows of the problem table with a given
    [data-filter]. *)
Definition rowsWith (filter : string) (rows : list ScanResult) : Z :=
  Z.of_nat
    (List.length
       (List.filter (fun res => String.eqb (fst (fst (HtmlReporter_row res))) filter) rows)).

Definition html_invariant (n : Z) (c : HtmlCounts) : Prop :=
  normalFiles c + suspiciousFiles c + trojanFiles c + htmlErrorFiles c = n
  /\ Z.of_nat (List.length (problemFiles c)) = n - normalFiles c
  /\ riskScoreStats c !! "疑似木马(2级)" = Some 0
  /\ chart c "疑似木马(1级)" + chart c "疑似木马(3级)" = suspiciousFiles c
  /\ chart c "木马文件(4级)" + chart c "木马文件(5级)" = trojanFiles c
  /\ rowsWith "critical" (problemFiles c) = trojanFiles c
  /\ rowsWith "suspicious" (problemFiles c) = suspiciousFiles c
  /\ rowsWith "error" (problemFiles c) + rowsWith "unknown" (problemFiles c)
     = htmlErrorFiles c.

Lemma rowsWith_snoc (filter : string) (rows : list ScanResult) (res : ScanResult) :
  rowsWith filter (rows ++ [res])
  = rowsWith filter rows
    + (if String.eqb (fst (fst (HtmlReporter_row res))) filter then 1 else 0).
Proof.
  unfold rowsWith. rewrite List.filter_app, List.length_app. cbn [List.filter].
  destruct (String.eqb _ filter); cbn [List.length]; lia.
Qed.

Lemma html_step (n : Z) (c : HtmlCounts) (res : ScanResult) :
  html_invariant n c -> html_invariant (n + 1) (hstep c res).
Proof.
  intros (H1 & H2 & H3 & H4 & H5 & H6 & H7 & H8).
  unfold HtmlReporter_step, html_invariant, chart in *.
  destruct (Error res) as [err |] eqn:Herr; [| destruct (OverallRisk res) eqn:Hrisk].
  all: cbn [normalFiles suspiciousFiles trojanFiles htmlErrorFiles problemFiles
            riskScoreStats].
  all: rewrite ?rowsWith_snoc, ?List.length_app; unfold HtmlReporter_row;
    rewrite ?Herr, ?Hrisk; cbn [fst snd String.eqb Ascii.eqb Bool.eqb List.length].
  all: unfold bump;
    rewrite ?lookup_insert_eq, ?lookup_insert_ne by discriminate;
    cbn [default from_option id].
  all: repeat split; try assumption; try lia.
Qed.

Lemma html_fold (results : list ScanResult) (n : Z) (c : HtmlCounts) :
  html_invariant n c ->
  html_invariant (n + Z.of_nat (List.length results)) (fold_left hstep results c).
Proof.
  revert n c. induction results as [| res rest IH]; intros n c H; cbn [fold_left].
  - cbn. now rewrite Z.add_0_r.
  - replace (n + Z.of_nat (List.length (res :: rest)))
      with (n + 1 + Z.of_nat (List.length rest)) by (cbn [List.length]; lia).
    apply IH, html_step, H.
Qed.

Lemma html_counted (results : list ScanResult) :
  html_invariant (Z.of_nat (List.length results)) (hcount results).
Proof.
  unfold HtmlReporter_count.
  rewrite <- (Z.add_0_l (Z.of_nat (List.length results))).
  apply html_fold. unfold html_invariant, chart. cbn.
  repeat split; reflexivity.
Qed.

Lemma rowsWith_perm (filter : string) (rows rows' : list ScanResult) :
  Permutation rows rows' -> rowsWith filter rows = rowsWith filter rows'.
Proof.
  intros Hp. unfold rowsWith. induction Hp; cbn [List.filter].
  - reflexivity.
  - destruct (String.eqb _ filter); cbn [List.length]; lia.
  - do 2 destruct (String.eqb _ filter); cbn [List.length]; lia.
  - lia.
Qed.

(** The summary of the HTML report accounts for every result once:
    normal, suspicious, trojan and error files add up to the total, the
    problem table holds all but the normal ones, the chart's counters
    for the levels 1 and 3 add up to the suspicious files and those for
    4 and 5 to the trojan files, and the counter for level 2 stays at
    zero. *)
Theorem HtmlReporter_tallies (results : list ScanResult) :
  let c := hcount results in
  normalFiles c + suspiciousFiles c + trojanFiles c + htmlErrorFiles c
  = Z.of_nat (List.length results)
  /\ Z.of_nat (List.length (problemFiles c))
     = Z.of_nat (List.length results) - normalFiles c
  /\ riskScoreStats c !! "疑似木马(2级)" = Some 0
  /\ chart c "疑似木马(1级)" + chart c "疑似木马(3级)" = suspiciousFiles c
  /\ chart c "木马文件(4级)" + chart c "木马文件(5级)" = trojanFiles c.
Proof.
  cbn zeta. destruct (html_counted results) as (H1 & H2 & H3 & H4 & H5 & _).
  repeat split; assumption.
Qed.

(** No row of the problem table shows the score 1. *)
Definition row_score_ok (res : ScanResult) : Prop :=
  snd (fst (HtmlReporter_row res)) <> 1.

Lemma html_rows_fold (results : list ScanResult) (c : HtmlCounts) :
  Forall row_score_ok (problemFiles c) ->
  Forall row_score_ok (problemFiles (fold_left hstep results c)).
Proof.
  revert c. induction results as [| res rest IH]; intros c H; cbn [fold_left];
    [exact H |].
  apply IH. unfold HtmlReporter_step.
  assert (Hres : Error res <> None \/ OverallRisk res <> RiskNone -> row_score_ok res).
  { unfold row_score_ok, HtmlReporter_row. intros Hcase.
    destruct (Error res); [cbn [fst snd]; lia |].
    destruct (OverallRisk res); cbn [fst snd RiskLevel_code]; try lia.
    destruct Hcase; congruence. }
  destruct (Error res) as [err |] eqn:Herr; [| destruct (OverallRisk res) eqn:Hrisk].
  all: cbn [problemFiles]; try exact H.
  all: apply List.Forall_app; split; [exact H |].
  all: constructor; [| constructor]; apply Hres; [left + right]; congruence.
Qed.

(** The rows of the problem table agree with the summary whatever the
    order the sort leaves them in: as many rows carry the filter
    [critical] as there are trojan files, as many [suspicious] as
    suspicious files, and the rows with [error] or [unknown] are the
    error files.  No row shows the score 1: a file of risk Low, counted
    under level 1 in the chart, has the score 2 in its row. *)
Theorem HtmlReporter_rows_match_summary
  (results : list ScanResult) (sorted : list ScanResult) :
  let c := hcount results in
  Permutation (problemFiles c) sorted ->
  rowsWith "critical" sorted = trojanFiles c
  /\ rowsWith "suspicious" sorted = suspiciousFiles c
  /\ rowsWith "error" sorted + rowsWith "unknown" sorted = htmlErrorFiles c
  /\ Forall row_score_ok sorted.
Proof.
  cbn zeta. intros Hp.
  destruct (html_counted results) as (_ & _ & _ & _ & _ & H6 & H7 & H8).
  rewrite <- !(rowsWith_perm _ _ _ Hp).
  repeat split; try assumption.
  apply List.Forall_forall. intros res Hin.
  apply Permutation_sym in Hp. apply (Permutation_in _ Hp) in Hin.
  pose proof (html_rows_fold results (mkHtmlCounts 0 0 0 0 [] ∅ riskScoreStats0)
                (List.Forall_nil _)) as Hall.
  rewrite List.Forall_forall in Hall. apply Hall, Hin.
Qed.

End TallyFacts.

(** Two results: a file of risk Low and one of risk Critical. *)
Definition two_results : list engine.ScanResult :=
  [ {| engine.File := mkFileInfo "a.php" 5 0; engine.OverallRisk := RiskLow;
       engine.Findings := []; engine.Error := None; engine.SkippedAST := false |};
    {| engine.File := mkFileInfo "b.php" 7 0; engine.OverallRisk := RiskCritical;
       engine.Findings := []; engine.Error := None; engine.SkippedAST := false |} ].

Lemma HtmlReporter_rows_match_summary_witness :
  let c := reporting.HtmlReporter_count (fun x => x) (fun x => x) two_results in
  rowsWith "critical" (rev two_results) = reporting.trojanFiles c
  /\ rowsWith "suspicious" (rev two_results) = reporting.suspiciousFiles c
  /\ rowsWith "error" (rev two_results) + rowsWith "unknown" (rev two_results)
     = reporting.htmlErrorFiles c
  /\ Forall row_score_ok (rev two_results).
Proof.
  apply (HtmlReporter_rows_match_summary (fun x => x) (fun x => x)
           two_results (rev two_results)).
  vm_compute. apply perm_swap.
Defined.

Section SizeFacts.

Import reporting.

Lemma sizeLoop_spec (size n div : Z) (exp : nat) :
  1 <= n -> 0 < div -> div * n <= size < div * (n + 1) ->
  div = 1024 ^ Z.of_nat (S exp) ->
  fst (sizeLoop n div exp) = 1024 ^ Z.of_nat (S (snd (sizeLoop n div exp)))
  /\ fst (sizeLoop n div exp) <= size < 1024 * fst (sizeLoop n div exp).
Proof.
  funelim (sizeLoop n div exp); intros Hn Hdiv Hsize Hpow.
  - apply H.
    + assert (1024 * 1 <= n) by lia.
      apply Z.div_le_lower_bound; lia.
    + lia.
    + pose proof (Z.div_mod n 1024 ltac:(lia)) as Hdm.
      pose proof (Z.mod_pos_bound n 1024 ltac:(lia)) as Hmod. nia.
    + rewrite Hpow. rewrite !Nat2Z.inj_succ, (Z.pow_succ_r 1024 (Z.succ (Z.of_nat exp))) by lia.
      lia.
  - cbn [fst snd]. split; [exact Hpow |]. nia.
Qed.

(** [formatFileSize] picks its unit without running off the table: for
    a size of at least one unit that fits [int64], the loop stops with
    [div] the power [1024^(exp+1)], the size at least [div] and below
    [1024 * div], and [exp] at most 5, an index into the six letters
    of [KMGTPE]. *)
Theorem formatFileSize_unit (size : Z) :
  1024 <= size < 2 ^ 63 ->
  fst (sizeUnit size) = 1024 ^ Z.of_nat (S (snd (sizeUnit size)))
  /\ fst (sizeUnit size) <= size < 1024 * fst (sizeUnit size)
  /\ (snd (sizeUnit size) <= 5)%nat.
Proof.
  intros Hsize. unfold sizeUnit.
  assert (H : fst (sizeLoop (size / 1024) 1024 0)
              = 1024 ^ Z.of_nat (S (snd (sizeLoop (size / 1024) 1024 0)))
              /\ fst (sizeLoop (size / 1024) 1024 0) <= size
                 < 1024 * fst (sizeLoop (size / 1024) 1024 0)).
  { apply sizeLoop_spec.
    - apply Z.div_le_lower_bound; lia.
    - lia.
    - pose proof (Z.div_mod size 1024 ltac:(lia)) as Hdm.
      pose proof (Z.mod_pos_bound size 1024 ltac:(lia)) as Hmod. lia.
    - reflexivity. }
  destruct H as [Hpow Hrange]. split; [exact Hpow |]. split; [exact Hrange |].
  destruct (Nat.le_gt_cases (snd (sizeLoop (size / 1024) 1024 0)) 5) as [Hle | Hgt];
    [exact Hle | exfalso].
  assert (1024 ^ 7 <= 1024 ^ Z.of_nat (S (snd (sizeLoop (size / 1024) 1024 0))))
    by (apply Z.pow_le_mono_r; lia).
  assert (1024 ^ 7 = 2 ^ 70) by reflexivity.
  assert (2 ^ 63 < 2 ^ 70) by reflexivity.
  lia.
Qed.

End SizeFacts.

Lemma formatFileSize_unit_witness :
  1024 <= 5000000 < 2 ^ 63
  /\ fst (reporting.sizeUnit 5000000)
     = 1024 ^ Z.of_nat (S (snd (reporting.sizeUnit 5000000)))
  /\ fst (reporting.sizeUnit 5000000) <= 5000000
     < 1024 * fst (reporting.sizeUnit 5000000)
  /\ (snd (reporting.sizeUnit 5000000) <= 5)%nat.
Proof.
  assert (H : 1024 <= 5000000 < 2 ^ 63) by (split; [lia | reflexivity]).
  split; [exact H |]. exact (formatFileSize_unit 5000000 H).
Defined.


(** ** internal/engine: choosing the reporter *)

Section ReportSelection.

(** [strings.ToLower] and [filepath.Ext]. *)
Variable strings_ToLower : string -> string.
Variable filepath_Ext : string -> string.

Inductive Reporter : Type :=
| ConsoleReporter
| HtmlReporter
| JsonReporter.

(** The first part of [generateReport]: the reporter, the
    [outputPath] it is called with and the [outputFormat] that is
    logged, from the configured format and the task's report path; an
    error when no report is generated. *)
Definition selectReporter (configFormat ReportPath : string)
  : result (Reporter * string * string) :=
  let outputFormat := strings_ToLower configFormat in
  if negb (String.eqb ReportPath "") then
    let outputPath := ReportPath in
    let outputExt := strings_ToLower (filepath_Ext outputPath) in
    if String.eqb outputExt ".html" then Ok (HtmlReporter, outputPath, "html")
    else if String.eqb outputExt ".json" then Ok (JsonReporter, outputPath, "json")
    else if String.eqb outputExt ".console" || String.eqb outputExt ".txt"
            || String.eqb outputExt "" then Ok (ConsoleReporter, "", "console")
    else if String.eqb outputFormat "html"
    then Err "cannot generate HTML report without a valid output path"
    else Ok (ConsoleReporter, "", outputFormat)
  else if String.eqb outputFormat "html" then Ok (HtmlReporter, "scan_report.html", outputFormat)
  else if String.eqb outputFormat "json" then Ok (JsonReporter, "", outputFormat)
  else Ok (ConsoleReporter, "", outputFormat).

(** Where a reporter writes when called with [outputPath]: the
    console reporter prints, the HTML reporter refuses an empty path,
    the JSON reporter falls back to its fixed file. *)
Definition destination (reporter : Reporter) (outputPath : string)
  : result (option string) :=
  match reporter with
  | ConsoleReporter => Ok None
  | HtmlReporter =>
      if String.eqb outputPath "" then Err "HTML reporter requires an output path"
      else Ok (Some outputPath)
  | JsonReporter =>
      if String.eqb outputPath "" then Ok (Some "data/webshellJson.json")
      else Ok (Some outputPath)
  end.

(** Whatever the configuration and the task, [generateReport] calls
    the console reporter without a path and the HTML reporter with
    one, so the HTML reporter never refuses; a report file is written
    to the task's path when that path is given and the reporter writes
    files; and the only case without a report is a path of unsupported
    extension together with the configured format [html]. *)
Theorem generateReport_selection (configFormat ReportPath : string) :
  match selectReporter configFormat ReportPath with
  | Ok (reporter, outputPath, outputFormat) =>
      (reporter = ConsoleReporter -> outputPath = "")
      /\ (reporter = HtmlReporter -> outputPath <> "" /\ outputFormat = "html")
      /\ (reporter = JsonReporter -> outputFormat = "json")
      /\ (reporter <> ConsoleReporter -> ReportPath <> "" -> outputPath = ReportPath)
      /\ exists file, destination reporter outputPath = Ok file
  | Err _ =>
      ReportPath <> ""
      /\ strings_ToLower configFormat = "html"
      /\ ~ In (strings_ToLower (filepath_Ext ReportPath))
             [".html"; ".json"; ".console"; ".txt"; ""]
  end.
Proof.
  unfold selectReporter.
  destruct (String.eqb_spec ReportPath "") as [-> | Hpath]; cbn [negb].
  - destruct (String.eqb_spec (strings_ToLower configFormat) "html") as [Hf | Hf];
      [| destruct (String.eqb_spec (strings_ToLower configFormat) "json") as [Hj | Hj]].
    all: repeat split; try congruence; try discriminate; cbn; eauto.
  - destruct (String.eqb_spec (strings_ToLower (filepath_Ext ReportPath)) ".html")
      as [He | He].
    { repeat split; try congruence; try discriminate.
      cbn [destination]. destruct (String.eqb_spec ReportPath ""); [contradiction | eauto]. }
    destruct (String.eqb_spec (strings_ToLower (filepath_Ext ReportPath)) ".json")
      as [Hj | Hj].
    { repeat split; try congruence; try discriminate.
      cbn [destination]. destruct (String.eqb ReportPath ""); eauto. }
    destruct (String.eqb_spec (strings_ToLower (filepath_Ext ReportPath)) ".console")
      as [Hc | Hc]; cbn [orb].
    { repeat split; try congruence; try discriminate. cbn; eauto. }
    destruct (String.eqb_spec (strings_ToLower (filepath_Ext ReportPath)) ".txt")
      as [Ht | Ht]; cbn [orb].
    { repeat split; try congruence; try discriminate. cbn; eauto. }
    destruct (String.eqb_spec (strings_ToLower (filepath_Ext ReportPath)) "")
      as [Hn | Hn].
    { repeat split; try congruence; try discriminate. cbn; eauto. }
    destruct (String.eqb_spec (strings_ToLower configFormat) "html") as [Hf | Hf].
    + repeat split; try assumption. cbn [In]. intros Hin.
      repeat (destruct Hin as [Hin | Hin]; [congruence |]). exact Hin.
    + repeat split; try congruence; try discriminate. cbn; eauto.
Qed.

End ReportSelection.


(** ** From the SVM analyzer to the score *)


Section SvmVerdict.

Import features ml.
Local Open Scope float_scope.

Context {Model : Type}.
Variable PredictValues : Model -> gmap Z float -> list float.
Context {Bayes : Type}.
Variable BayesAnalyze : Bayes -> string -> FeatureSet -> option Finding * option string.
Variable Exp : float -> float.
Variable describe : float -> float -> string.

Local Abbreviation SvmAnalyze := (Analyze PredictValues BayesAnalyze Exp describe).

(** A binary64 value that is at least 0.95 is above 0.91; NaN is
    neither. *)
Lemma above_095_above_091 (x : float) : (0.95 <=? x) = true -> (0.91 <? x) = true.
Proof.
  rewrite FloatAxioms.leb_spec, FloatAxioms.ltb_spec.
  replace (Prim2SF 0.95) with (S754_finite false 8556839292003942 (-53))
    by (vm_compute; reflexivity).
  replace (Prim2SF 0.91) with (S754_finite false 8196551321814303 (-53))
    by (vm_compute; reflexivity).
  unfold SFleb, SFltb, SFcompare.
  destruct (Prim2SF x) as [s | s | | s m e]; try discriminate.
  - destruct s; [discriminate | reflexivity].
  - destruct s; [discriminate |].
    destruct (Z.compare (-53) e); try discriminate; try reflexivity.
    change (PosDef.Pos.compare_cont Eq 8556839292003942 m)
      with (Pos.compare 8556839292003942 m).
    change (PosDef.Pos.compare_cont Eq 8196551321814303 m)
      with (Pos.compare 8196551321814303 m).
    destruct (Pos.compare_spec 8556839292003942 m) as [Heq | Hlt | Hgt];
      try discriminate; intros _.
    + subst m. reflexivity.
    + assert (Hm : (8196551321814303 < m)%positive) by lia.
      apply Pos.compare_lt_iff in Hm. now rewrite Hm.
Qed.

(** The SVM analyzer reports only from an initialized analyzer with a
    model, on a feature set with statistical features, and only a
    calibrated score of at least 0.95; such a finding always passes
    the scorer's test of a confidence above 0.91, so on a file with
    the callable flag set every list of findings that holds it scores
    at least 2. *)
Theorem SvmAnalyze_finding_scored
  (s : @SvmProssesAnalyzer Model Bayes) (fileInfo : FileInfo) (content : string)
  (featureSet : option FeatureSet) (f : Finding) :
  fst (SvmAnalyze s fileInfo content featureSet) = Some f ->
  AnalyzerName f = "svm_prosses"%string
  /\ Risk f = RiskHigh
  /\ (0.95 <=? Confidence f) = true
  /\ isInitialized s = true
  /\ model s <> None
  /\ (exists fs sf, featureSet = Some fs /\ Statistical fs = Some sf)
  /\ scoring.highConfidencePrediction (scoring.noteFinding scoring.noMatches f) = true
  /\ forall findings fs',
       In f findings -> Callable fs' = true ->
       (2 <= scoring.totalScore findings (Some fs'))%Z.
Proof.
  unfold Analyze. intros H.
  destruct (isInitialized s); [| discriminate]. cbn [negb orb] in H.
  destruct (model s) as [m |] eqn:Hm; [| discriminate].
  destruct featureSet as [fs |]; [| discriminate].
  destruct (Statistical fs) as [sf |] eqn:Hsf; [| discriminate].
  destruct (predict PredictValues Exp s _) as [score rawScore].
  destruct (0.95 <=? score) eqn:Hscore; [| discriminate].
  cbn [fst] in H. injection H as <-. cbn [AnalyzerName Risk Confidence].
  pose proof (above_095_above_091 score Hscore) as Habove.
  repeat split; try congruence; eauto.
  - unfold scoring.noteFinding. cbn [AnalyzerName Confidence].
    cbn [String.eqb Ascii.eqb Bool.eqb]. now rewrite Habove.
  - intros findings fs' Hin Hcall. rewrite totalScore_rubric.
    cbn [callable_flag]. rewrite Hcall.
    assert (Hsvm : svm_above_091 findings = true).
    { unfold svm_above_091. apply existsb_exists. eexists. split; [exact Hin |].
      cbn [AnalyzerName Confidence]. now rewrite Habove. }
    unfold rubric_score. rewrite Hsvm. cbn [andb].
    destruct (present "regex" findings), (present "yara" findings),
      (present "statistical" findings); cbn; lia.
Qed.

End SvmVerdict.

(** An initialized analyzer whose model returns the decision value 1
    for every vector, with the zero calibration and an exponential
    that is constantly 0, on a file with the callable flag set. *)
Definition constant_svm : @ml.SvmProssesAnalyzer unit unit :=
  ml.mkSvm "" [] (Some tt) None true [] ml.zeroCalibration false false.

Definition callable_file : features.FeatureSet :=
  features.mkFeatureSet
    (Some (features.mkStat 0 0 0 0 0 0 0 0)) None None true ast.VNil.

Definition svm_finding : Finding :=
  {| AnalyzerName := "svm_prosses"; Description := "svm"; Risk := RiskHigh;
     Confidence := 1%float |}.

Lemma SvmAnalyze_finding_scored_witness :
  fst (ml.Analyze (fun _ _ => [1%float]) (fun _ _ _ => (None, None)) (fun _ => 0%float)
         (fun _ _ => "svm"%string) constant_svm (mkFileInfo "a.php" 5 0) "<?php"
         (Some callable_file)) = Some svm_finding
  /\ (0.95 <=? Confidence svm_finding)%float = true
  /\ 2 <= scoring.totalScore [svm_finding] (Some callable_file).
Proof.
  assert (Hrun : fst (ml.Analyze (fun _ _ => [1%float]) (fun _ _ _ => (None, None))
                        (fun _ => 0%float) (fun _ _ => "svm"%string) constant_svm
                        (mkFileInfo "a.php" 5 0) "<?php" (Some callable_file))
                 = Some svm_finding) by (vm_compute; reflexivity).
  destruct (SvmAnalyze_finding_scored _ _ _ _ _ _ _ _ _ Hrun)
    as (_ & _ & Hconf & _ & _ & _ & _ & Hscore).
  split; [exact Hrun |]. split; [exact Hconf |].
  apply (Hscore [svm_finding] callable_file); [left | ]; reflexivity.
Defined.


(** * The analyzers behind the engine

    The pattern analyzers and the Bayes analyzer, and the five
    analyzers as values of the engine's [Analyzer] interface. *)

Module detectors.

Import features engine.
Local Open Scope float_scope.

Section Detectors.

(** Outside this repository: a compiled expression with
    [Regexp.Match] and [Regexp.String]; compiled YARA rules with
    [yara.NewScanner] (its error, if any) and [ScanMem] (the names of
    the matching rules, or an error); the Bayes classifier with
    [Classify] (the log scores by class and the predicted class);
    [math.Max], [math.Exp] and the texts [fmt.Sprintf] renders. *)
Context {Regexp : Type}.
Variable Match : Regexp -> string -> bool.
Variable Regexp_String : Regexp -> string.
Context {Rules : Type}.
Variable NewScanner : Rules -> option string.
Variable ScanMem : Rules -> string -> result (list string).
Context {Classifier : Type}.
Variable Classify : Classifier -> list string -> gmap string float * string.
Variable Max : float -> float -> float.
Variable Exp : float -> float.
Variable describeBayes : string -> float -> string.

(** The package variable [highRiskRegexList]. *)
Variable highRiskRegexList : list Regexp.

(** [RegexAnalyzer.Analyze]; the analyzer's name is the ["regex"] its
    constructor sets. *)
Definition RegexAnalyzer_Analyze (fileInfo : FileInfo) (content : string)
  (featureSet : option FeatureSet) : option Finding * option string :=
  if (List.length highRiskRegexList =? 0)%nat then (None, None)
  else
    match List.find (fun re => Match re content) highRiskRegexList with
    | Some re =>
        (Some {| AnalyzerName := "regex";
                 Description := "Matched high-risk regex pattern: " ++ Regexp_String re;
                 Risk := RiskCritical; Confidence := 0.9 |}, None)
    | None => (None, None)
    end.

(** [YaraAnalyzer]; the name is the ["yara"] its constructor sets, and
    [rules] is [None] for nil rules. *)
Record YaraAnalyzer : Type := mkYaraAnalyzer {
  rules : option Rules
}.

Definition YaraAnalyzer_Analyze (a : YaraAnalyzer) (fileInfo : FileInfo)
  (content : string) (featureSet : option FeatureSet) : option Finding * option string :=
  match rules a with
  | None => (None, None)
  | Some r =>
      match NewScanner r with
      | Some err => (None, Some ("yara scanner creation failed: " ++ err)%string)
      | None =>
          match ScanMem r content with
          | Err err => (None, Some ("yara scan execution failed: " ++ err)%string)
          | Ok [] => (None, None)
          | Ok (rule :: _) =>
              (Some {| AnalyzerName := "yara";
                       Description := "Matched YARA rule: " ++ rule;
                       Risk := RiskCritical; Confidence := 1.0 |}, None)
          end
      end
  end.

(** [BayesWordsAnalyzer]; the name is the ["bayes_words"] its
    constructor sets. *)
Record BayesWordsAnalyzer : Type := mkBayesWordsAnalyzer {
  classifier : Classifier;
  isInitialized : bool
}.

Definition BayesWordsAnalyzer_Analyze (a : BayesWordsAnalyzer) (fileInfo : FileInfo)
  (content : string) (featureSet : option FeatureSet) : option Finding * option string :=
  if negb (isInitialized a) then (None, None)
  else
    match featureSet with
    | None => (None, Some "missing ast_words feature set"%string)
    | Some fs =>
        match ASTWords fs with
        | None => (None, Some "missing ast_words feature set"%string)
        | Some [] => (None, None)
        | Some words =>
            let '(allLogScores, predictedClass) := Classify (classifier a) words in
            match allLogScores !! "webshell"%string, allLogScores !! "normal"%string with
            | Some logProbWebshell, Some logProbNormal =>
                let maxLogProb := Max logProbWebshell logProbNormal in
                let probWebshell := Exp (logProbWebshell - maxLogProb) in
                let probNormal := Exp (logProbNormal - maxLogProb) in
                let totalProb := probWebshell + probNormal in
                if 1e-9 <? totalProb then
                  let confidence := probWebshell / totalProb in
                  (Some {| AnalyzerName := "bayes_words";
                           Description := describeBayes predictedClass confidence;
                           Risk := RiskMedium; Confidence := confidence |}, None)
                else (None, None)
            | _, _ => (None, None)
            end
        end
    end.

(** What the SVM and statistical analyzers need from outside. *)
Context {Model : Type}.
Variable PredictValues : Model -> gmap Z float -> list float.
Context {Bayes : Type}.
Variable BayesAnalyze : Bayes -> string -> FeatureSet -> option Finding * option string.
Variable describeSvm : float -> float -> string.
Variable describeStat : StatisticalFeatures -> string.

(** The five analyzers as the engine sees them: [scanFile] passes a
    feature set that is never nil. *)
Definition regexAnalyzer : Analyzer :=
  {| Name := "regex"; RequiredFeatures := [];
     Analyze := fun fileInfo content fs => RegexAnalyzer_Analyze fileInfo content (Some fs) |}.

Definition yaraAnalyzer (a : YaraAnalyzer) : Analyzer :=
  {| Name := "yara"; RequiredFeatures := [];
     Analyze := fun fileInfo content fs => YaraAnalyzer_Analyze a fileInfo content (Some fs) |}.

Definition statisticalAnalyzer (a : static.StatisticalAnalyzer) : Analyzer :=
  {| Name := static.Name a; RequiredFeatures := static.RequiredFeatures a;
     Analyze := fun fileInfo content fs =>
       static.Analyze describeStat a fileInfo content (Some fs) |}.

Definition bayesWordsAnalyzer (a : BayesWordsAnalyzer) : Analyzer :=
  {| Name := "bayes_words"; RequiredFeatures := ["ast_words"%string];
     Analyze := fun fileInfo content fs =>
       BayesWordsAnalyzer_Analyze a fileInfo content (Some fs) |}.

Definition svmProssesAnalyzer (s : @ml.SvmProssesAnalyzer Model Bayes) : Analyzer :=
  {| Name := "svm_prosses"; RequiredFeatures := ["statistical"; "ast_words"]%string;
     Analyze := fun fileInfo content fs =>
       ml.Analyze PredictValues BayesAnalyze Exp describeSvm s fileInfo content (Some fs) |}.

End Detectors.

End detectors.

(** ** The verdict of the engine with its five analyzers *)

Section ProductionFacts.

Import features engine detectors.
Local Open Scope float_scope.

Context {Regexp : Type}.
Variable Match : Regexp -> string -> bool.
Variable Regexp_String : Regexp -> string.
Context {Rules : Type}.
Variable NewScanner : Rules -> option string.
Variable ScanMem : Rules -> string -> result (list string).
Context {Classifier : Type}.
Variable Classify : Classifier -> list string -> gmap string float * string.
Variable Max : float -> float -> float.
Variable Exp : float -> float.
Variable describeBayes : string -> float -> string.
Variable highRiskRegexList : list Regexp.
Context {Model : Type}.
Variable PredictValues : Model -> gmap Z float -> list float.
Context {Bayes : Type}.
Variable BayesAnalyze : Bayes -> string -> FeatureSet -> option Finding * option string.
Variable describeSvm : float -> float -> string.
Variable describeStat : StatisticalFeatures -> string.

(** The analyzers the constructors have built. *)
Variable yara : @YaraAnalyzer Rules.
Variable statistical : static.StatisticalAnalyzer.
Variable bayes : @BayesWordsAnalyzer Classifier.
Variable svm : @ml.SvmProssesAnalyzer Model Bayes.

Local Abbreviation regexA := (regexAnalyzer Match Regexp_String highRiskRegexList).
Local Abbreviation yaraA := (yaraAnalyzer NewScanner ScanMem yara).
Local Abbreviation statA := (statisticalAnalyzer describeStat statistical).
Local Abbreviation bayesA := (bayesWordsAnalyzer Classify Max Exp describeBayes bayes).
Local Abbreviation svmA := (svmProssesAnalyzer Exp PredictValues BayesAnalyze describeSvm svm).

(** The analyzer [NewEngine] constructs for a name. *)
Definition realOf (name : string) : option Analyzer :=
  if String.eqb name "regex" then Some regexA
  else if String.eqb name "yara" then Some yaraA
  else if String.eqb name "statistical" then Some statA
  else if String.eqb name "bayes_words" then Some bayesA
  else if String.eqb name "svm_prosses" then Some svmA
  else None.

Definition registered (e : Engine) (name : string) : bool :=
  match analyzers e !! name with
  | Some _ => true
  | None => false
  end.

(** What the content and the features show, analyzer by analyzer. *)
Definition regexSignal (content : string) : bool :=
  existsb (fun re => Match re content) highRiskRegexList.

Definition yaraSignal (content : string) : bool :=
  match rules yara with
  | Some r =>
      match NewScanner r, ScanMem r content with
      | None, Ok (_ :: _) => true
      | _, _ => false
      end
  | None => false
  end.

Definition statSignal (fs : FeatureSet) : bool :=
  match Statistical fs with
  | Some sf => static.IsStatisticalAbnormal (Some sf) (static.thresholds statistical)
  | None => false
  end.

Definition svmSignal (file : FileInfo) (content : string) (fs : FeatureSet) : bool :=
  match Statistical fs, ASTWords fs with
  | Some sf, Some _ =>
      ml.isInitialized svm
      && match ml.model svm with Some _ => true | None => false end
      && (0.95 <=? fst (ml.predict PredictValues Exp svm
                          (ml.extractFeatures BayesAnalyze svm (Path file) content fs sf)))
  | _, _ => false
  end.

Variable e : Engine.
Variable file : FileInfo.
Variable content : string.
Variable fs : FeatureSet.
Variable order : list string.

Hypothesis built : forall name a, analyzers e !! name = Some a -> realOf name = Some a.
Hypothesis walked : forall name, registered e name = true -> In name order.

Local Abbreviation contrib := (contribution e file content fs).

Lemma existsb_flat_map {A B : Type} (P : B -> bool) (g : A -> list B) (l : list A) :
  existsb P (flat_map g l) = existsb (fun x => existsb P (g x)) l.
Proof.
  induction l as [| x l IH]; [reflexivity |].
  cbn [flat_map existsb]. now rewrite existsb_app, IH.
Qed.

Lemma SvmAnalyze_some (featureSet : FeatureSet) (f : Finding) :
  fst (ml.Analyze PredictValues BayesAnalyze Exp describeSvm svm file content
         (Some featureSet)) = Some f ->
  AnalyzerName f = "svm_prosses"%string /\ (0.91 <? Confidence f) = true.
Proof.
  unfold ml.Analyze. intros H.
  destruct (negb (ml.isInitialized svm) || _); [discriminate |].
  destruct (Statistical featureSet) as [sf |]; [| discriminate].
  destruct (ml.predict PredictValues Exp svm _) as [score rawScore].
  destruct (0.95 <=? score) eqn:Hscore; [| discriminate].
  cbn [fst] in H. injection H as <-. cbn [AnalyzerName Confidence].
  split; [reflexivity | apply above_095_above_091, Hscore].
Qed.

(** Each of the five reports under the name it is registered with. *)
Lemma contribution_named (name : string) (f : Finding) :
  In f (contrib name) -> AnalyzerName f = name /\ registered e name = true.
Proof.
  unfold contribution, registered. intros Hin.
  destruct (analyzers e !! name) as [a |] eqn:Hl; [| contradiction].
  split; [| reflexivity].
  apply built in Hl. unfold realOf in Hl.
  destruct (canRunAnalyzer a fs); [| contradiction].
  destruct (fst (Analyze a file content fs)) as [g |] eqn:Hg; [| contradiction].
  destruct Hin as [<- | []].
  destruct (String.eqb_spec name "regex") as [-> | _].
  { injection Hl as <-. cbn [Analyze regexAnalyzer] in Hg.
    unfold RegexAnalyzer_Analyze in Hg.
    destruct (_ =? 0)%nat; [discriminate |].
    destruct (find _ highRiskRegexList); [| discriminate].
    cbn [fst] in Hg. now injection Hg as <-. }
  destruct (String.eqb_spec name "yara") as [-> | _].
  { injection Hl as <-. cbn [Analyze yaraAnalyzer] in Hg.
    unfold YaraAnalyzer_Analyze in Hg.
    destruct (rules yara) as [r |]; [| discriminate].
    destruct (NewScanner r); [discriminate |].
    destruct (ScanMem r content) as [[| rule rest] | err]; try discriminate.
    cbn [fst] in Hg. now injection Hg as <-. }
  destruct (String.eqb_spec name "statistical") as [-> | _].
  { injection Hl as <-. cbn [Analyze statisticalAnalyzer] in Hg.
    unfold static.Analyze in Hg.
    destruct (Statistical fs) as [sf |];
      [| destruct (len content =? 0)%Z; discriminate].
    destruct (_ && _); [| discriminate].
    cbn [fst] in Hg. now injection Hg as <-. }
  destruct (String.eqb_spec name "bayes_words") as [-> | _].
  { injection Hl as <-. cbn [Analyze bayesWordsAnalyzer] in Hg.
    unfold BayesWordsAnalyzer_Analyze in Hg.
    destruct (negb (isInitialized bayes)); [discriminate |].
    destruct (ASTWords fs) as [[| word words] |]; try discriminate.
    destruct (Classify (classifier bayes) (word :: words)) as [scores cls].
    destruct (scores !! "webshell"%string); [| discriminate].
    destruct (scores !! "normal"%string); [| discriminate].
    destruct (1e-9 <? _); [| discriminate].
    cbn [fst] in Hg. now injection Hg as <-. }
  destruct (String.eqb_spec name "svm_prosses") as [-> | _]; [| discriminate].
  injection Hl as <-. cbn [Analyze svmProssesAnalyzer] in Hg.
  apply SvmAnalyze_some in Hg. tauto.
Qed.

(** A test that only findings named [n] pass is decided by what the
    analyzer registered as [n] contributes. *)
Lemma fired_only_here (P : Finding -> bool) (n : string) :
  (forall f, P f = true -> AnalyzerName f = n) ->
  existsb P (flat_map contrib order) = existsb P (contrib n).
Proof.
  intros HP. rewrite existsb_flat_map.
  destruct (existsb P (contrib n)) eqn:Hn.
  - apply existsb_exists in Hn as Hn'. destruct Hn' as (f & Hin & _).
    apply contribution_named in Hin as [_ Hreg].
    apply existsb_exists. exists n. split; [apply walked, Hreg | exact Hn].
  - apply not_true_is_false. intros H.
    apply existsb_exists in H as (x & _ & Hx).
    apply existsb_exists in Hx as Hx'. destruct Hx' as (f & Hin & Hf).
    apply contribution_named in Hin as [Hname _]. apply HP in Hf.
    assert (x = n) by congruence. subst x. congruence.
Qed.

Lemma present_here (n : string) :
  present n (flat_map contrib order) = present n (contrib n).
Proof.
  unfold present. apply fired_only_here. intros f Hf. now apply String.eqb_eq.
Qed.

Lemma regex_fires : present "regex" (contrib "regex") = registered e "regex" && regexSignal content.
Proof.
  unfold contribution, registered, regexSignal, present.
  destruct (analyzers e !! "regex"%string) as [a |] eqn:Hl; [| reflexivity].
  apply built in Hl. cbn in Hl. injection Hl as <-.
  cbn [canRunAnalyzer RequiredFeatures regexAnalyzer forallb Analyze andb].
  unfold RegexAnalyzer_Analyze.
  destruct (find (fun re => Match re content) highRiskRegexList) as [re |] eqn:Hfind.
  - apply find_some in Hfind as Hsome.
    assert (Hex : existsb (fun re => Match re content) highRiskRegexList = true)
      by (apply existsb_exists; eauto).
    rewrite Hex. destruct highRiskRegexList; [discriminate | reflexivity].
  - assert (Hex : existsb (fun re => Match re content) highRiskRegexList = false).
    { apply not_true_is_false. intros H. apply existsb_exists in H as (re & Hin & Hre).
      now rewrite (find_none _ _ Hfind re Hin) in Hre. }
    rewrite Hex. now destruct (_ =? 0)%nat.
Qed.

Lemma yara_fires : present "yara" (contrib "yara") = registered e "yara" && yaraSignal content.
Proof.
  unfold contribution, registered, yaraSignal, present.
  destruct (analyzers e !! "yara"%string) as [a |] eqn:Hl; [| reflexivity].
  apply built in Hl. cbn in Hl. injection Hl as <-.
  cbn [canRunAnalyzer RequiredFeatures yaraAnalyzer forallb Analyze andb].
  unfold YaraAnalyzer_Analyze.
  destruct (rules yara) as [r |]; [| reflexivity].
  destruct (NewScanner r); [reflexivity |].
  destruct (ScanMem r content) as [[| rule rest] | err]; reflexivity.
Qed.

Lemma statistical_fires :
  present "statistical" (contrib "statistical")
  = registered e "statistical" && statSignal fs && Callable fs.
Proof.
  unfold contribution, registered, statSignal, present.
  destruct (analyzers e !! "statistical"%string) as [a |] eqn:Hl; [| reflexivity].
  apply built in Hl. cbn in Hl. injection Hl as <-.
  unfold canRunAnalyzer, keyPresent.
  cbn [RequiredFeatures statisticalAnalyzer static.RequiredFeatures forallb Analyze andb].
  unfold static.Analyze.
  destruct (Statistical fs) as [sf |]; [| reflexivity].
  cbn [ToLower lower_ascii nat_of_ascii String.eqb Ascii.eqb Bool.eqb andb orb].
  destruct (static.IsStatisticalAbnormal _ _), (Callable fs); reflexivity.
Qed.

Lemma svm_fires :
  svm_above_091 (contrib "svm_prosses") = registered e "svm_prosses" && svmSignal file content fs.
Proof.
  unfold contribution, registered, svmSignal, svm_above_091.
  destruct (analyzers e !! "svm_prosses"%string) as [a |] eqn:Hl; [| reflexivity].
  apply built in Hl. cbn in Hl. injection Hl as <-.
  unfold canRunAnalyzer.
  cbn [RequiredFeatures svmProssesAnalyzer forallb Analyze andb].
  assert (Hk1 : keyPresent fs "statistical"
                = Some match Statistical fs with Some _ => true | None => false end)
    by reflexivity.
  assert (Hk2 : keyPresent fs "ast_words"
                = Some match ASTWords fs with Some _ => true | None => false end)
    by reflexivity.
  rewrite Hk1, Hk2.
  destruct (Statistical fs) as [sf |] eqn:Hsf;
    [| now destruct (ASTWords fs)].
  destruct (ASTWords fs) as [words |] eqn:Hw; [| reflexivity].
  cbn [andb]. unfold ml.Analyze. rewrite Hsf.
  destruct (ml.isInitialized svm); [| reflexivity].
  destruct (ml.model svm); [| reflexivity]. cbn [negb orb andb].
  destruct (ml.predict PredictValues Exp svm _) as [score rawScore]. cbn [fst].
  destruct (0.95 <=? score) eqn:Hscore; [| reflexivity].
  cbn [fst existsb AnalyzerName Confidence String.eqb Ascii.eqb Bool.eqb andb orb].
  now rewrite (above_095_above_091 score Hscore).
Qed.

(** The verdict on a file, end to end.  For an engine that holds the
    analyzers its constructor builds and walks all of them, the
    overall risk is the table's level for the capped sum of: 1 when
    the regex analyzer is registered and some rule matches the
    content; 1 when the YARA analyzer is registered, has rules and a
    scan of the content yields a match; 2 more when both hold; and,
    only on a file whose tree has a callable node, 2 when the
    statistical analyzer is registered and the features are abnormal,
    and 2 when the SVM analyzer is registered and initialized, the
    statistical features and the tree's words are present and the
    calibrated score is at least 0.95.  The Bayes analyzer's own
    finding plays no part. *)
Theorem engine_verdict :
  let findings := fst (runAnalyzers e file content fs order) in
  let R := registered e "regex" && regexSignal content in
  let Y := registered e "yara" && yaraSignal content in
  let S := registered e "statistical" && statSignal fs in
  let V := registered e "svm_prosses" && svmSignal file content fs in
  scoring.CalculateScore findings (Some fs)
  = rubric_risk
      (Z.min 5
         ((if R then 1 else 0) + (if Y then 1 else 0) + (if R && Y then 2 else 0)
          + (if Callable fs && V then 2 else 0)
          + (if Callable fs && S then 2 else 0))%Z).
Proof.
  cbn zeta. rewrite runAnalyzers_findings, CalculateScore_risk.
  unfold rubric_score. cbn [callable_flag].
  rewrite !present_here, regex_fires, yara_fires, statistical_fires.
  replace (svm_above_091 (flat_map contrib order))
    with (registered e "svm_prosses" && svmSignal file content fs).
  - destruct (registered e "regex" && regexSignal content),
      (registered e "yara" && yaraSignal content),
      (registered e "statistical" && statSignal fs),
      (registered e "svm_prosses" && svmSignal file content fs), (Callable fs);
      reflexivity.
  - rewrite <- svm_fires. symmetry. unfold svm_above_091.
    apply fired_only_here. intros f Hf.
    apply andb_true_iff in Hf as [Hf _]. now apply String.eqb_eq.
Qed.

End ProductionFacts.

(** An engine that holds only the regex analyzer, with one rule that
    matches a content equal to its text. *)
Definition literal_regex : engine.Analyzer :=
  detectors.regexAnalyzer String.eqb (fun re => re) ["<?php"%string].

Definition regex_engine : engine.Engine :=
  {| engine.analyzers := <["regex"%string := literal_regex]> ∅;
     engine.astManager := None |}.

Lemma engine_verdict_witness :
  scoring.CalculateScore
    (fst (engine.runAnalyzers regex_engine (mkFileInfo "a.php" 5 0) "<?php"
            callable_file ["regex"%string]))
    (Some callable_file)
  = RiskLow.
Proof.
  rewrite (engine_verdict String.eqb (fun re => re)
             (fun _ : unit => None) (fun _ _ => Ok ["r"%string])
             (fun (_ : unit) _ => (∅, ""%string)) (fun a _ => a) (fun _ => 0%float)
             (fun _ _ => ""%string) ["<?php"%string]
             (fun (_ : unit) _ => [1%float]) (fun (_ : unit) _ _ => (None, None))
             (fun _ _ => "svm"%string) (fun _ => "statistical"%string)
             (detectors.mkYaraAnalyzer (Some tt)) static.NewStatisticalAnalyzer
             (detectors.mkBayesWordsAnalyzer tt false) constant_svm
             regex_engine (mkFileInfo "a.php" 5 0) "<?php" callable_file ["regex"%string]).
  - vm_compute. reflexivity.
  - intros name a H. unfold regex_engine in H. cbn [engine.analyzers] in H.
    destruct (decide (name = "regex"%string)) as [-> | Hne].
    + rewrite lookup_insert_eq in H. injection H as <-. reflexivity.
    + rewrite lookup_insert_ne, lookup_empty in H by congruence. discriminate.
  - intros name H. unfold registered, regex_engine in H. cbn [engine.analyzers] in H.
    destruct (decide (name = "regex"%string)) as [-> | Hne]; [now left |].
    rewrite lookup_insert_ne, lookup_empty in H by congruence. discriminate.
Defined.


(** * The shape of the statistical inputs *)

Section FeatureShape.

Import features utf8.

Definition sum_of (l : list Z) : Z := fold_right Z.add 0 l.

Definition number_of (p : Z -> bool) (l : list Z) : Z :=
  Z.of_nat (List.length (List.filter p l)).

Definition line_break (b : Z) : bool := b =? 10.

Lemma number_of_cons (p : Z -> bool) (x : Z) (l : list Z) :
  number_of p (x :: l) = (if p x then 1 else 0) + number_of p l.
Proof.
  unfold number_of. cbn [List.filter]. destruct (p x); cbn [List.length]; lia.
Qed.

Lemma number_of_range (p : Z -> bool) (l : list Z) :
  0 <= number_of p l <= Z.of_nat (List.length l).
Proof.
  unfold number_of. pose proof (List.filter_length_le p l). lia.
Qed.

Lemma lineLengths_shape (p : list Z) (cur : Z) :
  0 <= cur ->
  Z.of_nat (List.length (lineLengths cur p)) = 1 + number_of line_break p
  /\ Forall (fun n => 0 <= n) (lineLengths cur p)
  /\ sum_of (lineLengths cur p) + number_of line_break p = cur + Z.of_nat (List.length p).
Proof.
  revert cur. induction p as [| b t IH]; intros cur Hcur.
  - unfold number_of. cbn [lineLengths List.filter List.length sum_of fold_right].
    repeat split; try lia. constructor; [exact Hcur | constructor].
  - cbn [lineLengths]. rewrite number_of_cons.
    change (line_break b) with (b =? 10).
    destruct (b =? 10).
    + destruct (IH 0 ltac:(lia)) as (H1 & H2 & H3).
      cbn [List.length sum_of fold_right]. fold (sum_of (lineLengths 0 t)).
      repeat split; try lia. constructor; assumption.
    + destruct (IH (cur + 1) ltac:(lia)) as (H1 & H2 & H3).
      cbn [List.length]. repeat split; try assumption; lia.
Qed.

Lemma fold_max_spec (t : list Z) (x : Z) :
  In (fold_left Z.max t x) (x :: t)
  /\ Forall (fun n => n <= fold_left Z.max t x) (x :: t).
Proof.
  revert x. induction t as [| y t IH]; intros x.
  - cbn. split; [now left |]. constructor; [lia | constructor].
  - cbn [fold_left]. destruct (IH (Z.max x y)) as [Hin Hall].
    inversion Hall as [| ? ? Hhead Htail]; subst. split.
    + destruct Hin as [Heq | Hin]; [| right; right; exact Hin].
      destruct (Z.max_spec x y) as [[_ Hm] | [_ Hm]]; rewrite Hm in *.
      * right. left. exact Heq.
      * left. exact Heq.
    + constructor; [lia |]. constructor; [lia | exact Htail].
Qed.

Lemma sum_of_bound (l : list Z) (m : Z) :
  Forall (fun n => 0 <= n) l -> In m l -> m <= sum_of l.
Proof.
  induction 1 as [| x l Hx Hall IH]; intros Hin; [contradiction |].
  cbn [sum_of fold_right]. fold (sum_of l).
  assert (0 <= sum_of l).
  { clear -Hall. induction Hall; cbn [sum_of fold_right]; [lia |]. fold (sum_of l). lia. }
  destruct Hin as [-> | Hin]; [lia |]. specialize (IH Hin). lia.
Qed.

(** The lines of a content account for all of its bytes: there is one
    line more than there are line_break bytes, so always at least one;
    the line lengths and the newlines add up to the length of the
    content; and [lineMax] is the length of a longest line, between 0
    and the length of the content. *)
Theorem statLines_accounts (src : string) :
  let lines := statLines src in
  Z.of_nat (List.length lines) = 1 + number_of line_break (bytes src)
  /\ Forall (fun n => 0 <= n) lines
  /\ sum_of lines + number_of line_break (bytes src) = len src
  /\ In (lineMax src) lines
  /\ Forall (fun n => n <= lineMax src) lines
  /\ 0 <= lineMax src <= len src.
Proof.
  cbn zeta. unfold statLines, lineMax, statLines.
  destruct (lineLengths_shape (bytes src) 0 ltac:(lia)) as (H1 & H2 & H3).
  rewrite bytes_length in H3.
  pose proof (number_of_range line_break (bytes src)) as Hc.
  destruct (lineLengths 0 (bytes src)) as [| x t] eqn:Hl; [cbn in H1; lia |].
  unfold stat_Max. destruct (fold_max_spec t x) as [Hin Hall].
  repeat split; try assumption; try lia.
  - rewrite List.Forall_forall in H2. apply H2, Hin.
  - pose proof (sum_of_bound _ _ H2 Hin). lia.
Qed.

Lemma wordRuns_acc (rs : list Z) (l : Z) (acc : list Z) :
  wordRuns l acc rs = (acc ++ wordRuns l [] rs)%list.
Proof.
  revert l acc. induction rs as [| c t IH]; intros l acc; cbn [wordRuns List.app].
  - destruct (l =? 0); [now rewrite List.app_nil_r | reflexivity].
  - destruct (alnum c); [apply IH |].
    destruct (l =? 0); [apply IH |].
    rewrite (IH 0 (acc ++ [l])%list), (IH 0 [l]). cbn [List.app].
    now rewrite <- List.app_assoc.
Qed.

Lemma wordRuns_shape (rs : list Z) (l : Z) :
  0 <= l ->
  Forall (fun n => 1 <= n) (wordRuns l [] rs)
  /\ sum_of (wordRuns l [] rs) = l + number_of alnum rs.
Proof.
  revert l. induction rs as [| c t IH]; intros l Hl; cbn [wordRuns List.app].
  - unfold number_of. cbn [List.filter List.length].
    destruct (Z.eqb_spec l 0) as [-> | Hne].
    + split; [constructor | reflexivity].
    + split; [constructor; [lia | constructor] | cbn; lia].
  - rewrite number_of_cons. destruct (alnum c).
    + destruct (IH (l + 1) ltac:(lia)) as [H1 H2]. split; [exact H1 | lia].
    + destruct (Z.eqb_spec l 0) as [-> | Hne].
      * destruct (IH 0 ltac:(lia)) as [H1 H2]. split; [exact H1 | lia].
      * rewrite wordRuns_acc. cbn [List.app].
        destruct (IH 0 ltac:(lia)) as [H1 H2]. split.
        -- constructor; [lia | exact H1].
        -- cbn [sum_of fold_right]. fold (sum_of (wordRuns 0 [] t)). lia.
Qed.

Lemma number_of_split (p : Z -> bool) (l : list Z) :
  number_of p l + number_of (fun c => negb (p c)) l = Z.of_nat (List.length l).
Proof.
  induction l as [| x l IH]; [reflexivity |].
  rewrite !number_of_cons. cbn [List.length]. destruct (p x); cbn [negb]; lia.
Qed.

(** The words of a content account for its alphanumeric code points:
    every word has at least one, the word lengths add up to their
    number, and together with the symbols that [symbolRatio] counts
    they make up all the code points, of which there are no more than
    bytes.  So the symbol number_of never exceeds the length it is divided
    by, and [wordMax] lies between 0 and that length. *)
Theorem statWords_accounts (src : string) :
  let words := statWords src in
  Forall (fun n => 1 <= n) words
  /\ sum_of words = number_of alnum (runes src)
  /\ sum_of words + symbolNumber src = Z.of_nat (List.length (runes src))
  /\ Z.of_nat (List.length (runes src)) <= len src
  /\ 0 <= symbolNumber src <= len src
  /\ 0 <= wordMax src <= len src.
Proof.
  cbn zeta. unfold statWords, wordMax, statWords.
  destruct (wordRuns_shape (runes src) 0 ltac:(lia)) as [H1 H2].
  rewrite Z.add_0_l in H2.
  pose proof (number_of_split alnum (runes src)) as Hsplit.
  fold (number_of (fun c => negb (alnum c)) (runes src)) in Hsplit.
  assert (Hsym : symbolNumber src = number_of (fun c => negb (alnum c)) (runes src))
    by reflexivity.
  assert (Hlen : Z.of_nat (List.length (runes src)) <= len src).
  { rewrite <- bytes_length. unfold runes.
    pose proof (runes_from_length (bytes src) 0). lia. }
  pose proof (number_of_range alnum (runes src)) as Hc1.
  pose proof (number_of_range (fun c => negb (alnum c)) (runes src)) as Hc2.
  repeat split; try assumption; try lia.
  - unfold stat_Max. destruct (wordRuns 0 [] (runes src)) as [| x t]; [lia |].
    destruct (fold_max_spec t x) as [Hin _].
    rewrite List.Forall_forall in H1. specialize (H1 _ Hin). lia.
  - unfold stat_Max. destruct (wordRuns 0 [] (runes src)) as [| x t] eqn:Hw; [lia |].
    destruct (fold_max_spec t x) as [Hin _].
    assert (Hpos : Forall (fun n => 0 <= n) (x :: t)).
    { apply List.Forall_forall. intros n Hn.
      rewrite List.Forall_forall in H1. specialize (H1 _ Hn). lia. }
    pose proof (sum_of_bound _ _ Hpos Hin). lia.
Qed.

End FeatureShape.


(** * The syntax tree: what the traversals compute *)

Section TreeFacts.

Import ast.

Lemma map_get_In (key : string) (entries : list (string * Value)) (v : Value) :
  map_get key entries = Some v -> In (key, v) entries.
Proof.
  induction entries as [| [k x] rest IH]; [discriminate |]. cbn [map_get].
  destruct (String.eqb_spec k key) as [-> | _].
  - intros [= ->]. now left.
  - intros H. right. apply IH, H.
Qed.

(** A well-formed tree is a fixed point of [transformAstNode]. *)
Lemma transformAstNode_fixed (t : Value) :
  well_formed t = true -> transformAstNode t = t.
Proof.
  induction t as [| f | s | b | items IH | entries IH | k f l c IH] using Value_induction;
    intros Hwf; try reflexivity.
  - cbn [transformAstNode well_formed] in *. f_equal.
    rewrite forallb_forall in Hwf. rewrite List.Forall_forall in IH.
    rewrite <- (List.map_id items) at 2. apply List.map_ext_in. auto.
  - cbn [transformAstNode well_formed] in *.
    apply andb_true_iff in Hwf as [Hk Hwf]. apply negb_true_iff in Hk.
    unfold isAstNodeMap in Hk.
    destruct (map_get "kind" entries); [discriminate |]. f_equal.
    rewrite forallb_forall in Hwf. rewrite List.Forall_forall in IH.
    rewrite <- (List.map_id entries) at 2. apply List.map_ext_in.
    intros [key v] Hin. cbn [fst snd]. f_equal.
    apply (IH (key, v) Hin), (Hwf (key, v) Hin).
Qed.

Lemma numeric_kinds_entry (entries : list (string * Value)) (key : string) (v : Value) :
  numeric_kinds (VMap entries) = true -> map_get key entries = Some v ->
  numeric_kinds v = true.
Proof.
  cbn [numeric_kinds]. intros H Hget. apply andb_true_iff in H as [_ H].
  rewrite forallb_forall in H. apply (H (key, v)), map_get_In, Hget.
Qed.

(** What [ParseAST] returns for JSON whose [kind] values are numbers
    is final: no mapping with a [kind] key is left in it, and
    transforming it again, as both traversals do with the mappings
    they meet, gives the same tree. *)
Theorem ParseAST_stable (rawData t : Value) :
  numeric_kinds rawData = true ->
  ParseAST rawData = Ok t ->
  well_formed t = true /\ transformAstNode t = t.
Proof.
  intros Hnum Hparse.
  assert (Hwf : well_formed t = true).
  { unfold ParseAST in Hparse.
    destruct rawData as [| f | s | b | items | rootMap | k f l c];
      try discriminate;
      try (injection Hparse as <-; exact (transformAstNode_well_formed _ Hnum)).
    destruct (map_get "ast" rootMap) as [astValue |] eqn:Hast.
    - injection Hparse as <-. apply transformAstNode_well_formed.
      eapply numeric_kinds_entry; eauto.
    - destruct (map_get "reason" rootMap) as [[] |]; discriminate. }
  split; [exact Hwf | apply transformAstNode_fixed, Hwf].
Qed.

(** The name a node carries: the string under [name] in its children
    mapping. *)
Definition own_name (children : Value) : list string :=
  match children with
  | VMap nameMap =>
      match map_get "name" nameMap with
      | Some (VString nameStr) => [nameStr]
      | _ => []
      end
  | _ => []
  end.

(** The names of a tree in the order of the traversal: a node's own
    name, then those below it; items in order; entries by ascending
    key. *)
Fixpoint names (v : Value) : list string :=
  match v with
  | VNode _ _ _ children => (own_name children ++ names children)%list
  | VArray items => List.concat (List.map names items)
  | VMap entries =>
      List.concat
        (List.map snd (sort_by_key (List.map (fun kv => (fst kv, names (snd kv))) entries)))
  | _ => []
  end.

Lemma insert_by_key_map {A B : Type} (f : A -> B) (e : string * A) (l : list (string * A)) :
  insert_by_key (fst e, f (snd e)) (List.map (fun kv => (fst kv, f (snd kv))) l)
  = List.map (fun kv => (fst kv, f (snd kv))) (insert_by_key e l).
Proof.
  induction l as [| e' rest IH]; [reflexivity |]. cbn [List.map insert_by_key fst].
  destruct (String.leb (fst e) (fst e')); [reflexivity |].
  cbn [List.map]. now rewrite IH.
Qed.

Lemma sort_by_key_map {A B : Type} (f : A -> B) (l : list (string * A)) :
  sort_by_key (List.map (fun kv => (fst kv, f (snd kv))) l)
  = List.map (fun kv => (fst kv, f (snd kv))) (sort_by_key l).
Proof.
  induction l as [| e rest IH]; [reflexivity |]. cbn [List.map sort_by_key].
  rewrite IH. apply insert_by_key_map.
Qed.

(** With [fuel] nested calls the traversal of [x] returns from every
    state with the names of [x] appended and the flag raised if [x]
    has a callable node. *)
Definition collects (fuel : nat) (x : Value) : Prop :=
  forall st,
    checkNameAndKind wordsChecker callableChecker fuel x st
    = Some ((fst st ++ names x)%list, snd st || has_callable x).

Lemma fold_each_collects (fuel : nat) (items : list Value) :
  Forall (collects fuel) items ->
  forall st,
    fold_left
      (fun acc item =>
         match acc with
         | Some s => checkNameAndKind wordsChecker callableChecker fuel item s
         | None => None
         end)
      items (Some st)
    = Some ((fst st ++ List.concat (List.map names items))%list,
            snd st || existsb has_callable items).
Proof.
  induction 1 as [| x rest Hx _ IH]; intros st; cbn [fold_left existsb List.map List.concat].
  - rewrite orb_false_r, List.app_nil_r. now destruct st.
  - rewrite (Hx st), IH. cbn [fst snd].
    now rewrite orb_assoc, List.app_assoc.
Qed.

Lemma checkNameAndKind_collects (v : Value) :
  well_formed v = true ->
  forall fuel, (depth v <= fuel)%nat -> collects fuel v.
Proof.
  induction v as [| f | s | b | items IH | entries IH | k f l c IH] using Value_induction;
    intros Hwf fuel Hfuel st;
    (destruct fuel as [| fuel]; [cbn [depth] in Hfuel; lia |]).
  1-4: cbn; rewrite orb_false_r, List.app_nil_r; now destruct st.
  - cbn [depth] in Hfuel. cbn [well_formed] in Hwf. cbn [has_callable names].
    apply le_S_n in Hfuel. rewrite forallb_forall in Hwf.
    rewrite List.Forall_forall in IH.
    assert (Forall (collects fuel) items) as Hall.
    { apply List.Forall_forall. intros x Hin. apply IH; auto.
      eapply Nat.le_trans; [| exact Hfuel].
      apply le_list_max, in_map, Hin. }
    exact (fold_each_collects fuel items Hall st).
  - cbn [depth] in Hfuel. cbn [well_formed] in Hwf. cbn [has_callable names].
    apply le_S_n in Hfuel. apply andb_true_iff in Hwf as [Hk Hwf].
    apply negb_true_iff in Hk. rewrite forallb_forall in Hwf.
    rewrite List.Forall_forall in IH.
    cbn [checkNameAndKind]. rewrite Hk.
    assert (Forall (collects fuel) (List.map snd (sort_by_key entries))) as Hall.
    { apply List.Forall_forall. intros x Hin.
      apply in_map_iff in Hin as (kv & <- & Hin).
      apply (Permutation_in _ (sort_by_key_perm entries)) in Hin.
      apply IH; auto.
      eapply Nat.le_trans; [| exact Hfuel].
      apply le_list_max. apply (in_map (fun kv => depth (snd kv))). exact Hin. }
    rewrite (fold_each_collects fuel _ Hall st). do 2 f_equal.
    + rewrite sort_by_key_map, !List.map_map. reflexivity.
    + f_equal. rewrite existsb_map_snd. apply existsb_perm, sort_by_key_perm.
  - cbn [depth] in Hfuel. cbn [well_formed] in Hwf. cbn [has_callable names].
    apply le_S_n in Hfuel.
    cbn [checkNameAndKind callableChecker].
    match goal with
    | |- context [checkNameAndKind _ _ fuel c ?st2] =>
        assert (st2 = ((fst st ++ own_name c)%list, snd st || callable_kind k)) as ->
    end.
    { destruct st as [ws cl]. unfold own_name, wordsChecker.
      destruct (callable_kind k), c; cbn [fst snd];
        rewrite ?orb_true_r, ?orb_false_r, ?List.app_nil_r; try reflexivity;
        repeat (match goal with
                | |- context [match ?x with _ => _ end] => destruct x
                end; cbn [fst snd];
                rewrite ?orb_true_r, ?orb_false_r, ?List.app_nil_r; try reflexivity). }
    rewrite (IH Hwf fuel Hfuel). cbn [fst snd].
    now rewrite orb_assoc, List.app_assoc.
Qed.

(** [GetWordsAndCallable] as a function of the tree.  On a tree as the
    parser delivers it, with call depth to spare, it returns without
    error the names the nodes carry, in traversal order (nil when
    there is none), and the flag that says whether a node of a
    callable kind occurs. *)
Theorem GetWordsAndCallable_spec (t : Value) (fuel : nat) :
  well_formed t = true ->
  (depth t <= fuel)%nat ->
  t <> VNil ->
  GetWordsAndCallable fuel t
  = Some (match names t with [] => None | _ => Some (names t) end, has_callable t, None).
Proof.
  intros Hwf Hfuel Hnil. unfold GetWordsAndCallable.
  rewrite (checkNameAndKind_collects t Hwf fuel Hfuel ([], false)).
  cbn [fst snd List.app orb]. now destruct t.
Qed.

End TreeFacts.

(** The JSON the bridge sends for an empty statement list. *)
Definition sample_json : ast.Value :=
  ast.VMap [("ast", ast.VMap [("kind", ast.VFloat 132); ("children", ast.VArray [])])].

Lemma ParseAST_stable_witness :
  ast.ParseAST sample_json = Ok (ast.VNode 132 0 0 (ast.VArray []))
  /\ well_formed (ast.VNode 132 0 0 (ast.VArray [])) = true
  /\ ast.transformAstNode (ast.VNode 132 0 0 (ast.VArray []))
     = ast.VNode 132 0 0 (ast.VArray []).
Proof.
  assert (Hparse : ast.ParseAST sample_json = Ok (ast.VNode 132 0 0 (ast.VArray [])))
    by (vm_compute; reflexivity).
  split; [exact Hparse |].
  exact (ParseAST_stable sample_json _ eq_refl Hparse).
Defined.

Lemma GetWordsAndCallable_spec_witness :
  ast.GetWordsAndCallable 10 sample_tree
  = Some (match names sample_tree with [] => None | _ => Some (names sample_tree) end,
          has_callable sample_tree, None)
  /\ names sample_tree = ["f"%string].
Proof.
  split; [| reflexivity].
  apply (GetWordsAndCallable_spec sample_tree 10).
  - reflexivity.
  - vm_compute. lia.
  - discriminate.
Defined.

Section OpSerialKinds.

Import ast.

Variable t : Value.

(** Everything the loop holds stems from the tree [t]: the queued
    values are well-formed parts of it, the father kinds and the
    numbers collected so far are kinds of its nodes, and no finished
    sequence is empty. *)
Definition part_of (v : Value) : Prop :=
  well_formed v = true /\ forall k, contains_kind v k -> contains_kind t k.

Definition node_ok (node : opQueueNode) : Prop :=
  part_of (QValue node)
  /\ match Father node with
     | Some k => contains_kind t k
     | None => True
     end.

Definition serial_ok (c : list Z) : Prop := Forall (contains_kind t) c.

Definition finished_ok (c : list Z) : Prop := c <> [] /\ serial_ok c.

Lemma part_of_leaf (v : Value) :
  match v with VArray _ | VMap _ | VNode _ _ _ _ => False | _ => True end ->
  part_of v.
Proof.
  intros H. split; [now destruct v |]. intros k Hk. destruct v; inversion Hk; contradiction.
Qed.

Lemma bfsStep_ok (node : opQueueNode) (result : list (list Z)) (cs : list Z) :
  node_ok node -> Forall finished_ok result -> serial_ok cs ->
  let '(result', cs', more) := bfsStep node result cs in
  Forall finished_ok result' /\ serial_ok cs' /\ Forall node_ok more.
Proof.
  intros [[Hwf Hpart] Hfather] Hres Hcs. unfold bfsStep.
  destruct (QValue node) as [| f | s | b | items | entries | k f l c] eqn:Hv.
  - destruct (String.eqb (Key node) "separator" && (0 <? List.length cs)%nat) eqn:Hsep.
    + apply andb_true_iff in Hsep as [_ Hlen]. apply Nat.ltb_lt in Hlen.
      split; [| split; constructor].
      apply Forall_app. split; [exact Hres |]. constructor; [| constructor].
      destruct (Father node) as [fk |].
      * split; [discriminate | constructor; assumption].
      * split; [destruct cs; [cbn in Hlen; lia | discriminate] | exact Hcs].
    + repeat split; try assumption; constructor.
  - repeat split; try assumption; constructor.
  - repeat split; try assumption; constructor.
  - repeat split; try assumption; constructor.
  - split; [exact Hres |]. split; [exact Hcs |].
    cbn [well_formed] in Hwf. rewrite forallb_forall in Hwf.
    apply Forall_app. split.
    + apply List.Forall_forall. intros q Hq.
      apply in_map_iff in Hq as ([i x] & <- & Hin). apply in_combine_r in Hin.
      split; [| exact Hfather]. cbn [QValue snd]. split; [apply Hwf, Hin |].
      intros k Hk. apply Hpart. eapply ck_item; eauto.
    + destruct (_ && _); [| constructor]. constructor; [| constructor].
      split; [apply part_of_leaf; exact I | exact Hfather].
  - cbn [well_formed] in Hwf. apply andb_true_iff in Hwf as [Hkind Hwf].
    apply negb_true_iff in Hkind. rewrite Hkind. rewrite forallb_forall in Hwf.
    split; [exact Hres |]. split; [exact Hcs |].
    apply Forall_app. split.
    + apply List.Forall_forall. intros q Hq.
      apply in_map_iff in Hq as (kv & <- & Hin).
      apply (Permutation_in _ (sort_by_key_perm entries)) in Hin.
      split; [| exact Hfather]. cbn [QValue]. split; [apply Hwf, Hin |].
      intros k Hk. apply Hpart. eapply ck_entry; eauto.
    + destruct (_ && _); [| constructor]. constructor; [| constructor].
      split; [apply part_of_leaf; exact I | exact Hfather].
  - assert (Hk : contains_kind t k) by (apply Hpart; constructor).
    split; [exact Hres |]. split.
    + apply Forall_app. split; [exact Hcs | constructor; [exact Hk | constructor]].
    + cbn [well_formed] in Hwf.
      assert (Hchild : node_ok (mkQ "children" c (Layer node + 1) (Some k))).
      { split; [| exact Hk]. cbn [QValue]. split; [exact Hwf |].
        intros k' Hk'. apply Hpart. now constructor. }
      destruct c; try (constructor; [exact Hchild | constructor]). constructor.
Qed.

Lemma bfsLoop_ok (fuel : nat) (queue : list opQueueNode)
  (result : list (list Z)) (cs : list Z) (result' : list (list Z)) (cs' : list Z) :
  Forall node_ok queue -> Forall finished_ok result -> serial_ok cs ->
  bfsLoop fuel queue result cs = Some (result', cs') ->
  Forall finished_ok result' /\ serial_ok cs'.
Proof.
  revert queue result cs.
  induction fuel as [| fuel IH]; intros queue result cs Hq Hres Hcs Hrun;
    destruct queue as [| node rest]; cbn [bfsLoop] in Hrun; try discriminate.
  - injection Hrun as <- <-. split; assumption.
  - injection Hrun as <- <-. split; assumption.
  - inversion Hq as [| ? ? Hnode Hrest]; subst.
    pose proof (bfsStep_ok node result cs Hnode Hres Hcs) as Hstep.
    destruct (bfsStep node result cs) as [[r1 c1] more].
    destruct Hstep as (H1 & H2 & H3).
    apply (IH (rest ++ more)%list r1 c1); try assumption.
    apply Forall_app. split; assumption.
Qed.

(** What [GetOpSerial] returns for a tree as the parser delivers it:
    no sequence is empty, and every number in a sequence is the kind
    of a node of the tree. *)
Theorem GetOpSerial_sequences (fuel : nat) (r : list (list Z)) :
  well_formed t = true ->
  GetOpSerial fuel t = Some (Ok r) ->
  forall c, In c r -> c <> [] /\ forall k, In k c -> contains_kind t k.
Proof.
  intros Hwf Hrun c Hc. unfold GetOpSerial in Hrun.
  assert (Hroot : Forall node_ok [mkQ "root" t 0 None]).
  { constructor; [| constructor]. split; [| exact I]. split; [exact Hwf | auto]. }
  destruct (bfsLoop fuel [mkQ "root" t 0 None] [] []) as [[result cs] |] eqn:Hloop;
    [| destruct t; discriminate].
  destruct (bfsLoop_ok fuel _ [] [] result cs Hroot (List.Forall_nil _) (List.Forall_nil _) Hloop)
    as [Hres Hcs].
  assert (Hraw : Forall finished_ok
                   (if (0 <? List.length cs)%nat then (result ++ [cs])%list else result)).
  { destruct (Nat.ltb_spec 0 (List.length cs)) as [Hlen | _]; [| exact Hres].
    apply Forall_app. split; [exact Hres |]. constructor; [| constructor].
    split; [destruct cs; [cbn in Hlen; lia | discriminate] | exact Hcs]. }
  assert (Hr : r = cleanOpSerial
                     (if (0 <? List.length cs)%nat then (result ++ [cs])%list else result)
                     maxCleanLength).
  { destruct t; try discriminate; injection Hrun as <-;
      unfold cleanStage; now rewrite cleanLoop_stops. }
  subst r. apply cleanOpSerial_In in Hc as (v & Hv & ->).
  rewrite List.Forall_forall in Hraw. destruct (Hraw v Hv) as [Hne Hkinds].
  destruct (cleanLengths_keeps (Z.to_nat maxCleanLength) v) as (Hin & _ & Hhd).
  split.
  - intros Hnil. rewrite Hnil in Hhd. destruct v; [contradiction | discriminate].
  - intros k Hk. apply Hin in Hk. unfold serial_ok in Hkinds.
    rewrite List.Forall_forall in Hkinds. apply Hkinds, Hk.
Qed.

End OpSerialKinds.

Lemma GetOpSerial_sequences_witness :
  ast.GetOpSerial 100 sample_tree = Some (Ok [[132; 515]; [515; 128; 256]])
  /\ [515; 128; 256] <> []
  /\ forall k, In k [515; 128; 256] -> contains_kind sample_tree k.
Proof.
  assert (Hrun : ast.GetOpSerial 100 sample_tree = Some (Ok [[132; 515]; [515; 128; 256]]))
    by (vm_compute; reflexivity).
  split; [exact Hrun |].
  apply (GetOpSerial_sequences sample_tree 100 _ eq_refl Hrun).
  right. left. reflexivity.
Defined.


(** * internal/engine: collecting the files to scan *)

Module finder.

(** What [filepath.Walk] reports below a root, entry by entry: a
    non-directory, an entry whose [Lstat] failed, or a directory with
    its entries in the order [Walk] takes them, [readable] telling
    whether its names could be read. *)
Inductive Entry : Type :=
| File (path : string)
| Broken (path : string)
| Dir (path : string) (readable : bool) (children : list Entry).

(** The variables [files] and [processedPaths] of [findFiles]; a
    [map[string]bool] that only ever stores [true] is a set. *)
Record Found : Type := mkFound {
  files : list string;
  processedPaths : gset string
}.

Definition mark (path : string) (st : Found) : Found :=
  mkFound (files st) ({[ path ]} ∪ processedPaths st).

Section FindFiles.

(** [filepath.Abs] ([None] on error), [filepath.Clean],
    [filepath.Ext], [strings.ToLower]; [os.Stat] as far as it is used
    ([None] on error, else [IsDir]); and what [filepath.Walk] reports
    from a root. *)
Variable filepath_Abs : string -> option string.
Variable filepath_Clean : string -> string.
Variable filepath_Ext : string -> string.
Variable strings_ToLower : string -> string.
Variable os_Stat : string -> option bool.
Variable tree : string -> Entry.

Definition isPhp (path : string) : bool :=
  String.eqb (strings_ToLower (filepath_Ext path)) ".php".

(** The first loop: the cleaned exclusions. *)
Definition exclusionPatterns (exclusions : list string) : gset string :=
  fold_left
    (fun acc ex =>
       match filepath_Abs ex with
       | Some absEx => {[ filepath_Clean absEx ]} ∪ acc
       | None => {[ filepath_Clean ex ]} ∪ acc
       end)
    exclusions ∅.

Section Walk.

Variable excluded : gset string.

(** The callback of [filepath.Walk] on an entry that is not a
    directory (it returns nil). *)
Definition visitFile (path : string) (st : Found) : Found :=
  match filepath_Abs path with
  | None => st
  | Some absWalkPath =>
      let cleanWalkPath := filepath_Clean absWalkPath in
      if bool_decide (cleanWalkPath ∈ excluded) then st
      else if bool_decide (cleanWalkPath ∈ processedPaths st) then st
      else if isPhp path then
        mkFound (files st ++ [cleanWalkPath]) ({[ cleanWalkPath ]} ∪ processedPaths st)
      else st
  end.

(** The callback on a directory: the state, and whether it returns
    [filepath.SkipDir]. *)
Definition visitDir (path : string) (st : Found) : Found * bool :=
  match filepath_Abs path with
  | None => (st, false)
  | Some absWalkPath =>
      let cleanWalkPath := filepath_Clean absWalkPath in
      (mark cleanWalkPath st, bool_decide (cleanWalkPath ∈ excluded))
  end.

(** [filepath.Walk] with that callback.  For an entry with an error
    the callback returns nil at once; a directory whose names cannot
    be read is not descended into. *)
Fixpoint walk (e : Entry) (st : Found) : Found :=
  match e with
  | File path => visitFile path st
  | Broken _ => st
  | Dir path readable children =>
      if readable then
        let '(st1, skip) := visitDir path st in
        if skip then st1
        else fold_left (fun s child => walk child s) children st1
      else st
  end.

(** The body of the loop over [paths]. *)
Definition findStep (st : Found) (p : string) : Found :=
  match filepath_Abs p with
  | None => st
  | Some absP =>
      let cleanPath := filepath_Clean absP in
      if bool_decide (cleanPath ∈ processedPaths st) then st
      else if bool_decide (cleanPath ∈ excluded) then mark cleanPath st
      else
        match os_Stat cleanPath with
        | None => mark cleanPath st
        | Some true => mark cleanPath (walk (tree cleanPath) st)
        | Some false =>
            if isPhp cleanPath then
              mark cleanPath (mkFound (files st ++ [cleanPath]) (processedPaths st))
            else mark cleanPath st
        end
  end.

End Walk.

(** [findFiles]; its error result is always nil. *)
Definition findFiles (paths exclusions : list string) : list string :=
  files (fold_left (findStep (exclusionPatterns exclusions)) paths (mkFound [] ∅)).

End FindFiles.

End finder.

Section FinderFacts.

Import finder.

Variable filepath_Abs : string -> option string.
Variable filepath_Clean : string -> string.
Variable filepath_Ext : string -> string.
Variable strings_ToLower : string -> string.
Variable os_Stat : string -> option bool.
Variable tree : string -> Entry.
Variable excluded : gset string.

Local Abbreviation php := (isPhp filepath_Ext strings_ToLower).
Local Abbreviation walkFrom := (walk filepath_Abs filepath_Clean filepath_Ext strings_ToLower excluded).

Lemma Entry_induction (P : Entry -> Prop) :
  (forall path, P (File path)) ->
  (forall path, P (Broken path)) ->
  (forall path readable children, Forall P children -> P (Dir path readable children)) ->
  forall e, P e.
Proof.
  intros HF HB HD. fix IH 1. intros [path | path | path readable children].
  - apply HF.
  - apply HB.
  - apply HD. induction children as [| c rest IHl]; constructor; [apply IH | exact IHl].
Qed.

(** The non-directories [filepath.Walk] can report in an entry: the
    entry itself, or those in the entries of a directory whose names
    could be read. *)
Fixpoint reported (e : Entry) : list string :=
  match e with
  | File path => [path]
  | Broken _ => []
  | Dir _ readable children =>
      if readable then List.concat (List.map reported children) else []
  end.

(** Where a listed file comes from.  It is the cleaned absolute form
    either of a given path that [os.Stat] reports as a non-directory,
    carrying the extension [.php] itself, or of a path with the
    extension [.php] that [filepath.Walk] reports as a non-directory
    under a given path that [os.Stat] reports as a directory. *)
Definition given_file (paths : list string) (f : string) : Prop :=
  exists p absP,
    In p paths /\ filepath_Abs p = Some absP /\ f = filepath_Clean absP
    /\ os_Stat f = Some false /\ php f = true.

Definition found_under (root : string) (f : string) : Prop :=
  exists path absWalkPath,
    In path (reported (tree root)) /\ filepath_Abs path = Some absWalkPath
    /\ f = filepath_Clean absWalkPath /\ php path = true.

Definition origin (paths : list string) (f : string) : Prop :=
  given_file paths f
  \/ exists p absP,
       In p paths /\ filepath_Abs p = Some absP
       /\ os_Stat (filepath_Clean absP) = Some true
       /\ found_under (filepath_Clean absP) f.

Section Invariant.

(** What is known of every file listed so far. *)
Variable from : string -> Prop.

Definition sound (st : Found) : Prop :=
  NoDup (files st)
  /\ (forall f, In f (files st) -> f ∈ processedPaths st)
  /\ (forall f, In f (files st) -> f ∉ excluded)
  /\ (forall f, In f (files st) -> from f).

Lemma sound_mark (path : string) (st : Found) : sound st -> sound (mark path st).
Proof.
  intros (H1 & H2 & H3 & H4). unfold sound, mark. cbn [files processedPaths].
  repeat split; try assumption. intros f Hf. apply elem_of_union_r, H2, Hf.
Qed.

Lemma sound_add (f : string) (st : Found) :
  sound st ->
  f ∉ excluded ->
  f ∉ processedPaths st ->
  from f ->
  sound (mkFound (files st ++ [f]) ({[ f ]} ∪ processedPaths st)).
Proof.
  intros (H1 & H2 & H3 & H4) Hex Hnew Hfrom. unfold sound. cbn [files processedPaths].
  repeat split.
  - apply NoDup_app. split; [exact H1 |]. split.
    + intros x Hx. rewrite list_elem_of_In in Hx.
      intros Hin. apply list_elem_of_In in Hin. destruct Hin as [<- | []].
      apply Hnew, H2, Hx.
    + apply NoDup_singleton.
  - intros g Hg. apply in_app_iff in Hg as [Hg | [<- | []]].
    + apply elem_of_union_r, H2, Hg.
    + apply elem_of_union_l, elem_of_singleton. reflexivity.
  - intros g Hg. apply in_app_iff in Hg as [Hg | [<- | []]]; [apply H3, Hg | exact Hex].
  - intros g Hg. apply in_app_iff in Hg as [Hg | [<- | []]]; [apply H4, Hg | exact Hfrom].
Qed.

(** A walk keeps the invariant when the files it can report are
    accounted for. *)
Definition accounted (e : Entry) : Prop :=
  forall path absWalkPath,
    In path (reported e) -> filepath_Abs path = Some absWalkPath -> php path = true ->
    from (filepath_Clean absWalkPath).

Lemma walk_sound (e : Entry) : accounted e -> forall st, sound st -> sound (walkFrom e st).
Proof.
  induction e as [path | path | path readable children IH] using Entry_induction;
    intros Hacc st Hst; cbn [walk].
  - unfold visitFile. destruct (filepath_Abs path) as [absP |] eqn:Habs; [| exact Hst].
    cbn zeta. destruct (bool_decide_reflect (filepath_Clean absP ∈ excluded)); [exact Hst |].
    destruct (bool_decide_reflect (filepath_Clean absP ∈ processedPaths st)); [exact Hst |].
    destruct (php path) eqn:Hphp; [| exact Hst].
    apply sound_add; try assumption.
    apply (Hacc path absP); [now left | exact Habs | exact Hphp].
  - exact Hst.
  - destruct readable; [| exact Hst].
    assert (Hrest : forall s, sound s ->
              sound (fold_left (fun s child => walkFrom child s) children s)).
    { unfold accounted in Hacc. cbn [reported] in Hacc. clear Hst st.
      induction IH as [| c rest Hc _ IHrest]; intros s Hs; cbn [fold_left]; [exact Hs |].
      apply IHrest.
      - intros p a Hin. apply Hacc. cbn [List.map List.concat].
        apply in_or_app. now right.
      - apply Hc; [| exact Hs]. intros p a Hin. apply Hacc.
        cbn [List.map List.concat]. apply in_or_app. now left. }
    unfold visitDir. destruct (filepath_Abs path) as [absP |].
    + cbn zeta. destruct (bool_decide (filepath_Clean absP ∈ excluded)).
      * apply sound_mark, Hst.
      * apply Hrest, sound_mark, Hst.
    + apply Hrest, Hst.
Qed.

End Invariant.

Lemma findStep_sound (paths : list string) (st : Found) (p : string) :
  In p paths ->
  sound (origin paths) st ->
  sound (origin paths)
    (findStep filepath_Abs filepath_Clean filepath_Ext strings_ToLower os_Stat tree
       excluded st p).
Proof.
  intros Hp Hst. unfold findStep.
  destruct (filepath_Abs p) as [absP |] eqn:Habs; [| exact Hst]. cbn zeta.
  destruct (bool_decide_reflect (filepath_Clean absP ∈ processedPaths st)); [exact Hst |].
  destruct (bool_decide_reflect (filepath_Clean absP ∈ excluded));
    [apply sound_mark, Hst |].
  destruct (os_Stat (filepath_Clean absP)) as [[] |] eqn:Hstat.
  - apply sound_mark, walk_sound; [| exact Hst].
    intros path absWalkPath Hin Hwalk Hphp. right.
    exists p, absP. repeat split; try assumption.
    exists path, absWalkPath. auto.
  - destruct (php (filepath_Clean absP)) eqn:Hphp; [| apply sound_mark, Hst].
    assert (Hfrom : origin paths (filepath_Clean absP)).
    { left. exists p, absP. auto. }
    pose proof (sound_add (origin paths) (filepath_Clean absP) st Hst
                  ltac:(assumption) ltac:(assumption) Hfrom) as (H1 & H2 & H3 & H4).
    cbn [files processedPaths] in *.
    unfold sound, mark. cbn [files processedPaths]. repeat split; assumption.
  - apply sound_mark, Hst.
Qed.

End FinderFacts.

Section FinderResult.

Import finder.

Variable filepath_Abs : string -> option string.
Variable filepath_Clean : string -> string.
Variable filepath_Ext : string -> string.
Variable strings_ToLower : string -> string.
Variable os_Stat : string -> option bool.
Variable tree : string -> Entry.

(** Whatever the file system holds and however the paths overlap,
    [findFiles] lists no file twice and no excluded path, and every
    file it lists is the cleaned absolute form of a given path that is
    a non-directory with the extension [.php] (in any letter case), or
    of a path with that extension that the walk of a given directory
    reports as a non-directory. *)
Theorem findFiles_sound (paths exclusions : list string) :
  let found :=
    findFiles filepath_Abs filepath_Clean filepath_Ext strings_ToLower os_Stat tree
      paths exclusions in
  NoDup found
  /\ (forall f, In f found ->
        f ∉ exclusionPatterns filepath_Abs filepath_Clean exclusions)
  /\ (forall f, In f found ->
        origin filepath_Abs filepath_Clean filepath_Ext strings_ToLower os_Stat tree
          paths f).
Proof.
  cbn zeta. unfold findFiles.
  set (excluded := exclusionPatterns filepath_Abs filepath_Clean exclusions).
  set (from := origin filepath_Abs filepath_Clean filepath_Ext strings_ToLower os_Stat tree
                 paths).
  assert (H : forall l st,
             (forall p, In p l -> In p paths) ->
             sound excluded from st ->
             sound excluded from
               (fold_left
                  (findStep filepath_Abs filepath_Clean filepath_Ext strings_ToLower
                     os_Stat tree excluded) l st)).
  { induction l as [| p rest IH]; intros st Hl Hst; cbn [fold_left]; [exact Hst |].
    apply IH; [intros q Hq; apply Hl; now right |].
    apply findStep_sound; [apply Hl; now left | exact Hst]. }
  destruct (H paths (mkFound [] ∅)) as (H1 & _ & H3 & H4).
  { auto. }
  { unfold sound. cbn [files processedPaths].
    repeat split; [constructor | contradiction | contradiction | contradiction]. }
  repeat split; assumption.
Qed.

End FinderResult.


(** * php-bridge: the life cycle of the parser bridge

    The package variables as a state, [StartBridge] and [StopBridge]
    as steps on it, for calls that are made one after the other. *)

Module php_bridge.

(** The package variables.  A file is a number; [closed] lists the
    files of the Go side that have been closed, in order. *)
Record Bridge : Type := mkBridge {
  goStdinWriter : option nat;
  goStdoutReader : option nat;
  phpProcessExited : bool;
  initOnce : bool;
  startErr : option string;
  stopOnce : bool;
  stopErr : option string;
  closed : list nat
}.

Definition initial : Bridge :=
  mkBridge None None false false None false None [].

(** The two ends the Go side keeps. *)
Definition stdinWriter : nat := 1.
Definition stdoutReader : nat := 2.

(** What a call of [StartBridge] meets: whether the two [os.Pipe]
    calls succeed and what [C.init] returns. *)
Record StartEnv : Type := mkStartEnv {
  stdinPipe : bool;
  stdoutPipe : bool;
  initRet : Z
}.

(** What the wait in [StopBridge] receives. *)
Inductive ExitEvent : Type :=
| ExitError (msg : string)
| ExitNil
| ExitClosed
| ExitTimeout.

(** The function passed to [initOnce.Do]. *)
Definition initBody (env : StartEnv) (b : Bridge) : Bridge :=
  if negb (stdinPipe env) then
    mkBridge (goStdinWriter b) (goStdoutReader b) (phpProcessExited b) (initOnce b)
      (Some "failed to create stdin pipe") (stopOnce b) (stopErr b) (closed b)
  else if negb (stdoutPipe env) then
    mkBridge (goStdinWriter b) (goStdoutReader b) (phpProcessExited b) (initOnce b)
      (Some "failed to create stdout pipe") (stopOnce b) (stopErr b)
      (closed b ++ [stdinWriter])
  else if negb (initRet env =? 0) then
    mkBridge None None false (initOnce b)
      (Some "php bridge C initialization failed") (stopOnce b) (stopErr b)
      (closed b ++ [stdinWriter; stdoutReader])
  else
    mkBridge (Some stdinWriter) (Some stdoutReader) true (initOnce b)
      (startErr b) (stopOnce b) (stopErr b) (closed b).

Definition set_initOnce (b : Bridge) : Bridge :=
  mkBridge (goStdinWriter b) (goStdoutReader b) (phpProcessExited b) true
    (startErr b) (stopOnce b) (stopErr b) (closed b).

(** [StartBridge]: the state afterwards and the pipes or the error. *)
Definition StartBridge (env : StartEnv) (b : Bridge) : Bridge * result (nat * nat) :=
  let b := if initOnce b then b else set_initOnce (initBody env b) in
  match startErr b with
  | Some err => (b, Err err)
  | None =>
      match goStdinWriter b, goStdoutReader b, phpProcessExited b with
      | Some w, Some r, true => (b, Ok (w, r))
      | _, _, _ => (b, Err "bridge state inconsistent after initialization attempt")
      end
  end.

(** The function passed to [stopOnce.Do]. *)
Definition stopBody (ev : ExitEvent) (b : Bridge) : Bridge :=
  let closed1 :=
    match goStdinWriter b with
    | Some w => (closed b ++ [w])%list
    | None => closed b
    end in
  let stopErr1 :=
    if phpProcessExited b then
      match ev with
      | ExitError msg => Some msg
      | ExitTimeout => Some "timeout waiting for bridge exit signal"%string
      | _ => stopErr b
      end
    else stopErr b in
  let closed2 :=
    match goStdoutReader b with
    | Some r => (closed1 ++ [r])%list
    | None => closed1
    end in
  mkBridge None None false (initOnce b) (startErr b) (stopOnce b) stopErr1 closed2.

Definition set_stopOnce (b : Bridge) : Bridge :=
  mkBridge (goStdinWriter b) (goStdoutReader b) (phpProcessExited b) (initOnce b)
    (startErr b) true (stopErr b) (closed b).

(** [StopBridge]: the state afterwards and the error returned. *)
Definition StopBridge (ev : ExitEvent) (b : Bridge) : Bridge * option string :=
  let b := if stopOnce b then b else set_stopOnce (stopBody ev b) in
  (b, stopErr b).

(** A call of either function, and the state after a series of calls. *)
Inductive Call : Type :=
| Start (env : StartEnv)
| Stop (ev : ExitEvent).

Definition call (b : Bridge) (c : Call) : Bridge :=
  match c with
  | Start env => fst (StartBridge env b)
  | Stop ev => fst (StopBridge ev b)
  end.

Definition run (b : Bridge) (calls : list Call) : Bridge := fold_left call calls b.

End php_bridge.

Section BridgeFacts.

Import php_bridge.



(** A state in which [StartBridge] can only fail. *)
Definition failed (b : Bridge) : Prop :=
  initOnce b = true
  /\ (startErr b <> None \/ goStdinWriter b = None \/ goStdoutReader b = None
      \/ phpProcessExited b = false).





Lemma failed_start (env : StartEnv) (b : Bridge) :
  failed b ->
  fst (StartBridge env b) = b /\ exists msg, snd (StartBridge env b) = Err msg.
Proof.
  intros [Hi Hf]. unfold StartBridge. rewrite Hi.
  destruct (startErr b) as [err |]; [split; [reflexivity | eauto] |].
  destruct (goStdinWriter b), (goStdoutReader b), (phpProcessExited b);
    (split; [reflexivity |]); eauto.
  destruct Hf as [Hf | [Hf | [Hf | Hf]]]; congruence.
Qed.

Lemma failed_stop (ev : ExitEvent) (b : Bridge) :
  failed b -> failed (fst (StopBridge ev b)).
Proof.
  intros [Hi Hf]. unfold StopBridge, failed. cbn [fst].
  destruct (stopOnce b); [split; assumption |].
  cbn. split; [exact Hi | right; left; reflexivity].
Qed.

Lemma failed_run (calls : list Call) (b : Bridge) : failed b -> failed (run b calls).
Proof.
  revert b. unfold run. induction calls as [| c rest IH]; intros b Hb; [exact Hb |].
  cbn [fold_left]. apply IH. destruct c as [env | ev]; cbn [call].
  - now rewrite (proj1 (failed_start env b Hb)).
  - apply failed_stop, Hb.
Qed.



End BridgeFacts.


(** * The feature set handed to the analyzers *)

Section FeatureSetFacts.

Import features.

Variable Log2 : float -> float.
Variable stat_Mean : list Z -> float.
Variable stat_Variance : list Z -> float.
Variable tagNumber : string -> Z.

Local Abbreviation extract := (ExtractAllFeatures Log2 stat_Mean stat_Variance tagNumber).

Lemma GetWordsAndCallable_words (fuel : nat) (t : ast.Value)
  (words : option (list string)) (callable : bool) (err : option string) :
  ast.GetWordsAndCallable fuel t = Some (words, callable, err) -> words <> Some [].
Proof.
  unfold ast.GetWordsAndCallable. intros H.
  destruct (ast.checkNameAndKind _ _ fuel t ([], false)) as [[ws c] |];
    destruct t; try discriminate; injection H as <- _ _;
    try discriminate; now destruct ws.
Qed.

(** What every feature set that [ExtractAllFeatures] returns
    satisfies.  It carries the tree it was given; the statistics are
    missing exactly for empty content; the words and the operation
    sequences are nil or non-empty, never an empty list; and without a
    tree or without a manager there are no words, no operation
    sequences and no callable flag, so a set callable flag or present
    words always come with both a tree and a manager. *)
Theorem ExtractAllFeatures_consistent
  (content : string) (goAST : ast.Value) (astMgr : option nat)
  (fs : FeatureSet) (errs : list string) :
  extract content goAST astMgr = Some (fs, errs) ->
  RawAST fs = goAST
  /\ (Statistical fs = None <-> content = ""%string)
  /\ ASTWords fs <> Some []
  /\ ASTOpSequence fs <> Some []
  /\ (goAST = ast.VNil \/ astMgr = None ->
      ASTWords fs = None /\ ASTOpSequence fs = None /\ Callable fs = false)
  /\ (goAST <> ast.VNil -> astMgr = None -> errs <> []).
Proof.
  unfold ExtractAllFeatures. intros H.
  assert (Hstat : (if (0 <? len content)%Z
                   then Some (CalculateStatisticalFeatures Log2 stat_Mean stat_Variance
                                tagNumber content)
                   else None) = None <-> content = ""%string).
  { destruct content as [| c rest]; [cbn; tauto |].
    unfold len. cbn [String.length].
    destruct (Z.ltb_spec 0 (Z.of_nat (S (String.length rest)))); [| lia].
    split; discriminate. }
  destruct goAST as [| f | s | b | items | entries | k f l c] eqn:Hast.
  { injection H as <- <-. cbn. repeat split; try tauto; try discriminate; apply Hstat. }
  all: destruct astMgr as [fuel |];
    [| injection H as <- <-; cbn [RawAST Statistical ASTWords ASTOpSequence Callable];
       repeat split; try discriminate; try apply Hstat; try tauto ].
  all: destruct (ast.GetWordsAndCallable fuel _) as [[[words callable] wordsErr] |] eqn:Hw;
    [| discriminate].
  all: destruct (ast.GetOpSerial fuel _) as [ops |]; [| discriminate].
  all: apply GetWordsAndCallable_words in Hw.
  all: destruct wordsErr as [e |], ops as [[| c0 rest] | e'];
    injection H as <- <-; cbn [RawAST Statistical ASTWords ASTOpSequence Callable].
  all: repeat split; try discriminate; try apply Hstat; try exact Hw.
  all: try match goal with
           | Hc : _ \/ _ |- _ => destruct Hc; discriminate
           end.
  all: try (intros; congruence).
Qed.

End FeatureSetFacts.

Lemma ExtractAllFeatures_consistent_witness :
  exists fs errs,
    features.ExtractAllFeatures (fun x => x) (fun _ => 0%float) (fun _ => 0%float)
      (fun _ => 0) "<?php" sample_tree (Some 100%nat) = Some (fs, errs)
    /\ features.ASTWords fs = Some ["f"%string]
    /\ features.ASTWords fs <> Some []
    /\ features.ASTOpSequence fs <> Some [].
Proof.
  destruct (features.ExtractAllFeatures (fun x => x) (fun _ => 0%float) (fun _ => 0%float)
              (fun _ => 0) "<?php" sample_tree (Some 100%nat)) as [[fs errs] |] eqn:Hrun;
    [| vm_compute in Hrun; discriminate].
  exists fs, errs. split; [reflexivity |].
  destruct (ExtractAllFeatures_consistent _ _ _ _ _ _ _ fs errs Hrun)
    as (_ & _ & Hw & Ho & _).
  split; [| split; assumption].
  unfold features.ExtractAllFeatures in Hrun.
  assert (Hwords : ast.GetWordsAndCallable 100 sample_tree
                   = Some (Some ["f"%string], true, None)) by (vm_compute; reflexivity).
  rewrite Hwords in Hrun. cbn [sample_tree] in Hrun.
  destruct (ast.GetOpSerial 100 _) as [[[| c rest] | e] |]; try discriminate;
    injection Hrun as <- _; reflexivity.
Defined.


(** * An engine built after the bridge was stopped *)

Section EngineAfterCleanup.

Import php_bridge engine.

Variable strings_ToLower : string -> string.
Variable NewRegexAnalyzer : result Analyzer.
Variable NewYaraAnalyzer : result Analyzer.
Variable NewStatisticalAnalyzer : result Analyzer.
Variable NewBayesWordsAnalyzer : result Analyzer.
Variable NewSvmProssesAnalyzer : result Analyzer.

Local Abbreviation New :=
  (NewEngine strings_ToLower NewRegexAnalyzer NewYaraAnalyzer NewStatisticalAnalyzer
     NewBayesWordsAnalyzer NewSvmProssesAnalyzer).

(** [ast.NewPhpAstManager]: a manager, good for [fuel] nested calls,
    when [StartBridge] succeeds. *)
Definition NewPhpAstManager (env : StartEnv) (b : Bridge) (fuel : nat) : option nat :=
  match snd (StartBridge env b) with
  | Ok _ => Some fuel
  | Err _ => None
  end.

Lemma NewEngine_no_bridge (EnabledAnalyzers : list string) :
  analyzers (New EnabledAnalyzers None) = ∅ /\ astManager (New EnabledAnalyzers None) = None.
Proof.
  unfold NewEngine. cbn [analyzers astManager]. split.
  - apply map_eq. intros n. rewrite lookup_empty.
    rewrite fold_register_lookup, lookup_empty.
    replace (if existsb _ astRequiredBy then None else None) with (@None nat)
      by (now destruct (existsb _ astRequiredBy)).
    rewrite registration_no_bridge. now destruct (member n _).
  - now destruct (existsb _ astRequiredBy).
Qed.

Lemma runAnalyzers_none (e : Engine) (file : FileInfo) (content : string)
  (fs : features.FeatureSet) (names : list string) :
  analyzers e = ∅ -> fst (runAnalyzers e file content fs names) = [].
Proof.
  intros He. rewrite runAnalyzers_findings.
  induction names as [| n rest IH]; [reflexivity |].
  cbn [flat_map]. rewrite IH. unfold contribution. now rewrite He, lookup_empty.
Qed.

(** The bridge cannot be started twice, and without the bridge no
    analyzer is registered.  So an engine that is built after an
    earlier one was cleaned up holds no analyzer and no manager, and
    whatever it scans comes back without findings, rated None unless
    the file could not be read. *)
Theorem engine_after_cleanup
  (calls more : list Call) (env env' : StartEnv) (ev : ExitEvent)
  (EnabledAnalyzers : list string) (fuel : nat) :
  let b := run initial calls in
  stopOnce b = false ->
  (exists pipes, snd (StartBridge env b) = Ok pipes) ->
  let later := run (fst (StopBridge ev (fst (StartBridge env b)))) more in
  let e := New EnabledAnalyzers (NewPhpAstManager env' later fuel) in
  analyzers e = ∅
  /\ astManager e = None
  /\ forall Log2 stat_Mean stat_Variance tagNumber w filePath res events,
       scanFile Log2 stat_Mean stat_Variance tagNumber e w filePath = Some (res, events) ->
       Findings res = []
       /\ (Error res = None -> OverallRisk res = RiskNone).
Proof.
  cbn zeta. intros Hstop [pipes Hok].
  set (b := run initial calls) in *.
  assert (Hfailed : failed (run (fst (StopBridge ev (fst (StartBridge env b)))) more)).
  { apply failed_run.
    assert (Hs : stopOnce (fst (StartBridge env b)) = false
                 /\ initOnce (fst (StartBridge env b)) = true).
    { unfold StartBridge.
      assert (H1 : stopOnce (if initOnce b then b else set_initOnce (initBody env b)) = false
                   /\ initOnce (if initOnce b then b else set_initOnce (initBody env b))
                      = true).
      { destruct (initOnce b) eqn:E; [split; assumption |]. unfold initBody.
        destruct (negb (stdinPipe env)), (negb (stdoutPipe env)),
          (negb (initRet env =? 0)); split; (exact Hstop || reflexivity). }
      set (b1 := if initOnce b then b else set_initOnce (initBody env b)) in *.
      destruct (startErr b1); [exact H1 |].
      destruct (goStdinWriter b1), (goStdoutReader b1), (phpProcessExited b1); exact H1. }
    destruct Hs as [Hs Hi]. unfold StopBridge, failed. cbn [fst]. rewrite Hs. cbn.
    split; [exact Hi | right; left; reflexivity]. }
  destruct (failed_start env' _ Hfailed) as [_ [msg Hmsg]].
  unfold NewPhpAstManager. rewrite Hmsg.
  destruct (NewEngine_no_bridge EnabledAnalyzers) as [Hempty Hnone].
  split; [exact Hempty |]. split; [exact Hnone |].
  intros Log2 stat_Mean stat_Variance tagNumber w filePath res events Hscan.
  unfold scanFile in Hscan.
  destruct (Stat w filePath) as [[size modTime] | err];
    [| injection Hscan as <- _; split; [reflexivity | discriminate]].
  destruct (maxSize <? size); [injection Hscan as <- _; split; [reflexivity | discriminate] |].
  destruct (size =? 0); [injection Hscan as <- _; split; reflexivity |].
  destruct (ReadFile w filePath) as [content | err];
    [| injection Hscan as <- _; split; [reflexivity | discriminate]].
  rewrite Hnone in Hscan.
  destruct (features.ExtractAllFeatures _ _ _ _ content ast.VNil None)
    as [[featureSet errs] |]; [| discriminate].
  pose proof (runAnalyzers_none _ (mkFileInfo filePath size modTime) content featureSet
                (rangeOrder w) Hempty) as Hrun.
  destruct (runAnalyzers _ _ content featureSet (rangeOrder w)) as [findings analyzerEvents].
  cbn [fst] in Hrun. subst findings.
  injection Hscan as <- _. split; reflexivity.
Qed.

End EngineAfterCleanup.

Lemma engine_after_cleanup_witness :
  engine.analyzers
    (NewEngine (fun x => x) (Ok (reporting_analyzer "regex")) (Err "no rules")
       (Err "none") (Err "none") (Err "none") ["regex"%string]
       (NewPhpAstManager (php_bridge.mkStartEnv true true 0)
          (php_bridge.run
             (fst (php_bridge.StopBridge php_bridge.ExitClosed
                     (fst (php_bridge.StartBridge (php_bridge.mkStartEnv true true 0)
                             (php_bridge.run php_bridge.initial [])))))
             []) 100))
  = ∅.
Proof.
  apply (engine_after_cleanup (fun x => x) (Ok (reporting_analyzer "regex")) (Err "no rules")
           (Err "none") (Err "none") (Err "none") [] []
           (php_bridge.mkStartEnv true true 0) (php_bridge.mkStartEnv true true 0)
           php_bridge.ExitClosed ["regex"%string] 100).
  - reflexivity.
  - exists (php_bridge.stdinWriter, php_bridge.stdoutReader). reflexivity.
Defined.
